(** * model_DAforcing: observation ingestion for data assimilation

    A shallow embedding of the pure parts of [src/model_DAforcing.py]:
    the timeslice window loop of [DAforcing_model.__init__], the quality
    control and temporal alignment of [_read_timeslice_files] and
    [_interpolate_one], the file selection of [_read_timeseries_files]
    and the last-observation extraction of [_read_lastobs_file].

    Conventions.
    - A [float] is an IEEE binary64 value (Rocq's primitive floats); a
      missing reading is [nan], as in numpy and pandas.
    - A [datetime] is a whole number of seconds on the proleptic Gregorian
      time line, counted from 0001-01-01 00:00:00; a [timedelta] is a
      number of seconds.  Python's [+], [-] and [<=] on naive datetimes
      are those of [Z] on this count.
    - Code that can raise returns a [result]; the exception is named. *)

From Stdlib Require Import ZArith List Bool Lia Floats Ascii String Uint63 Permutation Sorted.
Import ListNotations.

Set Implicit Arguments.

(** ** Exceptions and results *)

Inductive exn : Type :=
| ValueError
| TypeError
| IndexError
| KeyError
| AttributeError
| ZeroDivisionError.

Inductive result (A : Type) : Type :=
| Ok (a : A)
| Raise (e : exn).

Arguments Ok {A} a.
Arguments Raise {A} e.

Definition bind {A B : Type} (r : result A) (k : A -> result B) : result B :=
  match r with
  | Ok a => k a
  | Raise e => Raise e
  end.

Notation "x <- r ;; k" := (bind r (fun x => k))
  (at level 61, r at next level, right associativity).

Fixpoint mapM {A B : Type} (f : A -> result B) (l : list A) : result (list B) :=
  match l with
  | [] => Ok []
  | a :: l' => b <- f a ;; bs <- mapM f l' ;; Ok (b :: bs)
  end.

(** ** Observation Loader: quality control (lines 229-237) *)

Module QC.

Local Open Scope float_scope.

(** One row of [observation_df] after the per-file frames are
    concatenated. *)
Record obs_row : Type := mk_obs_row {
  stationId : string;
  time : string;
  discharge : float;
  discharge_quality : float
}.

Definition observation_df : Type := list obs_row.

Definition set_discharge (r : obs_row) (d : float) : obs_row :=
  mk_obs_row (stationId r) (time r) d (discharge_quality r).

Definition set_quality (r : obs_row) (q : float) : obs_row :=
  mk_obs_row (stationId r) (time r) (discharge r) q.

(** [df.loc[mask, 'discharge'] = np.nan]: the mask is evaluated on the
    frame as it stands, row by row. *)
Definition loc_assign_nan (mask : obs_row -> bool) (df : observation_df)
  : observation_df :=
  map (fun r => if mask r then set_discharge r nan else r) df.

(** [observation_df['discharge_quality'] = observation_df['discharge_quality']/100] *)
Definition normalize_quality (df : observation_df) : observation_df :=
  map (fun r => set_quality r (discharge_quality r / 100)) df.

(** Lines 231-237, in the order of the source. *)
Definition qc_filter (qc_threshold : float) (df : observation_df)
  : observation_df :=
  let df := normalize_quality df in
  let df := loc_assign_nan (fun r => discharge_quality r <? 0) df in
  let df := loc_assign_nan (fun r => 1 <? discharge_quality r) df in
  let df := loc_assign_nan (fun r => discharge_quality r <? qc_threshold) df in
  let df := loc_assign_nan (fun r => discharge r <=? 0) df in
  df.

(** The four tests of the specification, on the raw row. *)
Definition fails_qc (qc_threshold : float) (r : obs_row) : bool :=
  let q := discharge_quality r / 100 in
  (q <? 0) || (1 <? q) || (q <? qc_threshold) || (discharge r <=? 0).

Definition qc_row (qc_threshold : float) (r : obs_row) : obs_row :=
  mk_obs_row (stationId r) (time r)
    (if fails_qc qc_threshold r then nan else discharge r)
    (discharge_quality r / 100).

End QC.

(** ** Datetimes (Python's [datetime] module) *)

Module Datetime.

Local Open Scope Z_scope.

(** An instant is its number of whole seconds since 0001-01-01 00:00:00;
    a duration is a number of seconds. *)
Definition datetime : Type := Z.
Definition timedelta : Type := Z.

Definition hours (h : Z) : timedelta := 3600 * h.
Definition minutes (m : Z) : timedelta := 60 * m.
Definition seconds (s : Z) : timedelta := s.

(** The calendar of CPython's [datetime]: [_is_leap], [_days_before_year],
    [_days_in_month], [_days_before_month], [_ymd2ord], [_ord2ymd]. *)
Definition _is_leap (year : Z) : bool :=
  (year mod 4 =? 0) && (negb (year mod 100 =? 0) || (year mod 400 =? 0)).

Definition _days_before_year (year : Z) : Z :=
  let y := year - 1 in y * 365 + y / 4 - y / 100 + y / 400.

Definition _DAYS_IN_MONTH : list Z :=
  [-1; 31; 28; 31; 30; 31; 30; 31; 31; 30; 31; 30; 31].

Definition _DAYS_BEFORE_MONTH : list Z :=
  [-1; 0; 31; 59; 90; 120; 151; 181; 212; 243; 273; 304; 334].

Definition _days_in_month (year month : Z) : Z :=
  if (month =? 2) && _is_leap year then 29
  else nth (Z.to_nat month) _DAYS_IN_MONTH (-1).

Definition _days_before_month (year month : Z) : Z :=
  nth (Z.to_nat month) _DAYS_BEFORE_MONTH (-1)
  + (if (2 <? month) && _is_leap year then 1 else 0).

Definition _ymd2ord (year month day : Z) : Z :=
  _days_before_year year + _days_before_month year month + day.

Definition _DI400Y : Z := 146097.
Definition _DI100Y : Z := 36524.
Definition _DI4Y : Z := 1461.

(** The end of [_ord2ymd]: month and day of the day [n] of a year, from
    0; the estimate [(n + 50) >> 5] is exact or one too large. *)
Definition month_and_day (n : Z) (leapyear : bool) : Z * Z :=
  let month := Z.shiftr (n + 50) 5 in
  let preceding :=
    nth (Z.to_nat month) _DAYS_BEFORE_MONTH (-1)
    + (if (2 <? month) && leapyear then 1 else 0) in
  if n <? preceding then
    let month := month - 1 in
    let preceding :=
      preceding
      - (nth (Z.to_nat month) _DAYS_IN_MONTH (-1)
         + (if (month =? 2) && leapyear then 1 else 0)) in
    (month, n - preceding + 1)
  else (month, n - preceding + 1).

Definition _ord2ymd (n : Z) : Z * Z * Z :=
  let n := n - 1 in
  let n400 := n / _DI400Y in
  let n := n mod _DI400Y in
  let year := n400 * 400 + 1 in
  let n100 := n / _DI100Y in
  let n := n mod _DI100Y in
  let n4 := n / _DI4Y in
  let n := n mod _DI4Y in
  let n1 := n / 365 in
  let n := n mod 365 in
  let year := year + n100 * 100 + n4 * 4 + n1 in
  if (n1 =? 4) || (n100 =? 4) then (year - 1, 12, 31)
  else
    let leapyear := (n1 =? 3) && (negb (n4 =? 24) || (n100 =? 3)) in
    (year, fst (month_and_day n leapyear), snd (month_and_day n leapyear)).

(** The fields of an instant: [toordinal] is [1 + seconds div 86400]. *)
Definition toordinal (t : datetime) : Z := t / 86400 + 1.
Definition year_of (t : datetime) : Z := fst (fst (_ord2ymd (toordinal t))).
Definition month_of (t : datetime) : Z := snd (fst (_ord2ymd (toordinal t))).
Definition day_of (t : datetime) : Z := snd (_ord2ymd (toordinal t)).
Definition hour_of (t : datetime) : Z := (t mod 86400) / 3600.
Definition minute_of (t : datetime) : Z := (t mod 3600) / 60.
Definition second_of (t : datetime) : Z := t mod 60.

(** [datetime(year, month, day, hour, minute, second)], fields in range. *)
Definition mk_datetime (year month day hour minute second : Z) : datetime :=
  (_ymd2ord year month day - 1) * 86400 + hour * 3600 + minute * 60 + second.

(** [datetime.min] and [datetime.max], in whole seconds: Python's
    [datetime] holds the instants of the years 1 to 9999. *)
Definition datetime_min : datetime := mk_datetime 1 1 1 0 0 0.
Definition datetime_max : datetime := mk_datetime 9999 12 31 23 59 59.

(** Decimal digits: ["%02d"] and ["%04d"] of a field in range.  The
    year is written with four digits, as [strftime('%Y')] writes the
    years 1000 to 9999 (the C library of Linux does not pad a year
    below 1000): the theorems on texts take the years from 1000 on. *)
Definition digit (n : Z) : ascii := ascii_of_nat (48 + Z.to_nat (n mod 10)).

Definition pad2 (n : Z) : string :=
  String (digit (n / 10)) (String (digit n) EmptyString).

Definition pad4 (n : Z) : string :=
  String (digit (n / 1000)) (String (digit (n / 100)) (pad2 n)).

(** [t.strftime('%Y-%m-%d_%H:%M:%S')] *)
Definition strftime_YmdHMS (t : datetime) : string :=
  (pad4 (year_of t) ++ "-" ++ pad2 (month_of t) ++ "-" ++ pad2 (day_of t)
   ++ "_" ++ pad2 (hour_of t) ++ ":" ++ pad2 (minute_of t) ++ ":"
   ++ pad2 (second_of t))%string.

(** [t.strftime('%Y-%m-%d_%H')] *)
Definition strftime_YmdH (t : datetime) : string :=
  (pad4 (year_of t) ++ "-" ++ pad2 (month_of t) ++ "-" ++ pad2 (day_of t)
   ++ "_" ++ pad2 (hour_of t))%string.

(** The pattern YYYY-MM-DD_HH:MM:SS: nineteen characters, digits between
    the separators. *)
Definition is_digit (c : ascii) : bool :=
  (48 <=? nat_of_ascii c)%nat && (nat_of_ascii c <=? 57)%nat.

Definition YmdHMS_pattern (s : string) : bool :=
  match list_ascii_of_string s with
  | [y1; y2; y3; y4; s1; m1; m2; s2; d1; d2; s3; h1; h2; s4; n1; n2; s5;
     c1; c2] =>
      forallb is_digit [y1; y2; y3; y4; m1; m2; d1; d2; h1; h2; n1; n2; c1; c2]
      && Ascii.eqb s1 "-" && Ascii.eqb s2 "-" && Ascii.eqb s3 "_"
      && Ascii.eqb s4 ":" && Ascii.eqb s5 ":"
  | _ => false
  end.

(** Parsing.  The parser reads the zero-padded, fixed-width form that
    [strftime] writes; any other text is a [ValueError].  (Python's
    [strptime] also reads some fields without the padding; no caller in
    this file hands it such text.) *)
Definition digit_val (c : ascii) : option Z :=
  let n := Z.of_nat (nat_of_ascii c) in
  if (48 <=? n) && (n <=? 57) then Some (n - 48) else None.

Fixpoint number (l : list ascii) (acc : Z) : option Z :=
  match l with
  | [] => Some acc
  | c :: l' =>
      match digit_val c with
      | Some d => number l' (10 * acc + d)
      | None => None
      end
  end.

Definition field (l : list ascii) (from len : nat) : option Z :=
  number (firstn len (skipn from l)) 0.

Definition sep (l : list ascii) (at_ : nat) (c : ascii) : bool :=
  match nth_error l at_ with
  | Some c' => Ascii.eqb c c'
  | None => false
  end.

Definition in_range (lo x hi : Z) : bool := (lo <=? x) && (x <=? hi).

Definition checked_datetime (year month day hour minute second : Z)
  : result datetime :=
  if in_range 1 year 9999 && in_range 1 month 12
     && in_range 1 day (_days_in_month year month)
     && in_range 0 hour 23 && in_range 0 minute 59 && in_range 0 second 59
  then Ok (mk_datetime year month day hour minute second)
  else Raise ValueError.

(** [datetime.strptime(s, '%Y-%m-%d_%H')] *)
Definition strptime_YmdH (s : string) : result datetime :=
  let l := list_ascii_of_string s in
  if (List.length l =? 13)%nat && sep l 4 "-" && sep l 7 "-" && sep l 10 "_"
  then
    match field l 0 4, field l 5 2, field l 8 2, field l 11 2 with
    | Some y, Some m, Some d, Some h => checked_datetime y m d h 0 0
    | _, _, _, _ => Raise ValueError
    end
  else Raise ValueError.

(** [datetime.strptime(s, '%Y-%m-%d_%H:%M:%S')] *)
Definition strptime_YmdHMS (s : string) : result datetime :=
  let l := list_ascii_of_string s in
  if (List.length l =? 19)%nat && sep l 4 "-" && sep l 7 "-" && sep l 10 "_"
     && sep l 13 ":" && sep l 16 ":"
  then
    match field l 0 4, field l 5 2, field l 8 2,
          field l 11 2, field l 14 2, field l 17 2 with
    | Some y, Some m, Some d, Some h, Some mi, Some sc =>
        checked_datetime y m d h mi sc
    | _, _, _, _, _, _ => Raise ValueError
    end
  else Raise ValueError.

End Datetime.

(** ** Window Planner (lines 50-61 and 102-112 of [__init__]) *)

Module WindowPlanner.
Import Datetime.
Local Open Scope Z_scope.

(** [while cur <= stop: dates.append(fmt(cur)); cur += delta].  The loop
    is run with fuel; [None] means the fuel ran out before the test
    failed.  The instants are integers without the bounds of Python's
    [datetime], which raises [OverflowError] when the window or the step
    after its end leaves the years 1 to 9999: the theorems on the
    windows take them within these years. *)
Fixpoint while_dates {A : Type} (fmt : datetime -> A) (delta : timedelta)
    (fuel : nat) (cur stop : datetime) (dates : list A) : option (list A) :=
  match fuel with
  | O => None
  | S fuel' =>
      if cur <=? stop
      then while_dates fmt delta fuel' (cur + delta) stop (dates ++ [fmt cur])
      else Some dates
  end.

(** Lines 55-61: the datetimes to search for timeslice files. *)
Definition timeslice_dates (fuel : nat) (start_datetime : datetime)
    (lookback_hrs dt nts : Z) : option (list string) :=
  let timeslice_start := start_datetime - hours lookback_hrs in
  let timeslice_end := start_datetime + seconds (dt * nts) in
  let delta := minutes 15 in
  while_dates strftime_YmdHMS delta fuel timeslice_start timeslice_end [].

(** The same loop, keeping the instants instead of their text. *)
Definition timeslice_instants (fuel : nat) (start_datetime : datetime)
    (lookback_hrs dt nts : Z) : option (list datetime) :=
  let timeslice_start := start_datetime - hours lookback_hrs in
  let timeslice_end := start_datetime + seconds (dt * nts) in
  let delta := minutes 15 in
  while_dates (fun t => t) delta fuel timeslice_start timeslice_end [].

(** Lines 106-112: the datetimes to search for timeseries files. *)
Definition timeseries_dates (fuel : nat) (start_datetime : datetime)
    (lookback_hrs offset_hrs : Z) : option (list string) :=
  let timeseries_end := start_datetime + hours offset_hrs in
  let timeseries_start := timeseries_end - hours lookback_hrs in
  let delta := hours 1 in
  while_dates strftime_YmdH delta fuel timeseries_start timeseries_end [].

(** The instants [first, first + delta, ...] that do not exceed [stop]. *)
Definition grid_count (delta : timedelta) (first stop : datetime) : nat :=
  if first <=? stop then Z.to_nat ((stop - first) / delta + 1) else O.

Definition grid (delta : timedelta) (first stop : datetime) : list datetime :=
  map (fun k => first + delta * Z.of_nat k) (seq 0 (grid_count delta first stop)).

(** Consecutive elements differ by exactly [delta]. *)
Fixpoint spaced (delta : Z) (l : list Z) : Prop :=
  match l with
  | a :: ((b :: _) as l') => b - a = delta /\ spaced delta l'
  | _ => True
  end.

Fixpoint strictly_increasing (l : list Z) : Prop :=
  match l with
  | a :: ((b :: _) as l') => a < b /\ strictly_increasing l'
  | _ => True
  end.

End WindowPlanner.

(** ** numpy and pandas: interpolation and resampling

    The library calls of [_interpolate_one] and of lines 242-251, after
    pandas' [core/missing.py] ([_interp_limit], [_interpolate_1d]),
    numpy's [interp] and pandas' [Resampler.asfreq]. *)

Module Pandas.
Import Datetime.

(** [l[a:b]] of Python: out-of-range bounds are clipped. *)
Definition slice {A : Type} (a b : nat) (l : list A) : list A :=
  firstn (b - a) (skipn a l).

(** [[f(i, x) for i, x in enumerate(l)]] *)
Definition imap {A B : Type} (f : nat -> A -> B) (l : list A) : list B :=
  map (fun p => f (fst p) (snd p)) (combine (seq 0 (List.length l)) l).

Definition all (l : list bool) : bool := forallb (fun b => b) l.
Definition any (l : list bool) : bool := existsb (fun b => b) l.

(** [_interp_limit(invalid, fw_limit, bw_limit)]: the indexers of the
    values that won't be filled because they exceed the limits, in the
    form its docstring gives as equivalent:
    [for x in np.where(invalid)[0]:
       if invalid[max(0, x - fw_limit):x + bw_limit + 1].all(): yield x]. *)
Definition _interp_limit (invalid : list bool) (fw_limit bw_limit : nat)
  : list nat :=
  filter
    (fun x =>
       nth x invalid false
       && all (slice (x - fw_limit) (x + bw_limit + 1) invalid))
    (seq 0 (List.length invalid)).

(** An array index as a float ([np.arange] positions are exact). *)
Definition float_of_Z (z : Z) : float :=
  if (z <? 0)%Z then PrimFloat.opp (of_uint63 (Uint63.of_Z (- z)))
  else of_uint63 (Uint63.of_Z z).

(** One segment of [np.interp]: [x0 < x < x1]. *)
Definition interp_segment (x x0 x1 : Z) (y0 y1 : float) : float :=
  let slope := ((y1 - y0) / float_of_Z (x1 - x0))%float in
  let r := (slope * float_of_Z (x - x0) + y0)%float in
  if is_nan r then
    let r' := (slope * float_of_Z (x - x1) + y1)%float in
    if is_nan r' && (y0 =? y1)%float then y0 else r'
  else r.

(** The search of [np.interp] for [xp[0] <= x <= xp[-1]]: the segment
    [j] with [xp[j] <= x < xp[j+1]], or the last point. *)
Fixpoint interp_inside (x : Z) (xp : list Z) (fp : list float) : float :=
  match xp, fp with
  | x0 :: ((x1 :: _) as xp'), y0 :: ((y1 :: _) as fp') =>
      if (x <? x1)%Z
      then (if (x =? x0)%Z then y0 else interp_segment x x0 x1 y0 y1)
      else interp_inside x xp' fp'
  | _ :: _, y0 :: _ => y0
  | _, _ => nan
  end.

(** [np.interp(x, xp, fp)] at one [x], with the default [left] and
    [right]: outside the sample points the end values are held. *)
Definition np_interp (x : Z) (xp : list Z) (fp : list float) : float :=
  match xp, fp with
  | x0 :: _, y0 :: _ =>
      if (last xp x0 <? x)%Z then last fp y0
      else if (x <? x0)%Z then y0
      else interp_inside x xp fp
  | _, _ => nan
  end.

(** The sample points [(indices[valid], yvalues[valid])]. *)
Definition points_of (y : list float) : list (nat * float) :=
  filter (fun p => negb (is_nan (snd p)))
         (combine (seq 0 (List.length y)) y).

(** [np.interp(indices[x], indices[valid], yvalues[valid])] *)
Definition fill_at (y : list float) (x : nat) : float :=
  np_interp (Z.of_nat x)
    (map (fun p => Z.of_nat (fst p)) (points_of y))
    (map snd (points_of y)).

(** [_interpolate_1d(indices, yvalues, method='linear', limit,
    limit_direction='both')], with [indices = np.arange(len(yvalues))]
    as [method='linear'] has them: nothing is done when no value or
    every value is valid; else every invalid value is given by
    [np.interp], and [yvalues[preserve_nans] = np.nan] undoes the fill
    beyond the limit. *)
Definition _interpolate_1d (limit : nat) (yvalues : list float) : list float :=
  let invalid := map is_nan yvalues in
  let valid := map negb invalid in
  if negb (any valid) then yvalues
  else if all valid then yvalues
  else
    let preserve_nans := _interp_limit invalid limit limit in
    let filled :=
      imap (fun i y => if is_nan y then fill_at yvalues i else y) yvalues in
    imap (fun i y => if existsb (Nat.eqb i) preserve_nans then nan else y)
         filled.

(** A frame with a datetime index: the values are kept by column, each
    column as long as the index. *)
Record frame : Type := mk_frame {
  index : list datetime;
  columns : list string;
  values : list (list float)
}.

Definition empty (df : frame) : bool :=
  match index df, values df with
  | [], _ | _, [] => true
  | _, _ => false
  end.

(** [df.interpolate(limit=limit, limit_direction='both')]: an empty
    frame is returned as it is; else the limit is validated
    ([validate_limit]: "Limit must be greater than 0") and every column
    is interpolated on its own. *)
Definition interpolate (limit : Z) (df : frame) : result frame :=
  if empty df then Ok df
  else if (limit <? 1)%Z then Raise ValueError
  else Ok (mk_frame (index df) (columns df)
             (map (_interpolate_1d (Z.to_nat limit)) (values df))).

(** Position of a label in an index. *)
Fixpoint get_loc (t : datetime) (idx : list datetime) : option nat :=
  match idx with
  | [] => None
  | t' :: idx' =>
      if (t =? t')%Z then Some O else option_map S (get_loc t idx')
  end.

(** [df.reindex(new_index)]: a label that the index lacks gets NaN. *)
Definition reindex_column (new_index idx : list datetime) (col : list float)
  : list float :=
  map (fun t => match get_loc t idx with
                | Some i => nth i col nan
                | None => nan
                end) new_index.

(** [index.inferred_freq] equals the frequency [freq] (in seconds): at
    least three labels, evenly spaced by [freq]. *)
Fixpoint evenly_spaced (freq : Z) (idx : list datetime) : bool :=
  match idx with
  | a :: ((b :: _) as idx') => (b - a =? freq)%Z && evenly_spaced freq idx'
  | _ => true
  end.

Definition has_freq (freq : Z) (idx : list datetime) : bool :=
  (3 <=? List.length idx)%nat && evenly_spaced freq idx.

(** The labels of [df.resample(freq)] (closed and labelled on the left,
    origin at the start of the first day): from the bin of [ax.min()]
    to the bin of [ax.max()]. *)
Definition resample_index (freq : Z) (idx : list datetime) : list datetime :=
  match idx with
  | [] => []
  | t :: idx' =>
      let first := fold_left Z.min idx' t in
      let lst := fold_left Z.max idx' t in
      let origin := (first - first mod 86400)%Z in
      let lo := (first - (first - origin) mod freq)%Z in
      let hi := (lst - (lst - origin) mod freq)%Z in
      map (fun k => (lo + freq * Z.of_nat k)%Z)
          (seq 0 (Z.to_nat ((hi - lo) / freq + 1)))
  end.

(** [df.resample(freq).asfreq()] ([Resampler._upsample]): a frame whose
    index is already at this frequency, and as long as the new labels,
    keeps its values under the new labels; any other frame is
    reindexed.  The test reads the index alone, so the values are
    treated column by column. *)
Definition same_freq (freq : Z) (idx : list datetime) : bool :=
  has_freq freq idx
  && (List.length idx =? List.length (resample_index freq idx))%nat.

Definition resample_column (freq : Z) (idx : list datetime)
    (col : list float) : list float :=
  if same_freq freq idx then col
  else reindex_column (resample_index freq idx) idx col.

Definition resample_asfreq (freq : Z) (df : frame) : frame :=
  mk_frame (resample_index freq (index df)) (columns df)
    (map (resample_column freq (index df)) (values df)).

(** A two-dimensional array, by rows, with its shape. *)
Record ndarray : Type := mk_ndarray {
  shape : nat * nat;
  rows : list (list float)
}.

(** [df.to_numpy()]: one row per index label. *)
Definition to_numpy (df : frame) : ndarray :=
  mk_ndarray (List.length (index df), List.length (values df))
    (map (fun i => map (fun col => nth i col nan) (values df))
         (seq 0 (List.length (index df)))).

(** [np.concatenate(arrays, axis=1)]: no array, or arrays of different
    heights, is a [ValueError]. *)
Definition np_concatenate_axis1 (arrays : list ndarray) : result ndarray :=
  match arrays with
  | [] => Raise ValueError
  | a :: _ =>
      let n := fst (shape a) in
      if forallb (fun b => (fst (shape b) =? n)%nat) arrays
      then Ok (mk_ndarray
                 (n, list_sum (map (fun b => snd (shape b)) arrays))
                 (map (fun i => List.concat (map (fun b => nth i (rows b) []) arrays))
                      (seq 0 n)))
      else Raise ValueError
  end.

(** [pd.DataFrame(data=arr, columns=cols, index=idx)]: the shape of the
    data must be that of the labels. *)
Definition DataFrame (data : ndarray) (cols : list string)
    (idx : list datetime) : result frame :=
  if ((fst (shape data) =? List.length idx)
      && (snd (shape data) =? List.length cols))%nat
  then Ok (mk_frame idx cols
             (map (fun j => map (fun r => nth j r nan) (rows data))
                  (seq 0 (List.length cols))))
  else Raise ValueError.

(** [df.iloc[:, start:stop]] *)
Definition iloc_columns (start stop : nat) (df : frame) : frame :=
  mk_frame (index df) (slice start stop (columns df))
    (slice start stop (values df)).

End Pandas.

(** ** joblib: [Parallel(n_jobs)(jobs)]

    The jobs are handed to the workers and complete in an order that is
    the scheduler's ([order], the job numbers in completion order); each
    result is kept under its job number, and the list returned is in the
    order of the jobs.  [n_jobs = 0] is refused. *)

Module Joblib.

Section Parallel.
Variables J R : Type.
Variable run : J -> result R.

Definition run_jobs (order : list nat) (jobs : list J)
  : result (list (nat * R)) :=
  mapM (fun i => match nth_error jobs i with
                 | Some j => r <- run j ;; Ok (i, r)
                 | None => Raise IndexError
                 end) order.

Fixpoint lookup (i : nat) (done : list (nat * R)) : option R :=
  match done with
  | [] => None
  | (k, r) :: done' => if Nat.eqb i k then Some r else lookup i done'
  end.

Definition Parallel (n_jobs : Z) (order : list nat) (jobs : list J)
  : result (list R) :=
  if (n_jobs =? 0)%Z then Raise ValueError
  else
    done <- run_jobs order jobs ;;
    mapM (fun i => match lookup i done with
                   | Some r => Ok r
                   | None => Raise KeyError
                   end) (seq 0 (List.length jobs)).

End Parallel.

End Joblib.

(** ** Temporal Aligner (lines 242-293) *)

Module Aligner.
Import Datetime Pandas Joblib.

(** [_interpolate_one(df, interpolation_limit, frequency)]; the
    frequency is in seconds. *)
Definition _interpolate_one (df : frame) (interpolation_limit : Z)
    (frequency : Z) : result ndarray :=
  interp <- interpolate interpolation_limit (resample_asfreq 60 df) ;;
  Ok (to_numpy (resample_asfreq frequency interp)).

(** What [_interpolate_one] does to one column of a frame with the
    index [idx]. *)
Definition interpolate_column (interpolation_limit : Z) (frequency : Z)
    (idx : list datetime) (col : list float) : list float :=
  resample_column frequency (resample_index 60 idx)
    (_interpolate_1d (Z.to_nat interpolation_limit)
       (resample_column 60 idx col)).

(** [frequency = str(int(frequency_secs/60))+"min"], in seconds; pandas
    refuses a frequency that is not positive at line 251: "0min" with
    [ZeroDivisionError], a negative one with [ValueError]. *)
Definition frequency_of (frequency_secs : Z) : result Z :=
  let m := Z.quot frequency_secs 60 in
  if (m =? 0)%Z then Raise ZeroDivisionError
  else if (m <? 0)%Z then Raise ValueError
  else Ok (60 * m)%Z.

(** [range(0, n, step)] *)
Definition range_step (n step : nat) : list nat :=
  map (fun k => k * step) (seq 0 ((n + step - 1) / step)).

(** The station-by-time table that [_read_timeslice_files] returns:
    [observation_df_T.transpose()]. *)
Record table : Type := mk_table {
  stations : list string;
  times : list datetime;
  series : list (list float)
}.

Definition transpose (df : frame) : table :=
  mk_table (columns df) (index df) (values df).

(** Lines 256-267: the chunks handed to the workers. *)
Definition chunk_jobs (step : nat) (observation_df_T buffer_df : frame)
  : list frame :=
  map (fun i =>
         let start := i in
         let stop :=
           if (i + step - 1 <? List.length (values buffer_df))%nat
           then i + step
           else List.length (values buffer_df) in
         iloc_columns start stop observation_df_T)
      (range_step (List.length (columns observation_df_T)) step).

(** Lines 247-280 of [_read_timeslice_files], from the transposed table
    with its datetime index on. *)
Definition interpolate_chunked (observation_df_T : frame)
    (frequency_secs cpu_pool : Z) (order : list nat)
    (interpolation_limit : Z) : result table :=
  frequency <- frequency_of frequency_secs ;;
  let buffer_df := resample_asfreq frequency observation_df_T in
  let step := 200%nat in
  let jobs := chunk_jobs step observation_df_T buffer_df in
  interp_chunks <-
    Parallel (fun chunk => _interpolate_one chunk interpolation_limit frequency)
             cpu_pool order jobs ;;
  data <- np_concatenate_axis1 interp_chunks ;;
  observation_df_T <- DataFrame data (columns buffer_df) (index buffer_df) ;;
  Ok (transpose observation_df_T).

(** The same, with all the columns interpolated in one call. *)
Definition interpolate_unchunked (observation_df_T : frame)
    (frequency_secs : Z) (interpolation_limit : Z) : result table :=
  frequency <- frequency_of frequency_secs ;;
  let buffer_df := resample_asfreq frequency observation_df_T in
  data <- _interpolate_one observation_df_T interpolation_limit frequency ;;
  observation_df_T <- DataFrame data (columns buffer_df) (index buffer_df) ;;
  Ok (transpose observation_df_T).

(** The array that [_interpolate_one] returns for the columns [vals] of a
    frame with the index [idx], column by column. *)
Definition interpolated_array (interpolation_limit frequency : Z)
    (idx : list datetime) (vals : list (list float)) : ndarray :=
  let n := List.length (resample_index frequency (resample_index 60 idx)) in
  mk_ndarray (n, List.length vals)
    (map (fun i =>
            map (fun col =>
                   nth i (interpolate_column interpolation_limit frequency
                            idx col) nan) vals)
         (seq 0 n)).

(** [_interpolate_one] raises when [interpolate] does: a frame that is
    not empty, and a limit below 1. *)
Definition raises (interpolation_limit : Z) (idx : list datetime)
    (vals : list (list float)) : bool :=
  match idx, vals with
  | _ :: _, _ :: _ => (interpolation_limit <? 1)%Z
  | _, _ => false
  end.

(** A frame is well formed when every column is as long as the index and
    has a label. *)
Definition well_formed (df : frame) : Prop :=
  List.length (columns df) = List.length (values df) /\
  Forall (fun col => List.length col = List.length (index df)) (values df).

(** The samples of [l] at the positions [a..b] (those that exist) are
    all missing. *)
Definition all_missing (l : list float) (a b : nat) : Prop :=
  forall i, (a <= i <= b)%nat -> (i < List.length l)%nat ->
            is_nan (nth i l nan) = true.

End Aligner.

(** ** Forecast Selector (lines 298-308 of [_read_timeseries_files]) *)

Module Selector.
Import Datetime.

(** [s.split(sep)] for a one-character separator. *)
Fixpoint split_on (sep : ascii) (s : string) : list string :=
  match s with
  | EmptyString => [EmptyString]
  | String c s' =>
      if Ascii.eqb c sep then EmptyString :: split_on sep s'
      else match split_on sep s' with
           | p :: ps => String c p :: ps
           | [] => [String c EmptyString]
           end
  end.

(** [f.split('/')[-1].split('.')] *)
Definition basename (f : string) : string := last (split_on "/" f) EmptyString.
Definition name_parts (f : string) : list string := split_on "." (basename f).

(** The fields of a file name, by position. *)
Definition name_datetime (f : string) : string := nth 0 (name_parts f) EmptyString.
Definition name_id (f : string) : string := nth 2 (name_parts f) EmptyString.

(** One row of the temporary frame, columns
    ['Datetime','dt','ID','rfc','ext']: a row with fewer parts is filled
    with [None]. *)
Record name_row : Type := mk_name_row {
  Datetime : option string;
  dt : option string;
  ID : option string;
  rfc : option string;
  ext : option string
}.

Definition row_of_parts (parts : list string) : name_row :=
  mk_name_row (nth_error parts 0) (nth_error parts 1) (nth_error parts 2)
    (nth_error parts 3) (nth_error parts 4).

(** [pd.DataFrame(rows, columns=[five names])]: no row gives the empty
    frame; else the longest row must have five parts ("5 columns passed,
    passed data had n columns"). *)
Definition names_frame (rows : list (list string)) : result (list name_row) :=
  match rows with
  | [] => Ok []
  | _ =>
      if (list_max (map (@List.length string) rows) =? 5)%nat
      then Ok (map row_of_parts rows)
      else Raise ValueError
  end.

(** [df['Datetime'].isin(timeseries_dates)] *)
Definition isin (timeseries_dates : list string) (r : name_row) : bool :=
  match Datetime r with
  | Some d => existsb (String.eqb d) timeseries_dates
  | None => false
  end.

(** Sorting of the group keys. *)
Fixpoint insert_sorted (k : string) (l : list string) : list string :=
  match l with
  | [] => [k]
  | k' :: l' => if String.leb k k' then k :: l else k' :: insert_sorted k l'
  end.

Definition sort_keys (l : list string) : list string :=
  fold_right insert_sorted [] l.

Fixpoint group_keys (rows : list (option string * datetime)) : list string :=
  match rows with
  | [] => []
  | (Some k, _) :: rows' => k :: group_keys rows'
  | (None, _) :: rows' => group_keys rows'
  end.

Fixpoint group_values (k : string) (rows : list (option string * datetime))
  : list datetime :=
  match rows with
  | [] => []
  | (Some k', d) :: rows' =>
      if String.eqb k k' then d :: group_values k rows'
      else group_values k rows'
  | (None, _) :: rows' => group_values k rows'
  end.

Definition maximum (ds : list datetime) : datetime :=
  match ds with
  | [] => 0%Z
  | d :: ds' => fold_left Z.max ds' d
  end.

(** [df.groupby('ID').max().reset_index()]: one row per key, keys
    sorted; a row without a key is left out. *)
Definition groupby_max (rows : list (option string * datetime))
  : list (string * datetime) :=
  map (fun k => (k, maximum (group_values k rows)))
      (sort_keys (nodup string_dec (group_keys rows))).

(** Lines 298-304: the most recent file of each location, of those whose
    date is one of [timeseries_dates]. *)
Definition most_recent (files : list string) (timeseries_dates : list string)
  : result (list (string * datetime)) :=
  df <- names_frame (map name_parts files) ;;
  let df := filter (isin timeseries_dates) df in
  df <- mapM (fun r =>
                d <- match Datetime r with
                     | Some s => strptime_YmdH s
                     | None => Raise TypeError
                     end ;;
                Ok (ID r, d)) df ;;
  Ok (groupby_max df).

(** Lines 300-301: the rows of the temporary frame whose date is a
    candidate. *)
Definition retained_rows (files : list string) (timeseries_dates : list string)
  : result (list name_row) :=
  df <- names_frame (map name_parts files) ;;
  Ok (filter (isin timeseries_dates) df).

(** Line 305, [df['Datetime'].dt.strftime('%Y-%m-%d_%H')].  When no row
    was retained, line 303 leaves a column of the dtype object, and
    [.dt] raises [AttributeError] ("Can only use .dt accessor with
    datetimelike values").  When rows were retained the column holds
    datetimes, also when the grouping leaves out every row (rows
    without an ID): the selection is then empty. *)
Definition stamp (row : string * datetime) : string * string :=
  (fst row, strftime_YmdH (snd row)).

Definition select_files (files : list string) (timeseries_dates : list string)
  : result (list (string * string)) :=
  rows <- retained_rows files timeseries_dates ;;
  df <- most_recent files timeseries_dates ;;
  match rows with
  | [] => Raise AttributeError
  | _ => Ok (map stamp df)
  end.

(** Line 308: the names of the files that are opened. *)
Definition file_name (row : string * string) : string :=
  (snd row ++ ".60min." ++ fst row ++ ".RFCTimeSeries.ncdf")%string.

Definition file_list (files : list string) (timeseries_dates : list string)
  : result (list string) :=
  df <- select_files files timeseries_dates ;;
  Ok (map file_name df).

(** The naming convention: five parts between dots. *)
Definition five_parts (f : string) : Prop := List.length (name_parts f) = 5%nat.

Definition row_of_file (f : string) : name_row := row_of_parts (name_parts f).


(** The datetime that a well-formed date text stands for. *)
Definition parsed (s : string) : datetime :=
  match strptime_YmdH s with
  | Ok d => d
  | Raise _ => 0%Z
  end.

(** A file of the listing is retained when its date is a candidate. *)
Definition retained (timeseries_dates : list string) (f : string) : bool :=
  existsb (String.eqb (name_datetime f)) timeseries_dates.

End Selector.

(** ** Last-Observation Extractor ([_read_lastobs_file], lines 340-394) *)

Module LastObs.
Import Datetime.

(** The data set of a lastobs file: [stationId] by [stationIdInd];
    [time] and [discharge] by [stationIdInd] and [timeInd]; [timeInd] is
    a dimension without a coordinate, so [ds['timeInd'].values] is
    [arange(timeInd)]. *)
Record dataset : Type := mk_dataset {
  stationId : list string;
  modelTimeAtOutput : string;
  timeInd : nat;
  time : list (list string);
  discharge : list (list float)
}.

(** One row of [lastobs_df]; a NaN [time_since_lastobs] is [None]. *)
Record lastobs_row : Type := mk_lastobs_row {
  gages : string;
  time_since_lastobs : option Z;
  lastobs_discharge : float
}.

(** [.replace(to_replace = discharge_nan, value = np.nan)] *)
Definition replace (discharge_nan : float) (d : float) : float :=
  if (d =? discharge_nan)%float then nan else d.

(** [pd.Series.last_valid_index]: the label of the last value that is
    not NaN, [None] when there is none. *)
Fixpoint last_valid_from (i : nat) (col : list float) : option nat :=
  match col with
  | [] => None
  | d :: col' =>
      match last_valid_from (S i) col' with
      | Some k => Some k
      | None => if is_nan d then None else Some i
      end
  end.

Definition last_valid_index (col : list float) : option nat :=
  last_valid_from 0 col.

(** The array of [df.apply(pd.Series.last_valid_index).to_numpy()], with
    the dtype that pandas infers for the results: no result, float64;
    integers alone, int64; integers and [None], float64 with NaN for
    [None]; [None] alone, object. *)
Inductive index_array : Type :=
| Int64 (l : list Z)
| Float64 (l : list (option Z))
| Object (l : list (option Z)).

Definition is_some {A : Type} (o : option A) : bool :=
  match o with Some _ => true | None => false end.

Definition to_numpy (results : list (option nat)) : index_array :=
  let values := map (option_map Z.of_nat) results in
  match results with
  | [] => Float64 []
  | _ =>
      if forallb is_some results
      then Int64 (map (fun o => match o with
                                | Some k => Z.of_nat k
                                | None => 0%Z
                                end) results)
      else if forallb (fun o => negb (is_some o)) results
           then Object values
           else Float64 values
  end.

(** [np.nan_to_num(x, nan=v)]: only an array of an inexact dtype is
    changed. *)
Definition nan_to_num (x : index_array) (v : Z) : index_array :=
  match x with
  | Float64 l => Float64 (map (fun o => match o with
                                        | Some k => Some k
                                        | None => Some v
                                        end) l)
  | _ => x
  end.

(** [x.astype(int)]: [int(None)] is a [TypeError]; a float NaN is cast
    (with a warning) to the least int64. *)
Definition astype_int (x : index_array) : result (list Z) :=
  match x with
  | Int64 l => Ok l
  | Float64 l =>
      mapM (fun o => match o with
                     | Some k => Ok k
                     | None => Ok (-9223372036854775808)%Z
                     end) l
  | Object l =>
      mapM (fun o => match o with
                     | Some k => Ok k
                     | None => Raise TypeError
                     end) l
  end.

(** [a[i]] of numpy for an integer [i]: a negative index counts from the
    end; out of bounds is an [IndexError]. *)
Definition getitem {A : Type} (a : list A) (i : Z) : result A :=
  let n := Z.of_nat (List.length a) in
  let k := if (i <? 0)%Z then (i + n)%Z else i in
  if (k <? 0)%Z then Raise IndexError
  else match nth_error a (Z.to_nat k) with
       | Some x => Ok x
       | None => Raise IndexError
       end.

(** [pd.to_datetime(text, format="%Y-%m-%d_%H:%M:%S", errors='coerce')]:
    [NaT], here [None], for a text that does not parse.  The parser is
    the one of the zero-padded text; pandas also reads fields that are
    written without the padding, and holds the years 1678 to 2261 only:
    the theorems on the times take zero-padded texts of these years. *)
Definition to_datetime (s : string) : option datetime :=
  match strptime_YmdHMS s with
  | Ok t => Some t
  | Raise _ => None
  end.

Fixpoint enumerate_from {A : Type} (i : nat) (l : list A) : list (nat * A) :=
  match l with
  | [] => []
  | a :: l' => (i, a) :: enumerate_from (S i) l'
  end.

(** [zip] of three columns into the rows of [pd.DataFrame(data = dict)]:
    columns of different lengths are a [ValueError]. *)
Fixpoint rows_of (g : list string) (t : list (option Z)) (q : list float)
  : result (list lastobs_row) :=
  match g, t, q with
  | [], [], [] => Ok []
  | g0 :: g', t0 :: t', q0 :: q' =>
      rest <- rows_of g' t' q' ;; Ok (mk_lastobs_row g0 t0 q0 :: rest)
  | _, _, _ => Raise ValueError
  end.

Definition _read_lastobs_file (ds : dataset) (discharge_nan : float)
    (time_shift : Z) : result (list lastobs_row) :=
  let gages := stationId ds in
  ref_time <- strptime_YmdHMS (modelTimeAtOutput ds) ;;
  last_ts <- getitem (map Z.of_nat (seq 0 (timeInd ds))) (-1) ;;
  let df_discharge := map (map (replace discharge_nan)) (discharge ds) in
  let last_obs_index := to_numpy (map last_valid_index df_discharge) in
  last_obs_index <- astype_int (nan_to_num last_obs_index last_ts) ;;
  found <-
    mapM (fun p =>
            let i := Z.of_nat (fst p) in
            let idx := snd p in
            col <- getitem df_discharge i ;;
            obs <- getitem col idx ;;
            row <- getitem (time ds) i ;;
            t <- getitem row idx ;;
            Ok (obs, t))
         (enumerate_from 0 last_obs_index) ;;
  let last_observations := map fst found in
  let lastobs_times := map (fun p => to_datetime (snd p)) found in
  let lastobs_times := map (option_map (fun t => (t - ref_time)%Z)) lastobs_times in
  let lastobs_times := map (option_map (fun t => (t - time_shift)%Z)) lastobs_times in
  rows_of gages lastobs_times last_observations.


(** The shape of a data set: every variable has its dimensions. *)
Definition well_shaped (ds : dataset) : Prop :=
  (1 <= timeInd ds)%nat /\
  List.length (time ds) = List.length (stationId ds) /\
  List.length (discharge ds) = List.length (stationId ds) /\
  Forall (fun row => List.length row = timeInd ds) (time ds) /\
  Forall (fun col => List.length col = timeInd ds) (discharge ds).



(** The defaults of the signature: [discharge_nan = -9999.0],
    [time_shift = 0]. *)
Definition read_lastobs_file (ds : dataset) : result (list lastobs_row) :=
  _read_lastobs_file ds (-9999)%float 0.

End LastObs.

(** ** Observation Loader: reading and pivoting (lines 222-245) *)

Module Loader.
Import Datetime Pandas QC Selector Aligner.

(** White space of [str.strip()], in UTF-8: the code points 9-13, 28-32,
    U+0085, U+00A0, U+1680, U+2000-U+200A, U+2028, U+2029, U+202F,
    U+205F and U+3000. *)
Definition space1 (c : ascii) : bool :=
  let n := nat_of_ascii c in
  ((9 <=? n) && (n <=? 13) || (28 <=? n) && (n <=? 32))%nat.

Definition space2 (c1 c2 : ascii) : bool :=
  let a := nat_of_ascii c1 in
  let b := nat_of_ascii c2 in
  ((a =? 194) && ((b =? 133) || (b =? 160)))%nat.

Definition space3 (c1 c2 c3 : ascii) : bool :=
  let a := nat_of_ascii c1 in
  let b := nat_of_ascii c2 in
  let c := nat_of_ascii c3 in
  ((a =? 225) && (b =? 154) && (c =? 128)
   || (a =? 226) && (b =? 128)
      && ((128 <=? c) && (c <=? 138) || (c =? 168) || (c =? 169) || (c =? 175))
   || (a =? 226) && (b =? 129) && (c =? 159)
   || (a =? 227) && (b =? 128) && (c =? 128))%nat.

(** The white space is dropped from the front of the bytes; [rev] says
    that the bytes are those of the reversed text. *)
Fixpoint drop_spaces (rev : bool) (l : list ascii) : list ascii :=
  match l with
  | [] => []
  | c1 :: l1 =>
      if space1 c1 then drop_spaces rev l1
      else
        match l1 with
        | [] => l
        | c2 :: l2 =>
            if (if rev then space2 c2 c1 else space2 c1 c2)
            then drop_spaces rev l2
            else
              match l2 with
              | [] => l
              | c3 :: l3 =>
                  if (if rev then space3 c3 c2 c1 else space3 c1 c2 c3)
                  then drop_spaces rev l3
                  else l
              end
        end
  end.

(** [s.strip()] *)
Definition strip (s : string) : string :=
  string_of_list_ascii
    (List.rev
       (drop_spaces true
          (List.rev (drop_spaces false (list_ascii_of_string s))))).

(** The directory [filepath]: the names of its entries, each with the
    rows of [xr.open_dataset(f)[['stationId','time','discharge',
    'discharge_quality']].to_dataframe()]. *)
Definition directory : Type := list (string * observation_df).

(** [glob.glob(filepath + '/' + d + '*')]: the entries whose name begins
    with [d], in the order of the directory (neither [filepath] nor [d]
    holds a pattern character). *)
Definition glob (dir : directory) (d : string) : directory :=
  filter (fun f => String.prefix d (fst f)) dir.

(** Lines 222-227.  [None] is the frame [pd.DataFrame()] that no file
    has been concatenated to: it has no column. *)
Fixpoint read_files (dir : directory) (dates : list string)
    (observation_df : option QC.observation_df)
  : option QC.observation_df :=
  match dates with
  | [] => observation_df
  | d :: dates' =>
      match glob dir d with
      | [] => read_files dir dates' observation_df
      | f :: _ =>
          read_files dir dates'
            (Some (match observation_df with
                   | None => snd f
                   | Some df => df ++ snd f
                   end))
      end
  end.

(** The files that the loop opens, [f[0]] for every date with a match,
    in the order of the reading. *)
Fixpoint opened (dir : directory) (dates : list string) : directory :=
  match dates with
  | [] => []
  | d :: dates' =>
      match glob dir d with
      | [] => opened dir dates'
      | f :: _ => f :: opened dir dates'
      end
  end.

(** Line 229: [.str.decode('utf-8').str.strip()] on the station names
    (text is held as its UTF-8 bytes). *)
Definition strip_stations (df : observation_df) : observation_df :=
  map (fun r => mk_obs_row (strip (stationId r)) (time r) (discharge r)
                  (discharge_quality r)) df.

(** Two rows with the same station and time. *)
Definition same_key (r r' : obs_row) : bool :=
  String.eqb (stationId r) (stationId r') && String.eqb (time r) (time r').

Fixpoint duplicate_keys (df : observation_df) : bool :=
  match df with
  | [] => false
  | r :: df' => existsb (same_key r) df' || duplicate_keys df'
  end.

(** The reading of the station [s] at the time [t], NaN without one. *)
Definition cell (df : observation_df) (s t : string) : float :=
  match find (fun r => String.eqb (stationId r) s && String.eqb (time r) t) df with
  | Some r => discharge r
  | None => nan
  end.

(** The labels of a level of the index: its values, sorted, each once. *)
Definition level (l : list string) : list string :=
  sort_keys (nodup string_dec l).

(** A frame with the stations as the index and the times, as text, as
    the columns; the values are kept by row. *)
Record pivot : Type := mk_pivot {
  pivot_index : list string;
  pivot_columns : list string;
  pivot_values : list (list float)
}.

(** Line 239, [df[['stationId','time','discharge']].set_index(['stationId',
    'time']).unstack(1, fill_value = np.nan)['discharge']]: two rows
    with the same station and time are a [ValueError] ("Index contains
    duplicate entries, cannot reshape"); a frame without rows unstacks
    to a frame without columns, and ['discharge'] is a [KeyError]. *)
Definition unstack (df : observation_df) : result pivot :=
  match df with
  | [] => Raise KeyError
  | _ =>
      if duplicate_keys df then Raise ValueError
      else
        let stations := level (map stationId df) in
        let times := level (map time df) in
        Ok (mk_pivot stations times
              (map (fun s => map (fun t => cell df s t) times) stations))
  end.

(** Lines 242-245: the transposed frame (the rows of the pivot are its
    columns), the index parsed by [pd.to_datetime(index, format =
    "%Y-%m-%d_%H:%M:%S")]. *)
Definition observation_df_T (p : pivot) : result frame :=
  idx <- mapM strptime_YmdHMS (pivot_columns p) ;;
  Ok (mk_frame idx (pivot_index p) (pivot_values p)).

(** The instant that a well-formed time text stands for. *)
Definition timestamp (s : string) : datetime :=
  match strptime_YmdHMS s with
  | Ok t => t
  | Raise _ => 0%Z
  end.

(** [_read_timeslice_files(filepath, dates, qc_threshold, frequency_secs,
    cpu_pool, interpolation_limit)]; [order] is the order in which the
    workers complete the jobs. *)
Definition _read_timeslice_files (dir : directory) (dates : list string)
    (qc_threshold : float) (frequency_secs cpu_pool : Z) (order : list nat)
    (interpolation_limit : Z) : result table :=
  match read_files dir dates None with
  | None => Raise KeyError
  | Some observation_df =>
      let observation_df := strip_stations observation_df in
      let observation_df := qc_filter qc_threshold observation_df in
      p <- unstack observation_df ;;
      df <- observation_df_T p ;;
      interpolate_chunked df frequency_secs cpu_pool order interpolation_limit
  end.

End Loader.

(** ** The observations of [DAforcing_model.__init__] (lines 63-100) *)

Module Model.
Import Datetime Pandas QC Aligner Loader.




(** Lines 66 and 93-100: [self._reservoir_usace_df]. *)
Definition usace_observations (usace_persistence : bool) (dir : directory)
    (timeslice_dates : list string) (qc_threshold : float) (cpu_pool : Z)
    (order : list nat) : result (option table) :=
  if usace_persistence then
    _reservoir_usace_df <- _read_timeslice_files dir timeslice_dates
                             qc_threshold 900 cpu_pool order 59 ;;
    Ok (Some _reservoir_usace_df)
  else Ok None.

End Model.

(** ** Forecast files (lines 298-338 of [_read_timeseries_files]) *)

Module Forecasts.
Import Datetime Selector.

(** [glob.glob(filepath + '/*')]: the paths of the entries of the
    directory whose name does not begin with a dot ([filepath] holds no
    pattern character; the name of an entry holds no slash). *)
Definition visible (name : string) : bool := negb (String.prefix "." name).

Definition glob_all (filepath : string) (entries : list string) : list string :=
  map (fun name => (filepath ++ "/" ++ name)%string) (filter visible entries).


End Forecasts.

(** ** Forecast frames (lines 309-338 of [_read_timeseries_files]) *)

Module Timeseries.
Import Datetime Selector Forecasts.

(** The columns that line 314 keeps. *)
Record forecast_values : Type := mk_forecast_values {
  stationId : string;
  discharges : float;
  synthetic_values : float;
  totalCounts : Z;
  timeSteps : Z
}.

(** One row of [ds.to_dataframe().reset_index()]: the column
    [forecastInd] that the rows are sorted by, and the columns kept. *)
Record forecast_row : Type := mk_forecast_row {
  forecastInd : Z;
  data_vars : forecast_values
}.

(** The data set of a forecast file, with the stations as their text.
    The attributes are [None] when the file lacks them;
    [sliceTimeResolutionMinutes] is the decimal text of a positive
    number of minutes, held as the number. *)
Record forecast_dataset : Type := mk_forecast_dataset {
  sliceStartTimeUTC : option string;
  sliceTimeResolutionMinutes : option positive;
  rows : list forecast_row
}.

(** One row of the frame of a file, with the columns added by lines
    315-334. *)
Record rfc_row : Type := mk_rfc_row {
  row_values : forecast_values;
  Datetime : datetime;
  timeseries_idx : nat;
  file : string;
  use_rfc : bool;
  da_timestep : Z
}.

(** [reset_index()]: the rows get the labels 0, 1, ... *)
Definition reset_index (l : list forecast_row) : list (nat * forecast_row) :=
  combine (seq 0 (List.length l)) l.

(** [sort_values('forecastInd')]: the rows move with their labels (rows
    of the same [forecastInd] are kept in their order here; pandas does
    not promise one). *)
Fixpoint insert_row (r : nat * forecast_row) (l : list (nat * forecast_row))
  : list (nat * forecast_row) :=
  match l with
  | [] => [r]
  | r' :: l' =>
      if (forecastInd (snd r) <=? forecastInd (snd r'))%Z then r :: l
      else r' :: insert_row r l'
  end.

Definition sort_values (l : list (nat * forecast_row))
  : list (nat * forecast_row) :=
  fold_right insert_row [] l.

(** [pd.date_range(start, periods=n, freq=minutes+'T')], the instants
    in whole seconds (the range of pandas' timestamps, the years 1678
    to 2261, is not checked). *)
Definition date_range (start : datetime) (periods : nat) (minutes : positive)
  : list datetime :=
  map (fun k => (start + 60 * Z.pos minutes * Z.of_nat k)%Z) (seq 0 periods).

Section Validation.

(** [_validate_RFC_data] of [troute.routing.fast_reach.reservoir_RFC_da],
    called with the station, the discharges, the synthetic values, the
    folder, the file, the routing period and a flag. *)
Variable _validate_RFC_data :
  string -> list float -> list float -> string -> string -> Z -> bool -> bool.

(** Lines 312-334, for the file [f] and its data set. *)
Definition forecast_frame (filepath f : string) (ds : forecast_dataset)
    (t0 final_persist_datetime : datetime) : result (list (nat * rfc_row)) :=
  sliceStartTime <-
    match sliceStartTimeUTC ds with
    | Some s => strptime_YmdHMS s
    | None => Raise TypeError
    end ;;
  let df := sort_values (reset_index (rows ds)) in
  minutes <-
    match sliceTimeResolutionMinutes ds with
    | Some m => Ok m
    | None => Raise TypeError
    end ;;
  let df := combine df (date_range sliceStartTime (List.length df) minutes) in
  let df := filter (fun r => (snd r <? final_persist_datetime)%Z) df in
  idx <-
    match filter (fun r => (snd r =? t0)%Z) df with
    | r :: _ => Ok (fst (fst r))
    | [] => Raise IndexError
    end ;;
  station <-
    match find (fun r => Nat.eqb (fst (fst r)) 0) df with
    | Some r => Ok (stationId (data_vars (snd (fst r))))
    | None => Raise KeyError
    end ;;
  let use_rfc :=
    _validate_RFC_data station
      (map (fun r => discharges (data_vars (snd (fst r)))) df)
      (map (fun r => synthetic_values (data_vars (snd (fst r)))) df)
      filepath f 300 false in
  Ok (map (fun r => (fst (fst r),
                     mk_rfc_row (data_vars (snd (fst r))) (snd r) idx f use_rfc
                       (Z.pos minutes * 60)))
          df).

(** [.str.decode('utf-8').str.strip()] on the stations of the frame
    (line 337). *)
Definition strip_station (r : nat * rfc_row) : nat * rfc_row :=
  let x := snd r in
  let o := row_values x in
  (fst r,
   mk_rfc_row
     (mk_forecast_values (Loader.strip (stationId o)) (discharges o)
        (synthetic_values o) (totalCounts o) (timeSteps o))
     (Datetime x) (timeseries_idx x) (file x) (use_rfc x) (da_timestep x)).

(** [_read_timeseries_files(filepath, timeseries_dates, t0,
    final_persist_datetime)]; [open_dataset] gives the data set found at
    a path (line 311).  A frame [pd.DataFrame()] that no file was
    concatenated to has no column [stationId]: [KeyError]. *)
Definition _read_timeseries_files (open_dataset : string -> forecast_dataset)
    (filepath : string) (entries : list string)
    (timeseries_dates : list string) (t0 final_persist_datetime : datetime)
  : result (list (nat * rfc_row)) :=
  file_list <- file_list (glob_all filepath entries) timeseries_dates ;;
  frames <-
    mapM (fun f =>
            forecast_frame filepath f
              (open_dataset (filepath ++ "/" ++ f)%string)
              t0 final_persist_datetime)
         file_list ;;
  match frames with
  | [] => Raise KeyError
  | _ => Ok (map strip_station (List.concat frames))
  end.

End Validation.

End Timeseries.

(** ** Lite restart files ([_read_lite_restart], [_write_lite_restart],
    lines 396-470, and lines 131-140 of [__init__]) *)

Module Restart.
Import Datetime.

(** The dictionary [values] handed to [run]: an entry is [None] when the
    key is missing.  An array is the list of its elements in row-major
    order; the model time is a whole number of seconds. *)
Record values : Type := mk_values {
  q0 : option (list float);
  q0_ids : option (list Z);
  waterbody_df : option (list float);
  waterbody_df_ids : option (list Z);
  t_route_model_time : option Z
}.

(** [values[key]] *)
Definition item {A : Type} (entry : option A) : result A :=
  match entry with
  | Some a => Ok a
  | None => Raise KeyError
  end.

(** [n] rows of [k] elements each, in row-major order. *)
Fixpoint rows_of (k : nat) (a : list float) (n : nat) : list (list float) :=
  match n with
  | O => []
  | S n' => firstn k a :: rows_of k (skipn k a) n'
  end.

(** [a.reshape(n, -1)]: numpy cannot infer the other dimension when [n]
    is 0 or does not divide the size. *)
Definition reshape (a : list float) (n : nat) : result (list (list float)) :=
  match n with
  | O => Raise ValueError
  | S _ =>
      if (List.length a mod n =? 0)%nat
      then Ok (rows_of (List.length a / n) a n)
      else Raise ValueError
  end.

(** A frame of states: the index of ids, the names of the columns of
    numbers, the rows, and the column ['time'] when the frame has
    one. *)
Record DataFrame : Type := mk_DataFrame {
  index : list Z;
  columns : list string;
  data : list (list float);
  time : option (list datetime)
}.

(** [pd.DataFrame(data=a, index=index, columns=columns)] of a
    two-dimensional array: the shape has to match the labels. *)
Definition new_DataFrame (a : list (list float)) (index : list Z)
    (columns : list string) : result DataFrame :=
  if (List.length a =? List.length index)%nat
     && forallb (fun r => (List.length r =? List.length columns)%nat) a
  then Ok (mk_DataFrame index columns a None)
  else Raise ValueError.

(** [df.empty] *)
Definition empty (df : DataFrame) : bool :=
  (List.length (index df) =? 0)%nat
  || ((List.length (columns df) =? 0)%nat
      && match time df with None => true | Some _ => false end).

(** [df['time'] = timestamp] *)
Definition set_time (df : DataFrame) (timestamp : datetime) : DataFrame :=
  mk_DataFrame (index df) (columns df) (data df)
    (Some (map (fun _ => timestamp) (index df))).

Fixpoint position (name : string) (names : list string) : option nat :=
  match names with
  | [] => None
  | c :: names' =>
      if String.eqb name c then Some O
      else option_map S (position name names')
  end.

(** [df.loc[:, names]] of a frame of numbers. *)
Definition loc_columns (df : DataFrame) (names : list string)
  : result DataFrame :=
  ps <- mapM (fun c => match position c (columns df) with
                       | Some p => Ok p
                       | None => Raise KeyError
                       end) names ;;
  Ok (mk_DataFrame (index df) names
        (map (fun r => map (fun p => nth p r nan) ps) (data df)) None).

(** The value of ['lite_restart_output_directory']: a [pathlib.Path] or
    a [str]. *)
Inductive directory : Type :=
| Path (p : string)
| Str (s : string).

(** [if output_directory:] a path is true, a string is true unless it
    is empty. *)
Definition truthy (d : directory) : bool :=
  match d with
  | Path _ => true
  | Str s => negb (String.eqb s "")
  end.

(** [pathlib.Path.joinpath(output_directory, name)], the method called
    on the class: a string has not the attributes of a path. *)
Definition joinpath (output_directory : directory) (name : string)
  : result (string * string) :=
  match output_directory with
  | Path p => Ok (p, name)
  | Str _ => Raise AttributeError
  end.

(** [timestamp.strftime("%Y%m%d%H%M")] *)
Definition strftime_YmdHM (t : datetime) : string :=
  (pad4 (year_of t) ++ pad2 (month_of t) ++ pad2 (day_of t)
   ++ pad2 (hour_of t) ++ pad2 (minute_of t))%string.

(** A file written by [to_pickle]: the folder, the name and the frame. *)
Record pickle : Type := mk_pickle {
  path : string * string;
  content : DataFrame
}.

(** [_write_lite_restart(values, t0, lite_restart)]: the files written,
    in the order of the writing.  [lite_restart] is the entry
    ['lite_restart_output_directory'] of the dictionary, [None] when the
    key is missing or holds [None].  ([t0] plus the model time is taken
    within the years of [datetime].) *)
Definition _write_lite_restart (values : values) (t0 : datetime)
    (lite_restart : option directory) : result (list pickle) :=
  match lite_restart with
  | None => Ok []
  | Some output_directory =>
      if truthy output_directory then
        a <- item (q0 values) ;;
        ids <- item (q0_ids values) ;;
        a <- reshape a (List.length ids) ;;
        q0 <- new_DataFrame a ids ["qu0"; "qd0"; "h0"]%string ;;
        a <- item (waterbody_df values) ;;
        waterbodies_ids <- item (waterbody_df_ids values) ;;
        a <- reshape a (List.length waterbodies_ids) ;;
        waterbodies_df <-
          new_DataFrame a waterbodies_ids
            ["ifd"; "LkArea"; "LkMxE"; "OrificeA"; "OrificeC"; "OrificeE";
             "WeirC"; "WeirE"; "WeirL"; "qd0"; "h0"; "index"]%string ;;
        model_time <- item (t_route_model_time values) ;;
        let timestamp := (t0 + seconds model_time)%Z in
        let timestamp_str := strftime_YmdHM timestamp in
        let channel_restart_filename :=
          ("channel_restart_" ++ timestamp_str)%string in
        let waterbody_restart_filename :=
          ("waterbody_restart_" ++ timestamp_str)%string in
        let q0_out := set_time q0 timestamp in
        channel <- joinpath output_directory channel_restart_filename ;;
        if negb (empty waterbodies_df) then
          wbody_initial_states <-
            loc_columns waterbodies_df ["qd0"; "h0"]%string ;;
          let wbody_initial_states :=
            set_time wbody_initial_states timestamp in
          waterbody <-
            joinpath output_directory waterbody_restart_filename ;;
          Ok [mk_pickle channel q0_out;
              mk_pickle waterbody wbody_initial_states]
        else Ok [mk_pickle channel q0_out]
      else Ok []
  end.

(** [_read_lite_restart(file)], from the frame [df] that the file holds
    (line 410): the frame without the column ['time'], and the first
    time. *)
Definition _read_lite_restart (df : DataFrame) : result (DataFrame * datetime) :=
  match time df with
  | None => Raise KeyError
  | Some [] => Raise IndexError
  | Some (t0 :: _) =>
      Ok (mk_DataFrame (index df) (columns df) (data df) None, t0)
  end.

(** Lines 131-140 of [__init__]: [(self._q0, self._t0,
    self._waterbody_df)].  A restart file is given by the frame it
    holds, [None] when the configuration names no file; [None] in the
    result is the default [pd.DataFrame()]. *)
Definition read_restart (_t0 : datetime)
    (lite_channel_restart_file lite_waterbody_restart_file : option DataFrame)
  : result (option DataFrame * datetime * option DataFrame) :=
  channel <-
    match lite_channel_restart_file with
    | Some df => r <- _read_lite_restart df ;; Ok (Some (fst r), snd r)
    | None => Ok (None, _t0)
    end ;;
  _waterbody_df <-
    match lite_waterbody_restart_file with
    | Some df => r <- _read_lite_restart df ;; Ok (Some (fst r))
    | None => Ok None
    end ;;
  Ok (fst channel, snd channel, _waterbody_df).

(** The names of the columns of line 452. *)
Definition waterbody_names : list string :=
  ["ifd"; "LkArea"; "LkMxE"; "OrificeA"; "OrificeC"; "OrificeE";
   "WeirC"; "WeirE"; "WeirL"; "qd0"; "h0"; "index"]%string.

(** Values that [run] can write: every key is there, there are channels
    with three states each and waterbodies with twelve numbers each. *)
Definition well_shaped (v : values) (model_time : Z) : Prop :=
  exists (a : list float) (ids : list Z) (w : list float) (wids : list Z),
    q0 v = Some a /\ q0_ids v = Some ids /\
    ids <> [] /\ List.length a = (3 * List.length ids)%nat /\
    waterbody_df v = Some w /\ waterbody_df_ids v = Some wids /\
    wids <> [] /\ List.length w = (12 * List.length wids)%nat /\
    t_route_model_time v = Some model_time.

(** The text of [strftime('%Y-%m-%d_%H:%M:%S')] for the minute that a
    text of [strftime("%Y%m%d%H%M")] names. *)
Definition with_separators (s : string) : string :=
  match list_ascii_of_string s with
  | [y1; y2; y3; y4; m1; m2; d1; d2; h1; h2; n1; n2] =>
      string_of_list_ascii
        [y1; y2; y3; y4; "-"; m1; m2; "-"; d1; d2; "_"; h1; h2; ":"; n1; n2;
         ":"; "0"; "0"]%char
  | _ => s
  end.

End Restart.

(** ** Concrete inputs *)

Module Examples.
Import Datetime Pandas.
Local Open Scope Z_scope.

Definition t0 : datetime := mk_datetime 2024 1 1 0 0 0.

(** The second end-to-end example of the specification, after quality
    control: station 01010000, 10.0 at 00:00, missing at 00:15. *)
Definition trailing_gap_frame : frame :=
  mk_frame [t0; t0 + 900] ["01010000"%string] [[10; nan]%float].

(** One-minute data with two missing samples between two observations. *)
Definition two_minute_gap_frame : frame :=
  mk_frame [t0; t0 + 60; t0 + 120; t0 + 180] ["01010000"%string]
    [[1; nan; nan; 4]%float].

(** Two observations 61 minutes apart: 60 missing minutes between. *)
Definition sixty_minute_gap_frame : frame :=
  mk_frame [t0; t0 + 3660] ["01010000"%string] [[0; 61]%float].

(** One-minute data with three missing samples between two
    observations. *)
Definition three_minute_gap_frame : frame :=
  mk_frame [t0; t0 + 60; t0 + 120; t0 + 180; t0 + 240] ["01010000"%string]
    [[1; nan; nan; nan; 5]%float].

(** One-minute data that ends with three missing samples. *)
Definition long_trailing_gap_frame : frame :=
  mk_frame [t0; t0 + 60; t0 + 120; t0 + 180] ["01010000"%string]
    [[10; nan; nan; nan]%float].

(** 401 stations, "0000" to "0400": three chunks of columns. *)
Definition many_stations_frame : frame :=
  mk_frame [t0; t0 + 900]
    (map (fun k => pad4 (Z.of_nat k)) (seq 0 401))
    (map (fun k => [float_of_Z (Z.of_nat k + 1); nan]) (seq 0 401)).

(** A lastobs file with one gage that was never observed. *)
Definition never_observed : LastObs.dataset :=
  LastObs.mk_dataset ["01010000"%string] "2024-01-01_01:00:00"%string 2
    [["2024-01-01_00:00:00"; "2024-01-01_00:15:00"]%string]
    [[-9999; -9999]%float].

(** A lastobs file with a gage that was never observed beside one that
    was, last at 00:15. *)
Definition one_observed : LastObs.dataset :=
  LastObs.mk_dataset ["01010000"; "01010500"]%string
    "2024-01-01_01:00:00"%string 3
    [["2024-01-01_00:00:00"; "2024-01-01_00:15:00"; "2024-01-01_00:30:00"];
     ["2024-01-01_00:00:00"; "2024-01-01_00:15:00"; "2024-01-01_00:30:00"]]%string
    [[-9999; -9999; -9999]; [3.5; 4.25; -9999]]%float.

(** Three timeslice files of a directory, as [glob] lists them; a
    reading of the second station has the quality flag 0. *)
Definition timeslice_dir : Loader.directory :=
  [("2024-01-01_00:15:00.15min.usgsTimeSlice.ncdf"%string,
    [QC.mk_obs_row " 01010000" "2024-01-01_00:15:00" 12 100;
     QC.mk_obs_row " 01010500" "2024-01-01_00:15:00" 3 0]%float);
   ("2024-01-01_00:00:00.15min.usgsTimeSlice.ncdf"%string,
    [QC.mk_obs_row " 01010000" "2024-01-01_00:00:00" 10 100;
     QC.mk_obs_row " 01010500" "2024-01-01_00:00:00" 5 100]%float);
   ("2024-01-01_00:45:00.15min.usgsTimeSlice.ncdf"%string,
    [QC.mk_obs_row " 01010000" "2024-01-01_00:45:00" 16 100]%float)].

(** The dates of the window loop for a start at [t0], no lookback and
    a horizon of 2700 s. *)
Definition timeslice_window : list string :=
  ["2024-01-01_00:00:00"; "2024-01-01_00:15:00"; "2024-01-01_00:30:00";
   "2024-01-01_00:45:00"]%string.

(** The rows read from [timeslice_dir] for [timeslice_window]. *)
Definition timeslice_rows : QC.observation_df :=
  [QC.mk_obs_row " 01010000" "2024-01-01_00:00:00" 10 100;
   QC.mk_obs_row " 01010500" "2024-01-01_00:00:00" 5 100;
   QC.mk_obs_row " 01010000" "2024-01-01_00:15:00" 12 100;
   QC.mk_obs_row " 01010500" "2024-01-01_00:15:00" 3 0;
   QC.mk_obs_row " 01010000" "2024-01-01_00:45:00" 16 100]%float.

(** The entries of a directory of forecast files; the window of the
    forecast loop for a start at 02:00 and a lookback of two hours holds
    the dates of the first two. *)
Definition forecast_entries : list string :=
  ["2024-01-01_00.60min.ABC.RFCTimeSeries.ncdf";
   "2024-01-01_02.60min.ABC.RFCTimeSeries.ncdf";
   "2023-12-31_23.30min.ABC.RFCTimeSeries.ncdf";
   ".directory"]%string.

Definition forecast_window : list string :=
  ["2024-01-01_00"; "2024-01-01_01"; "2024-01-01_02"]%string.

(** A forecast file of five hourly values from midnight, the rows in
    the order of [forecastInd]. *)
Definition forecast_file : Timeseries.forecast_dataset :=
  Timeseries.mk_forecast_dataset (Some "2024-01-01_00:00:00"%string)
    (Some 60%positive)
    [Timeseries.mk_forecast_row 0
       (Timeseries.mk_forecast_values "ABC  " 10 0 5 5);
     Timeseries.mk_forecast_row 1
       (Timeseries.mk_forecast_values "ABC  " 11 0 5 5);
     Timeseries.mk_forecast_row 2
       (Timeseries.mk_forecast_values "ABC  " 12 0 5 5);
     Timeseries.mk_forecast_row 3
       (Timeseries.mk_forecast_values "ABC  " 13 1 5 5);
     Timeseries.mk_forecast_row 4
       (Timeseries.mk_forecast_values "ABC  " 14 1 5 5)]%float.

(** A validation that accepts every file. *)
Definition accept_all (station : string) (discharges synthetic : list float)
    (filepath f : string) (routing_period : Z) (flag : bool) : bool := true.

(** The values of a run with two channels and one waterbody, an hour
    after the start. *)
Definition restart_values : Restart.values :=
  Restart.mk_values
    (Some [1; 2; 3; 4; 5; 6]%float) (Some [101; 102])
    (Some [0; 1; 2; 3; 4; 5; 6; 7; 8; 9; 10; 11]%float) (Some [7])
    (Some 3600).

(** The same run a minute and a half later. *)
Definition later_values : Restart.values :=
  Restart.mk_values
    (Some [1; 2; 3; 4; 5; 6]%float) (Some [101; 102])
    (Some [0; 1; 2; 3; 4; 5; 6; 7; 8; 9; 10; 11]%float) (Some [7])
    (Some 3690).

(** The values of a run of a network without waterbodies. *)
Definition values_without_waterbodies : Restart.values :=
  Restart.mk_values
    (Some [1; 2; 3; 4; 5; 6]%float) (Some [101; 102])
    (Some []) (Some [])
    (Some 3600).

End Examples.

(** * Part II: theorems *)

(** ** Quality control *)

Module QCFacts.
Import QC.
Local Open Scope float_scope.

Lemma nan_leb_zero : (nan <=? 0) = false.
Proof. reflexivity. Qed.

Lemma qc_filter_rowwise (thr : float) (df : observation_df) :
  qc_filter thr df = map (qc_row thr) df.
Proof.
  unfold qc_filter, normalize_quality, loc_assign_nan.
  rewrite !map_map. apply map_ext. intros [s t d q].
  unfold qc_row, fails_qc, set_quality, set_discharge; simpl.
  destruct (q / 100 <? 0) eqn:E1; simpl.
  - destruct (1 <? q / 100); simpl;
      destruct (q / 100 <? thr); simpl; rewrite ?nan_leb_zero; reflexivity.
  - destruct (1 <? q / 100) eqn:E2; simpl.
    + destruct (q / 100 <? thr); simpl; rewrite ?nan_leb_zero; reflexivity.
    + destruct (q / 100 <? thr) eqn:E3; simpl.
      * rewrite ?nan_leb_zero; reflexivity.
      * destruct (d <=? 0); reflexivity.
Qed.

(** C1. For every observation record, quality control sets the discharge
    to missing exactly when the normalized quality (raw / 100) is < 0, or
    > 1, or < the threshold, or the discharge is <= 0; a record passing
    all four tests keeps its discharge.  The frame keeps its rows, in
    order, with their station and time. *)
Theorem qc_filter_spec (thr : float) (df : observation_df) :
  List.length (qc_filter thr df) = List.length df /\
  forall (i : nat) (r : obs_row),
    nth_error df i = Some r ->
    exists r',
      nth_error (qc_filter thr df) i = Some r' /\
      stationId r' = stationId r /\
      time r' = time r /\
      discharge_quality r' = discharge_quality r / 100 /\
      (fails_qc thr r = true -> discharge r' = nan) /\
      (fails_qc thr r = false -> discharge r' = discharge r) /\
      (is_nan (discharge r') = true <->
         fails_qc thr r = true \/ is_nan (discharge r) = true).
Proof.
  rewrite qc_filter_rowwise. split.
  - apply length_map.
  - intros i r Hi. exists (qc_row thr r). split.
    + rewrite nth_error_map, Hi. reflexivity.
    + unfold qc_row; simpl. repeat split; try reflexivity.
      * intros ->. reflexivity.
      * intros ->. reflexivity.
      * destruct (fails_qc thr r); intros H; auto.
      * destruct (fails_qc thr r); intros [H|H]; try reflexivity;
          try discriminate; exact H.
Qed.

(** The readings of the specification's examples: quality 100 passes a
    threshold of 0.8, quality 50 does not. *)
Example qc_filter_example :
  qc_filter 0.8
    [mk_obs_row "01010000" "2024-01-01_00:00:00" 10 100;
     mk_obs_row "01010000" "2024-01-01_00:15:00" 12 50]
  = [mk_obs_row "01010000" "2024-01-01_00:00:00" 10 1;
     mk_obs_row "01010000" "2024-01-01_00:15:00" nan 0.5].
Proof. vm_compute. reflexivity. Qed.

End QCFacts.

(** ** Calendar *)

Module DatetimeFacts.
Import Datetime.
Local Open Scope Z_scope.

Lemma month_and_day_checked (leap : bool) :
  forallb
    (fun k =>
       let n := Z.of_nat k in
       let m := fst (month_and_day n leap) in
       let d := snd (month_and_day n leap) in
       (1 <=? m) && (m <=? 12) && (1 <=? d)
       && (d <=? (if (m =? 2) && leap then 29
                  else nth (Z.to_nat m) _DAYS_IN_MONTH (-1)))
       && (nth (Z.to_nat m) _DAYS_BEFORE_MONTH (-1)
           + (if (2 <? m) && leap then 1 else 0) + d =? n + 1))
    (seq 0 365) = true.
Proof. destruct leap; vm_compute; reflexivity. Qed.

Lemma month_and_day_spec (n : Z) (leap : bool) :
  0 <= n <= 364 ->
  let m := fst (month_and_day n leap) in
  let d := snd (month_and_day n leap) in
  1 <= m <= 12 /\
  1 <= d <= (if (m =? 2) && leap then 29
             else nth (Z.to_nat m) _DAYS_IN_MONTH (-1)) /\
  nth (Z.to_nat m) _DAYS_BEFORE_MONTH (-1)
  + (if (2 <? m) && leap then 1 else 0) + d = n + 1.
Proof.
  intros Hn. pose proof (month_and_day_checked leap) as H.
  rewrite forallb_forall in H. specialize (H (Z.to_nat n)).
  rewrite Z2Nat.id in H by lia.
  assert (Hin : In (Z.to_nat n) (seq 0 365)) by (apply in_seq; lia).
  specialize (H Hin). cbv zeta in *.
  repeat (apply andb_true_iff in H; destruct H as [H ?]).
  repeat match goal with
         | H : (_ <=? _) = true |- _ => apply Z.leb_le in H
         | H : (_ =? _) = true |- _ => apply Z.eqb_eq in H
         end.
  repeat split; assumption.
Qed.

(** The year arithmetic. *)
Lemma days_before_year_split (a b c e : Z) :
  0 <= b <= 3 -> 0 <= c <= 24 -> 0 <= e <= 3 ->
  _days_before_year (400 * a + 100 * b + 4 * c + e + 1)
  = 146097 * a + 36524 * b + 1461 * c + 365 * e.
Proof.
  intros Hb Hc He. unfold _days_before_year.
  replace (400 * a + 100 * b + 4 * c + e + 1 - 1) with (400 * a + 100 * b + 4 * c + e) by lia.
  assert (E4 : (400 * a + 100 * b + 4 * c + e) / 4 = 100 * a + 25 * b + c).
  { symmetry. apply (Z.div_unique _ 4 _ e); lia. }
  assert (E100 : (400 * a + 100 * b + 4 * c + e) / 100 = 4 * a + b).
  { symmetry. apply (Z.div_unique _ 100 _ (4 * c + e)); lia. }
  assert (E400 : (400 * a + 100 * b + 4 * c + e) / 400 = a).
  { symmetry. apply (Z.div_unique _ 400 _ (100 * b + 4 * c + e)); lia. }
  rewrite E4, E100, E400. lia.
Qed.

Lemma is_leap_split (a b c e : Z) :
  0 <= b <= 3 -> 0 <= c <= 24 -> 0 <= e <= 3 ->
  _is_leap (400 * a + 100 * b + 4 * c + e + 1)
  = (e =? 3) && (negb (c =? 24) || (b =? 3)).
Proof.
  intros Hb Hc He. unfold _is_leap.
  set (Y := 400 * a + 100 * b + 4 * c + e + 1).
  assert (M4 : Y mod 4 = (e + 1) mod 4).
  { unfold Y. replace (400 * a + 100 * b + 4 * c + e + 1) with ((e + 1) + (100 * a + 25 * b + c) * 4) by lia.
    apply Z.mod_add. lia. }
  assert (M100 : Y mod 100 = (4 * c + e + 1) mod 100).
  { unfold Y. replace (400 * a + 100 * b + 4 * c + e + 1) with ((4 * c + e + 1) + (4 * a + b) * 100) by lia.
    apply Z.mod_add. lia. }
  assert (M400 : Y mod 400 = (100 * b + 4 * c + e + 1) mod 400).
  { unfold Y. replace (400 * a + 100 * b + 4 * c + e + 1) with ((100 * b + 4 * c + e + 1) + a * 400) by lia.
    apply Z.mod_add. lia. }
  rewrite M4, M100, M400.
  destruct (Z.eqb_spec e 3) as [->|He3].
  - cbn [andb]. replace ((3 + 1) mod 4) with 0 by reflexivity. cbn [Z.eqb andb].
    destruct (Z.eqb_spec c 24) as [->|Hc24].
    + cbn [negb orb]. replace ((4 * 24 + 3 + 1) mod 100) with 0 by reflexivity.
      cbn [Z.eqb negb orb].
      destruct (Z.eqb_spec b 3) as [->|Hb3]; [reflexivity|].
      replace (100 * b + 4 * 24 + 3 + 1) with (100 * (b + 1)) by lia.
      destruct (Z.eqb_spec ((100 * (b + 1)) mod 400) 0) as [E|]; [|reflexivity].
      exfalso. rewrite Z.mod_small in E by lia. lia.
    + cbn [negb orb].
      destruct (Z.eqb_spec ((4 * c + 3 + 1) mod 100) 0) as [E|]; [|reflexivity].
      exfalso. rewrite Z.mod_small in E by lia. lia.
  - cbn [andb].
    destruct (Z.eqb_spec ((e + 1) mod 4) 0) as [E|]; [|reflexivity].
    exfalso. rewrite Z.mod_small in E by lia. lia.
Qed.

Lemma ord2ymd_spec (n : Z) :
  1 <= n ->
  let y := fst (fst (_ord2ymd n)) in
  let m := snd (fst (_ord2ymd n)) in
  let d := snd (_ord2ymd n) in
  1 <= y /\ (n <= 3652059 -> y <= 9999) /\
  1 <= m <= 12 /\
  1 <= d <= _days_in_month y m /\
  _ymd2ord y m d = n.
Proof.
  intros Hn. cbv zeta. unfold _ord2ymd, _DI400Y, _DI100Y, _DI4Y.
  set (n0 := n - 1).
  pose proof (Z.div_mod n0 146097 ltac:(lia)) as D400.
  pose proof (Z.mod_pos_bound n0 146097 ltac:(lia)) as B400.
  set (a := n0 / 146097) in *. set (r400 := n0 mod 146097) in *.
  pose proof (Z.div_mod r400 36524 ltac:(lia)) as D100.
  pose proof (Z.mod_pos_bound r400 36524 ltac:(lia)) as B100.
  set (b := r400 / 36524) in *. set (r100 := r400 mod 36524) in *.
  pose proof (Z.div_mod r100 1461 ltac:(lia)) as D4.
  pose proof (Z.mod_pos_bound r100 1461 ltac:(lia)) as B4.
  set (c := r100 / 1461) in *. set (r4 := r100 mod 1461) in *.
  pose proof (Z.div_mod r4 365 ltac:(lia)) as D1.
  pose proof (Z.mod_pos_bound r4 365 ltac:(lia)) as B1.
  set (e := r4 / 365) in *. set (r1 := r4 mod 365) in *.
  assert (Ha : 0 <= a) by (apply Z.div_pos; lia).
  assert (Hb : 0 <= b <= 4) by lia.
  assert (Hc : 0 <= c <= 24) by lia.
  assert (He : 0 <= e <= 4) by lia.
  destruct ((e =? 4) || (b =? 4)) eqn:Elast.
  - cbn [fst snd].
    assert (Hcase : b = 4 /\ c = 0 /\ e = 0 /\ r1 = 0 \/
                    b <= 3 /\ c <= 23 /\ e = 4 /\ r1 = 0).
    { apply orb_true_iff in Elast. destruct Elast as [E|E];
        apply Z.eqb_eq in E; lia. }
    assert (HY : exists b' c',
               0 <= b' <= 3 /\ 0 <= c' <= 24 /\ (c' = 24 -> b' = 3) /\
               a * 400 + 1 + b * 100 + c * 4 + e - 1
               = 400 * a + 100 * b' + 4 * c' + 3 + 1 /\
               n = 146097 * a + 36524 * b' + 1461 * c' + 365 * 3 + 366).
    { destruct Hcase as [(-> & -> & -> & Hr)|(Hb3 & Hc23 & -> & Hr)].
      - exists 3, 24. repeat split; lia.
      - exists b, c. repeat split; lia. }
    destruct HY as (b' & c' & Hb' & Hc' & Hcb & -> & Hn').
    assert (Hleap : _is_leap (400 * a + 100 * b' + 4 * c' + 3 + 1) = true).
    { rewrite is_leap_split by lia. cbn [Z.eqb andb].
      destruct (Z.eqb_spec c' 24) as [E|]; [|reflexivity].
      rewrite (Hcb E). reflexivity. }
    set (Y := 400 * a + 100 * b' + 4 * c' + 3 + 1) in *.
    assert (E1 : _days_in_month Y 12 = 31) by reflexivity.
    assert (E2 : _days_before_month Y 12
                 = 334 + (if _is_leap Y then 1 else 0)) by reflexivity.
    split; [unfold Y; lia|]. split; [unfold Y; lia|]. split; [lia|].
    rewrite E1. split; [lia|].
    unfold _ymd2ord. rewrite E2, Hleap. unfold Y.
    rewrite days_before_year_split by lia. lia.
  - apply orb_false_iff in Elast. destruct Elast as [E4 Eb4].
    apply Z.eqb_neq in E4. apply Z.eqb_neq in Eb4.
    assert (Hb3 : 0 <= b <= 3) by lia. assert (He3 : 0 <= e <= 3) by lia.
    cbn [fst snd].
    replace (a * 400 + 1 + b * 100 + c * 4 + e)
      with (400 * a + 100 * b + 4 * c + e + 1) by lia.
    rewrite <- (@is_leap_split a b c e Hb3 Hc He3).
    set (Y := 400 * a + 100 * b + 4 * c + e + 1).
    pose proof (@month_and_day_spec r1 (_is_leap Y) ltac:(lia)) as Hmd.
    cbv zeta in Hmd. destruct Hmd as (Hm & Hd & Hord).
    split; [unfold Y; lia|]. split; [unfold Y; lia|].
    split; [exact Hm|]. split; [exact Hd|].
    unfold _ymd2ord, _days_before_month. unfold Y at 1.
    rewrite days_before_year_split by lia. fold Y. lia.
Qed.

Lemma digit_val_digit (n : Z) : digit_val (digit n) = Some (n mod 10).
Proof.
  unfold digit.
  pose proof (Z.mod_pos_bound n 10 ltac:(lia)) as Hb.
  rewrite <- (Z2Nat.id (n mod 10)) at 2 by lia.
  assert (H : (Z.to_nat (n mod 10) < 10)%nat) by lia.
  destruct (Z.to_nat (n mod 10)) as [|[|[|[|[|[|[|[|[|[|k]]]]]]]]]];
    try reflexivity. lia.
Qed.

Lemma number_pad2 (n : Z) :
  0 <= n < 100 ->
  number [digit (n / 10); digit n] 0 = Some n.
Proof.
  intros Hn. cbn [number]. rewrite !digit_val_digit. f_equal.
  pose proof (Z.div_mod n 10 ltac:(lia)).
  pose proof (Z.mod_pos_bound n 10 ltac:(lia)).
  assert (0 <= n / 10 < 10)
    by (split; [apply Z.div_pos; lia | apply Z.div_lt_upper_bound; lia]).
  rewrite (Z.mod_small (n / 10) 10) by lia. lia.
Qed.

Lemma number_pad4 (n : Z) :
  0 <= n < 10000 ->
  number [digit (n / 1000); digit (n / 100); digit (n / 10); digit n] 0
  = Some n.
Proof.
  intros Hn. cbn [number]. rewrite !digit_val_digit. f_equal.
  pose proof (Z.div_mod n 10 ltac:(lia)).
  pose proof (Z.mod_pos_bound n 10 ltac:(lia)).
  pose proof (Z.div_mod (n / 10) 10 ltac:(lia)).
  pose proof (Z.mod_pos_bound (n / 10) 10 ltac:(lia)).
  pose proof (Z.div_mod (n / 100) 10 ltac:(lia)).
  pose proof (Z.mod_pos_bound (n / 100) 10 ltac:(lia)).
  assert (E100 : n / 100 = n / 10 / 10) by (rewrite Z.div_div by lia; reflexivity).
  assert (E1000 : n / 1000 = n / 100 / 10) by (rewrite Z.div_div by lia; reflexivity).
  assert (0 <= n / 1000 < 10)
    by (split; [apply Z.div_pos; lia | apply Z.div_lt_upper_bound; lia]).
  rewrite (Z.mod_small (n / 1000) 10) by lia. lia.
Qed.

(** The fields of an instant in the range of [datetime]. *)
Lemma fields_in_range (t : datetime) :
  0 <= t < 3652059 * 86400 ->
  1 <= year_of t <= 9999 /\
  1 <= month_of t <= 12 /\
  1 <= day_of t <= _days_in_month (year_of t) (month_of t) /\
  0 <= hour_of t <= 23 /\ 0 <= minute_of t <= 59 /\ 0 <= second_of t <= 59 /\
  mk_datetime (year_of t) (month_of t) (day_of t) (hour_of t) (minute_of t)
    (second_of t) = t.
Proof.
  intros Ht. unfold year_of, month_of, day_of, hour_of, minute_of, second_of,
    mk_datetime, toordinal.
  assert (Hq : 0 <= t / 86400 < 3652059)
    by (split; [apply Z.div_pos; lia | apply Z.div_lt_upper_bound; lia]).
  pose proof (@ord2ymd_spec (t / 86400 + 1) ltac:(lia)) as H.
  cbv zeta in H. destruct H as (Hy & Hy' & Hm & Hd & Hord).
  rewrite Hord.
  pose proof (Z.div_mod t 86400 ltac:(lia)).
  pose proof (Z.mod_pos_bound t 86400 ltac:(lia)).
  pose proof (Z.div_mod (t mod 86400) 3600 ltac:(lia)).
  pose proof (Z.mod_pos_bound (t mod 86400) 3600 ltac:(lia)).
  pose proof (Z.div_mod (t mod 3600) 60 ltac:(lia)).
  pose proof (Z.mod_pos_bound (t mod 3600) 60 ltac:(lia)).
  pose proof (Z.mod_pos_bound t 60 ltac:(lia)).
  pose proof (Z.mod_pos_bound t 3600 ltac:(lia)).
  assert (E1 : (t mod 86400) mod 3600 = t mod 3600).
  { apply Z.mod_mod_divide. exists 24. reflexivity. }
  assert (E2 : (t mod 3600) mod 60 = t mod 60).
  { apply Z.mod_mod_divide. exists 60. reflexivity. }
  assert (0 <= t mod 86400 / 3600 < 24)
    by (split; [apply Z.div_pos; lia | apply Z.div_lt_upper_bound; lia]).
  assert (0 <= t mod 3600 / 60 < 60)
    by (split; [apply Z.div_pos; lia | apply Z.div_lt_upper_bound; lia]).
  repeat split; try lia.
Qed.

Lemma in_range_true (lo x hi : Z) : lo <= x <= hi -> in_range lo x hi = true.
Proof.
  intros H. unfold in_range. apply andb_true_iff. split; apply Z.leb_le; lia.
Qed.

Lemma four_digit_years (t : datetime) :
  mk_datetime 1000 1 1 0 0 0 <= t <= datetime_max ->
  0 <= t < 3652059 * 86400.
Proof.
  assert (E1 : mk_datetime 1000 1 1 0 0 0 = 31525372800) by reflexivity.
  assert (E2 : datetime_max = 3652059 * 86400 - 1) by reflexivity.
  rewrite E1, E2. unfold datetime. lia.
Qed.

Lemma days_in_month_le (y m : Z) : 1 <= m <= 12 -> _days_in_month y m <= 31.
Proof.
  intros Hm. unfold _days_in_month.
  destruct ((m =? 2) && _is_leap y); [lia|].
  assert (Hc : m = 1 \/ m = 2 \/ m = 3 \/ m = 4 \/ m = 5 \/ m = 6 \/ m = 7
               \/ m = 8 \/ m = 9 \/ m = 10 \/ m = 11 \/ m = 12) by lia.
  repeat (destruct Hc as [-> | Hc]; [vm_compute; discriminate|]).
  subst m. vm_compute; discriminate.
Qed.

Lemma parse_format_YmdHMS (t : datetime) :
  0 <= t < 3652059 * 86400 ->
  strptime_YmdHMS (strftime_YmdHMS t) = Ok t.
Proof.
  intros Ht.
  destruct (@fields_in_range t Ht) as (Hy & Hm & Hd & Hh & Hmi & Hs & Hmk).
  unfold strptime_YmdHMS, strftime_YmdHMS, pad4, pad2.
  pose proof (@days_in_month_le (year_of t) (month_of t) Hm) as Hdm.
  unfold field, sep.
  cbn [append list_ascii_of_string List.length Nat.eqb nth_error
       Ascii.eqb Bool.eqb andb firstn skipn].
  rewrite number_pad4 by lia. rewrite !number_pad2 by lia.
  unfold checked_datetime. rewrite !in_range_true by lia.
  cbn [andb]. rewrite Hmk. reflexivity.
Qed.

Lemma mk_datetime_hour (y m d h mi s : Z) :
  mk_datetime y m d h 0 0 = mk_datetime y m d h mi s - (mi * 60 + s).
Proof. unfold mk_datetime, datetime. ring. Qed.

Lemma minute_second (t : datetime) :
  minute_of t * 60 + second_of t = t mod 3600.
Proof.
  unfold minute_of, second_of.
  pose proof (Z.div_mod (t mod 3600) 60 ltac:(lia)) as Hdiv.
  assert (E2 : (t mod 3600) mod 60 = t mod 60).
  { apply Z.mod_mod_divide. exists 60. reflexivity. }
  rewrite E2 in Hdiv. unfold datetime in *. lia.
Qed.

Lemma parse_format_YmdH (t : datetime) :
  0 <= t < 3652059 * 86400 ->
  strptime_YmdH (strftime_YmdH t) = Ok (t - t mod 3600).
Proof.
  intros Ht.
  destruct (@fields_in_range t Ht) as (Hy & Hm & Hd & Hh & Hmi & Hs & Hmk).
  unfold strptime_YmdH, strftime_YmdH, pad4, pad2.
  pose proof (@days_in_month_le (year_of t) (month_of t) Hm) as Hdm.
  unfold field, sep.
  cbn [append list_ascii_of_string List.length Nat.eqb nth_error
       Ascii.eqb Bool.eqb andb firstn skipn].
  rewrite number_pad4 by lia. rewrite !number_pad2 by lia.
  unfold checked_datetime. rewrite !in_range_true by lia.
  cbn [andb].
  rewrite (@mk_datetime_hour _ _ _ _ (minute_of t) (second_of t)), Hmk.
  rewrite minute_second. reflexivity.
Qed.

(** Parsing the text [strftime('%Y-%m-%d_%H:%M:%S')] wrote for an instant
    of a four-digit year gives the instant back. *)
Theorem strptime_strftime_YmdHMS (t : datetime) :
  mk_datetime 1000 1 1 0 0 0 <= t <= datetime_max ->
  strptime_YmdHMS (strftime_YmdHMS t) = Ok t.
Proof.
  intros Ht. apply parse_format_YmdHMS. apply four_digit_years. exact Ht.
Qed.

(** Parsing the text [strftime('%Y-%m-%d_%H')] wrote for an instant of a
    four-digit year gives the start of the instant's hour. *)
Theorem strptime_strftime_YmdH (t : datetime) :
  mk_datetime 1000 1 1 0 0 0 <= t <= datetime_max ->
  strptime_YmdH (strftime_YmdH t) = Ok (t - t mod 3600).
Proof.
  intros Ht. apply parse_format_YmdH. apply four_digit_years. exact Ht.
Qed.

Lemma strptime_strftime_YmdHMS_witness :
  strptime_YmdHMS (strftime_YmdHMS Examples.t0) = Ok Examples.t0.
Proof.
  apply strptime_strftime_YmdHMS. vm_compute. split; discriminate.
Defined.

Lemma strptime_strftime_YmdH_witness :
  strptime_YmdH (strftime_YmdH (Examples.t0 + 4500))
  = Ok (Examples.t0 + 4500 - (Examples.t0 + 4500) mod 3600).
Proof.
  apply strptime_strftime_YmdH. vm_compute. split; discriminate.
Defined.

End DatetimeFacts.

(** ** Window Planner *)

Module WindowPlannerFacts.
Import Datetime WindowPlanner.
Local Open Scope Z_scope.

Section Loop.
Variable A : Type.
Variable fmt : datetime -> A.
Variable delta : timedelta.
Hypothesis delta_pos : 0 < delta.

Lemma grid_count_step (cur stop : datetime) :
  cur <= stop ->
  grid_count delta cur stop = S (grid_count delta (cur + delta) stop).
Proof.
  intros Hle. unfold grid_count.
  destruct (Z.leb_spec cur stop) as [_|]; [|lia].
  replace (stop - (cur + delta)) with ((stop - cur) + (-1) * delta) by ring.
  rewrite Z.div_add by lia.
  destruct (Z.leb_spec (cur + delta) stop) as [H|H].
  - assert (1 <= (stop - cur) / delta)
      by (apply Z.div_le_lower_bound; lia).
    lia.
  - rewrite Z.div_small by lia. reflexivity.
Qed.

Lemma grid_count_done (cur stop : datetime) :
  stop < cur -> grid_count delta cur stop = O.
Proof.
  intros H. unfold grid_count.
  destruct (Z.leb_spec cur stop); [lia | reflexivity].
Qed.

Lemma grid_step (cur stop : datetime) :
  cur <= stop -> grid delta cur stop = cur :: grid delta (cur + delta) stop.
Proof.
  intros Hle. unfold grid. rewrite (grid_count_step Hle).
  cbn [seq map]. apply f_equal2; [cbn; lia|].
  rewrite <- seq_shift, map_map. apply map_ext. intros k. lia.
Qed.

Lemma grid_done (cur stop : datetime) : stop < cur -> grid delta cur stop = [].
Proof. intros H. unfold grid. rewrite (grid_count_done H). reflexivity. Qed.

(** With enough fuel the loop ends, and appends the grid. *)
Lemma while_dates_runs (fuel : nat) :
  forall (cur stop : datetime) (dates : list A),
    (grid_count delta cur stop < fuel)%nat ->
    while_dates fmt delta fuel cur stop dates
    = Some (dates ++ map fmt (grid delta cur stop)).
Proof.
  induction fuel as [|fuel IH]; intros cur stop dates Hf; [lia|].
  cbn [while_dates]. destruct (Z.leb_spec cur stop) as [Hle|Hgt].
  - rewrite IH by (rewrite (grid_count_step Hle) in Hf; lia).
    rewrite (grid_step Hle). cbn [map]. rewrite <- app_assoc. reflexivity.
  - rewrite (grid_done Hgt). cbn [map]. rewrite app_nil_r. reflexivity.
Qed.

(** Whatever the fuel, a run that ends has appended the grid. *)
Lemma while_dates_result (fuel : nat) :
  forall (cur stop : datetime) (dates l : list A),
    while_dates fmt delta fuel cur stop dates = Some l ->
    l = dates ++ map fmt (grid delta cur stop).
Proof.
  induction fuel as [|fuel IH]; intros cur stop dates l H; [discriminate|].
  cbn [while_dates] in H. destruct (Z.leb_spec cur stop) as [Hle|Hgt].
  - apply IH in H. rewrite H, (grid_step Hle). cbn [map].
    rewrite <- app_assoc. reflexivity.
  - injection H as <-. rewrite (grid_done Hgt). cbn [map].
    rewrite app_nil_r. reflexivity.
Qed.

Lemma grid_spaced (cnt : nat) :
  forall (s : nat) (first : datetime),
    spaced delta (map (fun k => first + delta * Z.of_nat k) (seq s cnt)).
Proof.
  induction cnt as [|cnt IH]; intros s first; [exact I|].
  destruct cnt as [|cnt]; [exact I|].
  specialize (IH (S s) first).
  cbn [seq map spaced] in *. split; [lia | exact IH].
Qed.

Lemma spaced_increasing (l : list Z) : spaced delta l -> strictly_increasing l.
Proof.
  induction l as [|a [|b l] IH]; try (intros; exact I).
  intros [H1 H2]. split; [lia | exact (IH H2)].
Qed.

Lemma grid_last (first stop d : datetime) :
  first <= stop ->
  last (grid delta first stop) d = first + delta * ((stop - first) / delta).
Proof.
  intros Hle. unfold grid, grid_count.
  destruct (Z.leb_spec first stop) as [_|]; [|lia].
  assert (Hq : 0 <= (stop - first) / delta) by (apply Z.div_pos; lia).
  replace (Z.to_nat ((stop - first) / delta + 1))
    with (S (Z.to_nat ((stop - first) / delta))) by lia.
  rewrite seq_S, map_app. cbn [map]. rewrite last_last.
  rewrite Nat.add_0_l, Z2Nat.id by lia. reflexivity.
Qed.

Lemma grid_hd (first stop : datetime) :
  first <= stop -> hd_error (grid delta first stop) = Some first.
Proof. intros Hle. rewrite (grid_step Hle). reflexivity. Qed.

End Loop.

Lemma is_digit_digit (n : Z) : is_digit (digit n) = true.
Proof.
  unfold digit.
  assert (H : (Z.to_nat (n mod 10) < 10)%nat).
  { pose proof (Z.mod_pos_bound n 10 ltac:(lia)). lia. }
  destruct (Z.to_nat (n mod 10)) as [|[|[|[|[|[|[|[|[|[|k]]]]]]]]]];
    try reflexivity. lia.
Qed.

Lemma strftime_YmdHMS_pattern (t : datetime) :
  YmdHMS_pattern (strftime_YmdHMS t) = true.
Proof.
  unfold YmdHMS_pattern, strftime_YmdHMS, pad4, pad2.
  cbn [append list_ascii_of_string forallb].
  rewrite !is_digit_digit. reflexivity.
Qed.

(** C5 (amended). For a non-negative lookback and a non-negative horizon
    [dt * nts], and a window that lies in the years 1000 to 9999 with
    room for the step that follows its end (Python's [datetime] raises
    [OverflowError] past the year 9999, and [strftime] does not pad a
    year below 1000), the timeslice loop ends and returns the text, in
    the pattern YYYY-MM-DD_HH:MM:SS, of a strictly increasing sequence
    of instants spaced exactly 15 minutes apart.  The first is
    [start - lookback]; the last is the last 15-minute step that does
    not pass [start + horizon] (it is [start + horizon] exactly when the
    horizon is a multiple of 900 s); and first <= start <= last.  The
    result does not depend on the fuel. *)
Theorem timeslice_dates_window (fuel : nat) (start lookback dt nts : Z) :
  0 <= lookback ->
  0 <= dt * nts ->
  mk_datetime 1000 1 1 0 0 0 <= start - hours lookback ->
  start + seconds (dt * nts) + minutes 15 <= datetime_max ->
  (Z.to_nat ((3600 * lookback + dt * nts) / 900) + 1 < fuel)%nat ->
  exists ts : list datetime,
    timeslice_dates fuel start lookback dt nts
    = Some (map strftime_YmdHMS ts) /\
    timeslice_instants fuel start lookback dt nts = Some ts /\
    (forall fuel' l, timeslice_dates fuel' start lookback dt nts = Some l ->
                     l = map strftime_YmdHMS ts) /\
    Forall (fun s => YmdHMS_pattern s = true) (map strftime_YmdHMS ts) /\
    hd_error ts = Some (start - hours lookback) /\
    strictly_increasing ts /\
    spaced (minutes 15) ts /\
    last ts start <= start + seconds (dt * nts) < last ts start + minutes 15 /\
    start - hours lookback <= start <= last ts start /\
    (last ts start = start + seconds (dt * nts) <-> (dt * nts) mod 900 = 0).
Proof.
  intros Hlb Hhz _ _ Hfuel.
  set (first := start - hours lookback).
  set (stop := start + seconds (dt * nts)).
  assert (Hd : 0 < minutes 15) by (unfold minutes; lia).
  assert (Hle : first <= stop) by (unfold first, stop, hours, seconds; lia).
  assert (Hdiff : stop - first = 3600 * lookback + dt * nts)
    by (unfold first, stop, hours, seconds; lia).
  assert (Hcnt : (grid_count (minutes 15) first stop < fuel)%nat).
  { unfold grid_count. destruct (Z.leb_spec first stop); [|lia].
    rewrite Hdiff. change (minutes 15) with 900.
    assert (0 <= (3600 * lookback + dt * nts) / 900)
      by (apply Z.div_pos; lia).
    lia. }
  exists (grid (minutes 15) first stop).
  unfold timeslice_dates, timeslice_instants. fold first stop.
  rewrite !(while_dates_runs _ Hd) by exact Hcnt.
  rewrite map_id. cbn [app].
  rewrite (grid_last Hd start Hle), Hdiff.
  change (minutes 15) with 900 in *.
  pose proof (Z.div_mod (3600 * lookback + dt * nts) 900 ltac:(lia)) as Hdm.
  pose proof (Z.mod_pos_bound (3600 * lookback + dt * nts) 900 ltac:(lia))
    as Hmb.
  assert (Hq : 4 * lookback <= (3600 * lookback + dt * nts) / 900)
    by (apply Z.div_le_lower_bound; lia).
  assert (Hmod : (3600 * lookback + dt * nts) mod 900 = (dt * nts) mod 900).
  { replace (3600 * lookback + dt * nts)
      with (dt * nts + (4 * lookback) * 900) by ring.
    apply Z.mod_add. lia. }
  repeat split.
  - intros fuel' l H.
    apply (while_dates_result strftime_YmdHMS Hd) in H. exact H.
  - apply Forall_map, Forall_forall. intros t _.
    apply strftime_YmdHMS_pattern.
  - apply (grid_hd Hd Hle).
  - apply (spaced_increasing Hd). apply grid_spaced.
  - apply grid_spaced.
  - unfold stop, first, hours, seconds. lia.
  - unfold stop, first, hours, seconds. lia.
  - unfold first, hours. lia.
  - unfold first, hours. lia.
  - unfold stop, first, hours, seconds. intros H. lia.
  - unfold stop, first, hours, seconds. intros H. lia.
Qed.

Lemma timeslice_dates_window_witness :
  exists ts : list datetime,
    timeslice_dates 10 (mk_datetime 2024 1 1 0 0 0) 1 300 1
    = Some (map strftime_YmdHMS ts) /\
    hd_error ts = Some (mk_datetime 2024 1 1 0 0 0 - hours 1) /\
    last ts (mk_datetime 2024 1 1 0 0 0)
    <= mk_datetime 2024 1 1 0 0 0 + seconds (300 * 1).
Proof.
  destruct (@timeslice_dates_window 10 (mk_datetime 2024 1 1 0 0 0) 1 300 1)
    as (ts & H1 & _ & _ & _ & H3 & _ & _ & H4 & H5 & _);
    [lia | lia | vm_compute; discriminate | vm_compute; discriminate
     | vm_compute; lia |].
  exists ts. repeat split; try assumption. apply H4.
Defined.

(** C5, as stated, fails: with no lookback and a 300 s horizon the loop
    returns the start alone, so the last element is not start + horizon. *)
Lemma timeslice_dates_last_is_not_end :
  timeslice_dates 5 (mk_datetime 2024 1 1 0 0 0) 0 300 1
  = Some ["2024-01-01_00:00:00"%string] /\
  strftime_YmdHMS (mk_datetime 2024 1 1 0 0 0 + seconds (300 * 1))
  = "2024-01-01_00:05:00"%string /\
  timeslice_instants 5 (mk_datetime 2024 1 1 0 0 0) 0 300 1
  = Some [mk_datetime 2024 1 1 0 0 0] /\
  mk_datetime 2024 1 1 0 0 0 <> mk_datetime 2024 1 1 0 0 0 + seconds (300 * 1).
Proof. repeat split; try (vm_compute; reflexivity). vm_compute. discriminate. Qed.

(** The dates to search for timeseries files, for a start and a window
    in the years 1000 to 9999, with room for the hour that follows the
    end of the window: every hour from [start + offset - lookback] to
    [start + offset], as YYYY-MM-DD_HH. *)
Theorem timeseries_dates_window (fuel : nat) (start lookback offset : Z) :
  datetime_min <= start <= datetime_max ->
  mk_datetime 1000 1 1 0 0 0 <= start + hours offset - hours lookback
  <= datetime_max ->
  datetime_min <= start + hours offset ->
  start + hours offset + hours 1 <= datetime_max ->
  (grid_count (hours 1) (start + hours offset - hours lookback)%Z
     (start + hours offset)%Z < fuel)%nat ->
  timeseries_dates fuel start lookback offset
  = Some (map strftime_YmdH
            (grid (hours 1) (start + hours offset - hours lookback)
               (start + hours offset))).
Proof.
  intros _ _ _ _ Hf. unfold timeseries_dates.
  rewrite (@while_dates_runs _ strftime_YmdH (hours 1)) by (exact Hf || (unfold hours; lia)).
  reflexivity.
Qed.

Lemma timeseries_dates_window_witness :
  timeseries_dates 5 (mk_datetime 2024 1 1 0 0 0) 2 1
  = Some ["2023-12-31_23"; "2024-01-01_00"; "2024-01-01_01"]%string.
Proof.
  rewrite (@timeseries_dates_window 5 (mk_datetime 2024 1 1 0 0 0) 2 1).
  - vm_compute. reflexivity.
  - vm_compute. split; discriminate.
  - vm_compute. split; discriminate.
  - vm_compute. discriminate.
  - vm_compute. discriminate.
  - vm_compute. lia.
Defined.

(** C6 (amended). When the computed window end precedes the window start
    (a negative lookback or horizon), and the start, the window start
    and the window end are instants of [datetime] (the years 1 to 9999,
    outside of which lines 55 and 56 raise [OverflowError]), the loop
    body never runs: the planner returns the empty sequence and raises
    nothing. *)
Theorem timeslice_dates_empty_window (fuel : nat) (start lookback dt nts : Z) :
  (0 < fuel)%nat ->
  datetime_min <= start <= datetime_max ->
  datetime_min <= start - hours lookback <= datetime_max ->
  datetime_min <= start + seconds (dt * nts) <= datetime_max ->
  start + seconds (dt * nts) < start - hours lookback ->
  timeslice_dates fuel start lookback dt nts = Some [].
Proof.
  intros Hf _ _ _ Hlt. destruct fuel as [|fuel]; [lia|].
  unfold timeslice_dates. cbn [while_dates].
  destruct (Z.leb_spec (start - hours lookback) (start + seconds (dt * nts)));
    [lia | reflexivity].
Qed.

Lemma timeslice_dates_empty_window_witness :
  timeslice_dates 3 (mk_datetime 2024 1 1 0 0 0) 2 (-300) 100 = Some [].
Proof.
  apply (@timeslice_dates_empty_window 3 (mk_datetime 2024 1 1 0 0 0) 2 (-300) 100).
  - lia.
  - vm_compute. split; discriminate.
  - vm_compute. split; discriminate.
  - vm_compute. split; discriminate.
  - vm_compute. reflexivity.
Defined.

(** C6, as stated, fails: a negative lookback that puts the window end
    before its start gives a result, the empty list. *)
Lemma timeslice_dates_negative_lookback_returns :
  (-1 < 0)%Z /\
  mk_datetime 2024 1 1 0 0 0 + seconds (300 * 0)
  < mk_datetime 2024 1 1 0 0 0 - hours (-1) /\
  timeslice_dates 1 (mk_datetime 2024 1 1 0 0 0) (-1) 300 0 = Some [].
Proof. repeat split. Qed.

End WindowPlannerFacts.

(** ** Lists, as numpy and pandas index them *)

Module ListFacts.
Import Pandas.

Lemma length_imap (A B : Type) (f : nat -> A -> B) (l : list A) :
  List.length (imap f l) = List.length l.
Proof.
  unfold imap. rewrite length_map, length_combine, length_seq.
  apply Nat.min_id.
Qed.

Lemma nth_combine_seq (A : Type) (l : list A) (i : nat) (d : A) :
  (i < List.length l)%nat ->
  nth i (combine (seq 0 (List.length l)) l) (O, d) = (i, nth i l d).
Proof.
  intros Hi. rewrite combine_nth by apply length_seq.
  rewrite seq_nth by exact Hi. reflexivity.
Qed.

Lemma nth_imap (A B : Type) (f : nat -> A -> B) (l : list A) (i : nat)
    (d : A) (e : B) :
  (i < List.length l)%nat -> nth i (imap f l) e = f i (nth i l d).
Proof.
  intros Hi. unfold imap.
  rewrite (nth_indep _ e (f (fst (O, d)) (snd (O, d)))).
  - rewrite (map_nth (fun p => f (fst p) (snd p))).
    rewrite nth_combine_seq by exact Hi. reflexivity.
  - rewrite length_map, length_combine, length_seq. lia.
Qed.

Lemma existsb_eqb_In (i : nat) (l : list nat) :
  existsb (Nat.eqb i) l = true <-> In i l.
Proof.
  rewrite existsb_exists. split.
  - intros (x & Hx & E). apply Nat.eqb_eq in E. subst. exact Hx.
  - intros H. exists i. split; [exact H | apply Nat.eqb_refl].
Qed.

Lemma all_true_iff (l : list bool) :
  all l = true <-> forall i, (i < List.length l)%nat -> nth i l true = true.
Proof.
  unfold all. rewrite forallb_forall. split.
  - intros H i Hi. apply H. apply nth_In. exact Hi.
  - intros H b Hb. destruct (In_nth l b true Hb) as (i & Hi & <-).
    apply H. exact Hi.
Qed.

Lemma nth_slice (A : Type) (a b : nat) (l : list A) (i : nat) (d : A) :
  (i < b - a)%nat -> nth i (slice a b l) d = nth (a + i) l d.
Proof.
  intros Hi. unfold slice. rewrite nth_firstn.
  destruct (Nat.ltb_spec i (b - a)); [|lia].
  apply nth_skipn.
Qed.

Lemma length_slice (A : Type) (a b : nat) (l : list A) :
  List.length (slice a b l) = Nat.min (b - a) (List.length l - a).
Proof. unfold slice. rewrite length_firstn, length_skipn. reflexivity. Qed.

(** A slice is all true exactly when every position of it that exists
    is. *)
Lemma all_slice_iff (a b : nat) (l : list bool) :
  all (slice a b l) = true <->
  forall i, (a <= i < b)%nat -> (i < List.length l)%nat -> nth i l true = true.
Proof.
  rewrite all_true_iff, length_slice. split.
  - intros H i Hi Hl. specialize (H (i - a)%nat).
    rewrite nth_slice in H by lia.
    replace (a + (i - a))%nat with i in H by lia. apply H. lia.
  - intros H i Hi. rewrite nth_slice by lia. apply H; lia.
Qed.

End ListFacts.

(** ** Bounded interpolation ([_interpolate_1d]) *)

Module InterpFacts.
Import Datetime Pandas ListFacts Aligner.

Lemma nth_invalid (y : list float) (i : nat) :
  nth i (map is_nan y) true = is_nan (nth i y nan).
Proof. exact (map_nth is_nan y nan i). Qed.

Lemma nth_invalid_false (y : list float) (i : nat) :
  (i < List.length y)%nat ->
  nth i (map is_nan y) false = is_nan (nth i y nan).
Proof.
  intros Hi. rewrite <- nth_invalid. apply nth_indep.
  rewrite length_map. exact Hi.
Qed.

(** Membership in [_interp_limit]: a missing sample whose whole window
    (clipped to the array) is missing. *)
Lemma In_interp_limit (y : list float) (fw bw x : nat) :
  In x (_interp_limit (map is_nan y) fw bw) <->
  (x < List.length y)%nat /\
  is_nan (nth x y nan) = true /\
  forall i, (x - fw <= i <= x + bw)%nat -> (i < List.length y)%nat ->
            is_nan (nth i y nan) = true.
Proof.
  unfold _interp_limit. rewrite filter_In, in_seq, length_map.
  rewrite andb_true_iff, all_slice_iff, length_map. split.
  - intros (Hx & Hn & Hw). split; [lia|]. split.
    + rewrite <- nth_invalid_false by lia. exact Hn.
    + intros i Hi Hl. rewrite <- nth_invalid. apply Hw; lia.
  - intros (Hx & Hn & Hw). split; [lia|]. split.
    + rewrite nth_invalid_false by lia. exact Hn.
    + intros i Hi Hl. rewrite nth_invalid. apply Hw; lia.
Qed.

Lemma length_interpolate_1d (L : nat) (y : list float) :
  List.length (_interpolate_1d L y) = List.length y.
Proof.
  unfold _interpolate_1d.
  destruct (negb (any (map negb (map is_nan y)))); [reflexivity|].
  destruct (all (map negb (map is_nan y))); [reflexivity|].
  rewrite !length_imap. reflexivity.
Qed.

Lemma any_valid_iff (y : list float) :
  any (map negb (map is_nan y)) = true <->
  exists i, (i < List.length y)%nat /\ is_nan (nth i y nan) = false.
Proof.
  unfold any. rewrite existsb_exists. split.
  - intros (b & Hb & ->). rewrite map_map in Hb. apply in_map_iff in Hb.
    destruct Hb as (v & Hv & Hin). destruct (In_nth y v nan Hin) as (i & Hi & E).
    exists i. split; [exact Hi|]. rewrite E.
    destruct (is_nan v); [discriminate | reflexivity].
  - intros (i & Hi & Hv). exists true. split; [|reflexivity].
    rewrite map_map. apply in_map_iff. exists (nth i y nan). split.
    + rewrite Hv. reflexivity.
    + apply nth_In. exact Hi.
Qed.

Lemma all_valid_iff (y : list float) :
  all (map negb (map is_nan y)) = true <->
  forall i, (i < List.length y)%nat -> is_nan (nth i y nan) = false.
Proof.
  rewrite all_true_iff, !length_map. split.
  - intros H i Hi. specialize (H i Hi).
    change true with (negb false) in H at 1.
    rewrite (map_nth negb (map is_nan y) false i) in H.
    rewrite nth_invalid_false in H by exact Hi.
    destruct (is_nan (nth i y nan)); [discriminate | reflexivity].
  - intros H i Hi. change true with (negb false) at 1.
    rewrite (map_nth negb (map is_nan y) false i).
    rewrite nth_invalid_false by exact Hi. rewrite (H i Hi). reflexivity.
Qed.

(** Every sample of the result, case by case. *)
Lemma nth_interpolate_1d (L : nat) (y : list float) (x : nat) :
  (x < List.length y)%nat ->
  nth x (_interpolate_1d L y) nan =
    if is_nan (nth x y nan) then
      if negb (any (map negb (map is_nan y))) then nth x y nan
      else if existsb (Nat.eqb x) (_interp_limit (map is_nan y) L L)
           then nan else fill_at y x
    else nth x y nan.
Proof.
  intros Hx. unfold _interpolate_1d.
  destruct (negb (any (map negb (map is_nan y)))) eqn:Eany.
  { destruct (is_nan (nth x y nan)); reflexivity. }
  destruct (all (map negb (map is_nan y))) eqn:Eall.
  { rewrite all_valid_iff in Eall. rewrite (Eall x Hx). reflexivity. }
  rewrite (nth_imap _ _ nan nan) by (rewrite length_imap; exact Hx).
  rewrite (nth_imap _ _ nan nan) by exact Hx.
  destruct (is_nan (nth x y nan)) eqn:Ex; [reflexivity|].
  destruct (existsb (Nat.eqb x) (_interp_limit (map is_nan y) L L)) eqn:Ep;
    [|reflexivity].
  apply existsb_eqb_In, In_interp_limit in Ep.
  destruct Ep as (_ & Hn & _). congruence.
Qed.

(** An observed sample is never changed. *)
Lemma interpolate_1d_keeps_observed (L : nat) (y : list float) (x : nat) :
  (x < List.length y)%nat ->
  is_nan (nth x y nan) = false ->
  nth x (_interpolate_1d L y) nan = nth x y nan.
Proof. intros Hx Hv. rewrite nth_interpolate_1d, Hv by exact Hx. reflexivity. Qed.

(** A missing sample whose window [x - L .. x + L] holds no observation
    stays missing. *)
Lemma interpolate_1d_preserves (L : nat) (y : list float) (x : nat) :
  (x < List.length y)%nat ->
  all_missing y (x - L) (x + L) ->
  is_nan (nth x (_interpolate_1d L y) nan) = true.
Proof.
  intros Hx Hw.
  assert (Hn : is_nan (nth x y nan) = true) by (apply Hw; lia).
  rewrite nth_interpolate_1d, Hn by exact Hx.
  destruct (negb (any (map negb (map is_nan y)))); [exact Hn|].
  assert (Hin : In x (_interp_limit (map is_nan y) L L)).
  { apply In_interp_limit. split; [exact Hx|]. split; [exact Hn|].
    intros i Hi Hl. apply Hw; assumption. }
  apply existsb_eqb_In in Hin. rewrite Hin. reflexivity.
Qed.

(** A missing sample with an observation in its window is filled by
    [np.interp]. *)
Lemma interpolate_1d_fills (L : nat) (y : list float) (x j : nat) :
  (x < List.length y)%nat ->
  is_nan (nth x y nan) = true ->
  (x - L <= j <= x + L)%nat -> (j < List.length y)%nat ->
  is_nan (nth j y nan) = false ->
  nth x (_interpolate_1d L y) nan = fill_at y x.
Proof.
  intros Hx Hn Hj Hjl Hv. rewrite nth_interpolate_1d, Hn by exact Hx.
  assert (Hany : any (map negb (map is_nan y)) = true)
    by (apply any_valid_iff; exists j; auto).
  rewrite Hany. cbn [negb].
  destruct (existsb (Nat.eqb x) (_interp_limit (map is_nan y) L L)) eqn:Ep;
    [|reflexivity].
  apply existsb_eqb_In, In_interp_limit in Ep.
  destruct Ep as (_ & _ & Hw). rewrite (Hw j Hj Hjl) in Hv. discriminate.
Qed.

(** The example of the pandas user guide for [limit=1,
    limit_direction='both']. *)
Example interpolate_1d_user_guide :
  _interpolate_1d 1 [nan; nan; 5; nan; nan; nan; 13; nan; nan]%float
  = [nan; 5; 5; 7; nan; 11; 13; 13; nan]%float.
Proof. vm_compute. reflexivity. Qed.

(** A series without any observation is left as it is. *)
Lemma interpolate_1d_all_missing (L : nat) (y : list float) :
  (forall i, (i < List.length y)%nat -> is_nan (nth i y nan) = true) ->
  _interpolate_1d L y = y.
Proof.
  intros H. unfold _interpolate_1d.
  destruct (any (map negb (map is_nan y))) eqn:E; [|reflexivity].
  apply any_valid_iff in E. destruct E as (i & Hi & Hv).
  rewrite (H i Hi) in Hv. discriminate.
Qed.

(** *** After the last observation *)

Lemma points_all_missing (y : list float) :
  forall s : nat,
    (forall i, (i < List.length y)%nat -> is_nan (nth i y nan) = true) ->
    filter (fun p : nat * float => negb (is_nan (snd p)))
           (combine (seq s (List.length y)) y) = [].
Proof.
  induction y as [|a y IH]; intros s H; [reflexivity|].
  cbn [List.length seq combine filter snd].
  pose proof (H O ltac:(cbn; lia)) as H0. cbn [nth] in H0.
  rewrite H0. cbn [negb].
  apply IH. intros i Hi. apply (H (S i)). cbn. lia.
Qed.

Lemma points_last (y : list float) :
  forall (s j : nat) (v : float),
    nth_error y j = Some v ->
    is_nan v = false ->
    (forall i, (j < i < List.length y)%nat -> is_nan (nth i y nan) = true) ->
    exists pre,
      filter (fun p : nat * float => negb (is_nan (snd p)))
             (combine (seq s (List.length y)) y)
      = pre ++ [((s + j)%nat, v)].
Proof.
  induction y as [|a y IH]; intros s j v Hj Hv Hafter.
  - destruct j; discriminate.
  - cbn [List.length seq combine filter snd]. destruct j as [|j].
    + injection Hj as ->. rewrite Hv. cbn [negb].
      rewrite points_all_missing.
      * exists []. rewrite Nat.add_0_r. reflexivity.
      * intros i Hi. apply (Hafter (S i)). cbn. lia.
    + destruct (IH (S s) j v Hj Hv) as (pre & E).
      * intros i Hi. apply (Hafter (S i)). cbn. lia.
      * rewrite E. replace (S s + j)%nat with (s + S j)%nat by lia.
        destruct (negb (is_nan a)).
        -- exists ((s, a) :: pre). reflexivity.
        -- exists pre. reflexivity.
Qed.

(** To the right of the last sample point [np.interp] holds its value. *)
Lemma np_interp_right (xs : list Z) (fs : list float) (j x : Z) (v : float) :
  (j < x)%Z -> np_interp x (xs ++ [j]) (fs ++ [v]) = v.
Proof.
  intros Hlt. unfold np_interp.
  destruct (xs ++ [j]) as [|x0 xr] eqn:Ex.
  { destruct xs; discriminate. }
  destruct (fs ++ [v]) as [|y0 fr] eqn:Ef.
  { destruct fs; discriminate. }
  rewrite <- Ex, <- Ef, !last_last.
  destruct (Z.ltb_spec j x); [reflexivity | lia].
Qed.

Lemma fill_at_after_last (y : list float) (j x : nat) (v : float) :
  nth_error y j = Some v ->
  is_nan v = false ->
  (forall i, (j < i < List.length y)%nat -> is_nan (nth i y nan) = true) ->
  (j < x)%nat ->
  fill_at y x = v.
Proof.
  intros Hj Hv Hafter Hx. unfold fill_at, points_of.
  destruct (points_last y O Hj Hv Hafter) as (pre & ->).
  rewrite !map_app. cbn [map fst snd]. apply np_interp_right. lia.
Qed.

(** The samples after the last observation [v], at position [j]: within
    [L] positions they take the value [v]; farther, they stay missing. *)
Lemma interpolate_1d_trailing (L : nat) (y : list float) (j : nat) (v : float) :
  nth_error y j = Some v ->
  is_nan v = false ->
  all_missing y (S j) (List.length y - 1) ->
  (forall x, (j < x < List.length y)%nat -> (x - j <= L)%nat ->
             nth x (_interpolate_1d L y) nan = v) /\
  (forall x, (j < x < List.length y)%nat -> (L < x - j)%nat ->
             is_nan (nth x (_interpolate_1d L y) nan) = true).
Proof.
  intros Hj Hv Hgap.
  assert (Hjl : (j < List.length y)%nat)
    by (apply nth_error_Some; rewrite Hj; discriminate).
  assert (Hjv : nth j y nan = v) by (apply nth_error_nth; exact Hj).
  assert (Hafter : forall i, (j < i < List.length y)%nat ->
                             is_nan (nth i y nan) = true)
    by (intros i Hi; apply Hgap; lia).
  split.
  - intros x Hx Hd.
    rewrite (@interpolate_1d_fills L y x j); try lia.
    + apply fill_at_after_last with (j := j); auto. lia.
    + apply Hafter. exact Hx.
    + rewrite Hjv. exact Hv.
  - intros x Hx Hd. apply interpolate_1d_preserves; [lia|].
    intros i Hi Hl. apply Hafter. lia.
Qed.

(** *** The interpolation of [_interpolate_one], frame by frame *)

Lemma length_resample_values (freq : Z) (df : frame) :
  List.length (values (resample_asfreq freq df)) = List.length (values df).
Proof. apply length_map. Qed.

Lemma length_reindex_column (new_index idx : list datetime) (col : list float) :
  List.length (reindex_column new_index idx col) = List.length new_index.
Proof. apply length_map. Qed.

Lemma resample_asfreq_well_formed (freq : Z) (df : frame) :
  well_formed df -> well_formed (resample_asfreq freq df).
Proof.
  intros [Hc Hv]. unfold resample_asfreq, well_formed.
  cbn [values columns index]. split; [rewrite length_map; exact Hc|].
  apply Forall_forall. intros col Hin. apply in_map_iff in Hin.
  destruct Hin as (c & <- & Hc'). unfold resample_column.
  destruct (same_freq freq (index df)) eqn:E.
  - unfold same_freq in E. apply andb_true_iff in E. destruct E as [_ E].
    apply Nat.eqb_eq in E. rewrite <- E.
    rewrite Forall_forall in Hv. apply Hv. exact Hc'.
  - apply length_reindex_column.
Qed.

(** With a limit of at least 1, [interpolate] returns, and interpolates
    every column of a well-formed frame with [_interpolate_1d]. *)
Lemma interpolate_columns (limit : Z) (df : frame) :
  (1 <= limit)%Z ->
  well_formed df ->
  interpolate limit df
  = Ok (mk_frame (index df) (columns df)
          (map (_interpolate_1d (Z.to_nat limit)) (values df))).
Proof.
  intros HL [_ Hv]. unfold interpolate.
  destruct (empty df) eqn:Ee.
  - destruct df as [idx cols vals]. cbn [index columns values] in *.
    f_equal. f_equal. unfold empty in Ee. cbn [index values] in Ee.
    destruct idx as [|t idx].
    + symmetry. rewrite <- (map_id vals) at 2. apply map_ext_in.
      intros col Hin. rewrite Forall_forall in Hv. specialize (Hv col Hin).
      destruct col; [reflexivity | discriminate].
    + destruct vals; [reflexivity | discriminate].
  - destruct (Z.ltb_spec limit 1); [lia | reflexivity].
Qed.

(** C2 (amended). In [df.resample('min').interpolate(limit=L,
    limit_direction='both')], a run [a..b] of more than [2 * L] missing
    one-minute samples of a station is never filled completely: every
    sample of the run that is at least [L] positions from both ends of
    the run is still missing after interpolation; the sample [a + L] is
    one. *)
Theorem long_gap_stays_missing (df : frame) (limit : Z) (k a b : nat)
    (y : list float) :
  (1 <= limit)%Z ->
  well_formed df ->
  nth_error (values (resample_asfreq 60 df)) k = Some y ->
  (b < List.length y)%nat ->
  all_missing y a b ->
  (a + 2 * Z.to_nat limit <= b)%nat ->
  exists (interp : frame) (y' : list float),
    interpolate limit (resample_asfreq 60 df) = Ok interp /\
    nth_error (values interp) k = Some y' /\
    List.length y' = List.length y /\
    (exists x, (a <= x <= b)%nat /\ is_nan (nth x y' nan) = true) /\
    (forall x, (a + Z.to_nat limit <= x <= b - Z.to_nat limit)%nat ->
               is_nan (nth x y' nan) = true).
Proof.
  intros HL Hwf Hk Hb Hrun Hlong.
  rewrite (interpolate_columns HL (resample_asfreq_well_formed 60 Hwf)).
  eexists. exists (_interpolate_1d (Z.to_nat limit) y).
  split; [reflexivity|]. cbn [values].
  split; [rewrite nth_error_map, Hk; reflexivity|].
  split; [apply length_interpolate_1d|].
  assert (Hmid : forall x,
             (a + Z.to_nat limit <= x <= b - Z.to_nat limit)%nat ->
             is_nan (nth x (_interpolate_1d (Z.to_nat limit) y) nan) = true).
  { intros x Hx. apply interpolate_1d_preserves; [lia|].
    intros i Hi Hl. apply Hrun; lia. }
  split; [|exact Hmid].
  exists (a + Z.to_nat limit)%nat. split; [lia|]. apply Hmid. lia.
Qed.

(** C3 (amended). In [df.resample('min').interpolate(limit=L,
    limit_direction='both')] with [L >= 1], let a station's one-minute
    series end in missing samples after its last observation [v], at
    position [j].  A trailing sample at most [L] positions after [j] is
    filled with [v], the last observed value held constant; a trailing
    sample more than [L] positions after [j] stays missing.  So the
    final sample stays missing exactly when the series ends more than
    [L] samples after its last observation. *)
Theorem trailing_samples (df : frame) (limit : Z) (k j : nat)
    (y : list float) (v : float) :
  (1 <= limit)%Z ->
  well_formed df ->
  nth_error (values (resample_asfreq 60 df)) k = Some y ->
  nth_error y j = Some v ->
  is_nan v = false ->
  (S j < List.length y)%nat ->
  all_missing y (S j) (List.length y - 1) ->
  exists (interp : frame) (y' : list float),
    interpolate limit (resample_asfreq 60 df) = Ok interp /\
    nth_error (values interp) k = Some y' /\
    List.length y' = List.length y /\
    (forall x, (j < x < List.length y)%nat -> (Z.of_nat (x - j) <= limit)%Z ->
               nth x y' nan = v) /\
    (forall x, (j < x < List.length y)%nat -> (limit < Z.of_nat (x - j))%Z ->
               is_nan (nth x y' nan) = true) /\
    (is_nan (nth (List.length y - 1) y' nan) = true <->
     (limit < Z.of_nat (List.length y - 1 - j))%Z).
Proof.
  intros HL Hwf Hk Hj Hv Hlen Hgap.
  rewrite (interpolate_columns HL (resample_asfreq_well_formed 60 Hwf)).
  eexists. exists (_interpolate_1d (Z.to_nat limit) y).
  split; [reflexivity|]. cbn [values].
  split; [rewrite nth_error_map, Hk; reflexivity|].
  split; [apply length_interpolate_1d|].
  destruct (interpolate_1d_trailing (Z.to_nat limit) Hj Hv Hgap)
    as [Hnear Hfar].
  split; [intros x Hx Hd; apply Hnear; lia|].
  split; [intros x Hx Hd; apply Hfar; lia|].
  split.
  - intros Hnan.
    destruct (Z.le_gt_cases (Z.of_nat (List.length y - 1 - j)) limit)
      as [Hle|Hgt]; [|lia].
    rewrite Hnear in Hnan by lia. congruence.
  - intros Hgt. apply Hfar; lia.
Qed.

Lemma long_gap_stays_missing_witness :
  exists (interp : frame) (y' : list float),
    interpolate 1 (resample_asfreq 60 Examples.three_minute_gap_frame)
    = Ok interp /\
    nth_error (values interp) 0 = Some y' /\
    is_nan (nth 2 y' nan) = true.
Proof.
  destruct (@long_gap_stays_missing Examples.three_minute_gap_frame 1 0 1 3
              [1; nan; nan; nan; 5]%float)
    as (interp & y' & H1 & H2 & _ & _ & H3).
  - lia.
  - split; [reflexivity | repeat constructor].
  - reflexivity.
  - cbn. lia.
  - intros i Hi Hl. destruct i as [|[|[|[|i]]]]; try lia; reflexivity.
  - cbn. lia.
  - exists interp, y'. repeat split; try assumption.
    apply (H3 2%nat). change (Z.to_nat 1) with 1%nat. lia.
Defined.

(** C2, as stated, fails: with limit 1, a run of two missing samples
    between two observations is filled completely; and with the default
    limit 59, so is a run of 60 missing minutes. *)
Lemma gap_of_limit_plus_one_is_filled :
  values Examples.two_minute_gap_frame = [[1; nan; nan; 4]%float] /\
  interpolate_chunked Examples.two_minute_gap_frame 60 1 [0%nat] 1
  = Ok (mk_table ["01010000"%string]
          [Examples.t0; Examples.t0 + 60; Examples.t0 + 120;
           Examples.t0 + 180]%Z
          [[1; 2; 3; 4]%float]) /\
  exists tbl y,
    interpolate_chunked Examples.sixty_minute_gap_frame 60 1 [0%nat] 59
    = Ok tbl /\
    series tbl = [y] /\
    List.length y = 62%nat /\
    forallb (fun v => negb (is_nan v)) y = true.
Proof.
  split; [reflexivity|]. split; [vm_compute; reflexivity|].
  eexists. eexists. split; [vm_compute; reflexivity|].
  cbn [series]. split; [reflexivity|]. split; vm_compute; reflexivity.
Qed.

Lemma trailing_samples_witness :
  exists (interp : frame) (y' : list float),
    interpolate 1 (resample_asfreq 60 Examples.long_trailing_gap_frame)
    = Ok interp /\
    nth_error (values interp) 0 = Some y' /\
    nth 1 y' nan = 10%float /\
    is_nan (nth 3 y' nan) = true.
Proof.
  destruct (@trailing_samples Examples.long_trailing_gap_frame 1 0 0
              [10; nan; nan; nan]%float 10%float)
    as (interp & y' & H1 & H2 & _ & H3 & H4 & _).
  - lia.
  - split; [reflexivity | repeat constructor].
  - reflexivity.
  - reflexivity.
  - reflexivity.
  - cbn. lia.
  - intros i Hi Hl. cbn in Hi, Hl.
    destruct i as [|[|[|[|i]]]]; try lia; reflexivity.
  - exists interp, y'. repeat split; try assumption.
    + apply (H3 1%nat); cbn; lia.
    + apply (H4 3%nat); cbn; lia.
Defined.

(** C3, as stated, fails: in the specification's own example (10.0 at
    00:00, missing at 00:15, limit 59, target frequency 900 s) the
    trailing sample is filled with 10.0. *)
Lemma trailing_sample_is_filled :
  values Examples.trailing_gap_frame = [[10; nan]%float] /\
  interpolate_chunked Examples.trailing_gap_frame 900 1 [0%nat] 59
  = Ok (mk_table ["01010000"%string] [Examples.t0; Examples.t0 + 900]%Z
          [[10; 10]%float]).
Proof. split; [reflexivity | vm_compute; reflexivity]. Qed.

End InterpFacts.

(** ** Chunked interpolation *)

Module ChunkFacts.
Import Datetime Pandas Joblib Aligner ListFacts InterpFacts.

(** *** Results *)

Lemma mapM_ok (A B : Type) (f : A -> result B) (g : A -> B) (l : list A) :
  (forall a, In a l -> f a = Ok (g a)) -> mapM f l = Ok (map g l).
Proof.
  induction l as [|a l IH]; intros H; [reflexivity|].
  cbn [mapM map]. rewrite (H a) by (left; reflexivity). cbn [bind].
  rewrite IH by (intros b Hb; apply H; right; exact Hb). reflexivity.
Qed.

Lemma map_nth_seq (A : Type) (l : list A) (d : A) :
  map (fun i => nth i l d) (seq 0 (List.length l)) = l.
Proof.
  induction l as [|a l IH]; [reflexivity|].
  cbn [List.length seq map nth]. f_equal.
  rewrite <- seq_shift, map_map. exact IH.
Qed.

Lemma nth_map_seq (A : Type) (f : nat -> A) (n i : nat) (d : A) :
  (i < n)%nat -> nth i (map f (seq 0 n)) d = f i.
Proof.
  intros Hi. rewrite (nth_indep _ d (f O)) by (rewrite length_map, length_seq; exact Hi).
  rewrite map_nth, seq_nth by exact Hi. reflexivity.
Qed.

(** *** The worker pool *)

Lemma order_in_range (order : list nat) (n i : nat) :
  Permutation order (seq 0 n) -> (In i order <-> (i < n)%nat).
Proof.
  intros Hp. split; intros H.
  - apply (Permutation_in _ Hp) in H. apply in_seq in H. lia.
  - apply (Permutation_in _ (Permutation_sym Hp)). apply in_seq. lia.
Qed.

Lemma lookup_done (R : Type) (G : nat -> R) (i : nat) (l : list nat) :
  In i l -> lookup i (map (fun k => (k, G k)) l) = Some (G i).
Proof.
  induction l as [|k l IH]; intros H; [contradiction|].
  cbn [map lookup]. destruct (Nat.eqb_spec i k) as [->|Hne]; [reflexivity|].
  apply IH. destruct H as [H|H]; [congruence | exact H].
Qed.

(** When every job returns, the pool returns the results in the order of
    the jobs, whatever the order of completion. *)
Lemma Parallel_ok (J R : Type) (run : J -> result R) (g : J -> R)
    (n_jobs : Z) (order : list nat) (jobs : list J) :
  n_jobs <> 0%Z ->
  Permutation order (seq 0 (List.length jobs)) ->
  (forall j, In j jobs -> run j = Ok (g j)) ->
  Parallel run n_jobs order jobs = Ok (map g jobs).
Proof.
  intros Hn Hp Hrun. unfold Parallel.
  destruct (Z.eqb_spec n_jobs 0) as [E|_]; [contradiction|].
  destruct jobs as [|d jobs'] eqn:Ej.
  { cbn in Hp. apply Permutation_sym, Permutation_nil in Hp. rewrite Hp.
    reflexivity. }
  rewrite <- Ej in *.
  set (G := fun i => g (nth i jobs d)).
  assert (Hdone : run_jobs run order jobs = Ok (map (fun k => (k, G k)) order)).
  { unfold run_jobs. apply mapM_ok. intros i Hi.
    apply (proj1 (@order_in_range order _ i Hp)) in Hi.
    rewrite (nth_error_nth' jobs d Hi).
    rewrite Hrun by (apply nth_In; exact Hi). reflexivity. }
  rewrite Hdone. cbn [bind].
  rewrite (mapM_ok _ G).
  - unfold G. rewrite <- (map_map (fun i => nth i jobs d) g), map_nth_seq.
    reflexivity.
  - intros i Hi. apply in_seq in Hi.
    rewrite lookup_done by (apply (@order_in_range order _ i Hp); lia).
    reflexivity.
Qed.

(** When every job raises [e], so does the pool. *)
Lemma Parallel_raise (J R : Type) (run : J -> result R) (e : exn)
    (n_jobs : Z) (order : list nat) (jobs : list J) :
  n_jobs <> 0%Z ->
  Permutation order (seq 0 (List.length jobs)) ->
  jobs <> [] ->
  (forall j, In j jobs -> run j = Raise e) ->
  Parallel run n_jobs order jobs = Raise e.
Proof.
  intros Hn Hp Hne Hrun. unfold Parallel.
  destruct (Z.eqb_spec n_jobs 0) as [E|_]; [contradiction|].
  destruct order as [|i order'] eqn:Eo.
  { apply Permutation_nil in Hp. destruct jobs; [contradiction | discriminate]. }
  assert (Hi : (i < List.length jobs)%nat)
    by (apply (@order_in_range _ _ i Hp); left; reflexivity).
  unfold run_jobs. cbn [mapM].
  destruct (nth_error jobs i) as [j|] eqn:Ej.
  - rewrite (Hrun j) by (eapply nth_error_In; exact Ej). reflexivity.
  - apply nth_error_None in Ej. lia.
Qed.

(** *** The chunks partition the columns *)

Lemma concat_chunks (A : Type) (step m : nat) :
  forall l : list A,
    (List.length l <= m * step)%nat ->
    List.concat (map (fun k => firstn step (skipn (k * step) l)) (seq 0 m)) = l.
Proof.
  induction m as [|m IH]; intros l Hl.
  - destruct l; [reflexivity | cbn in Hl; lia].
  - cbn [seq map List.concat]. rewrite <- seq_shift, map_map.
    cbn [Nat.mul skipn].
    rewrite (map_ext _ (fun k => firstn step (skipn (k * step) (skipn step l)))).
    + rewrite IH by (rewrite length_skipn; lia). apply firstn_skipn.
    + intros k. rewrite skipn_skipn. f_equal. f_equal. lia.
Qed.

Lemma range_step_count (n : nat) :
  (n <= (n + 200 - 1) / 200 * 200)%nat /\
  (forall k, (k < (n + 200 - 1) / 200)%nat -> (k * 200 < n)%nat).
Proof.
  pose proof (Nat.div_mod_eq (n + 200 - 1) 200) as E.
  pose proof (Nat.mod_upper_bound (n + 200 - 1) 200 ltac:(lia)) as B.
  split; [lia|]. intros k Hk. nia.
Qed.

(** The columns of job [i]: at most 200 columns from column [i] on. *)
Lemma chunk_values (df buffer_df : frame) (i : nat) :
  List.length (values buffer_df) = List.length (values df) ->
  values
    (iloc_columns i
       (if (i + 200 - 1 <? List.length (values buffer_df))%nat
        then i + 200 else List.length (values buffer_df)) df)
  = firstn 200 (skipn i (values df)).
Proof.
  intros Hb. unfold iloc_columns, slice. cbn [values]. rewrite Hb.
  destruct (Nat.ltb_spec (i + 200 - 1) (List.length (values df))) as [H|H].
  - f_equal. lia.
  - rewrite !firstn_all2; [reflexivity | |]; rewrite length_skipn; lia.
Qed.

Lemma chunk_jobs_values (df : frame) (frequency : Z) :
  well_formed df ->
  map values (chunk_jobs 200 df (resample_asfreq frequency df))
  = map (fun k => firstn 200 (skipn (k * 200) (values df)))
        (seq 0 ((List.length (values df) + 200 - 1) / 200)).
Proof.
  intros [Hc _]. unfold chunk_jobs, range_step. rewrite !map_map, Hc.
  apply map_ext. intros k. apply chunk_values. apply length_resample_values.
Qed.

Lemma chunk_jobs_index (df : frame) (frequency : Z) (job : frame) :
  In job (chunk_jobs 200 df (resample_asfreq frequency df)) ->
  index job = index df.
Proof.
  unfold chunk_jobs. intros H. apply in_map_iff in H.
  destruct H as (i & <- & _). reflexivity.
Qed.

Lemma chunk_jobs_nonempty (df : frame) (frequency : Z) (job : frame) :
  well_formed df ->
  In job (chunk_jobs 200 df (resample_asfreq frequency df)) ->
  values job <> [].
Proof.
  intros Hwf H. apply (in_map values) in H.
  rewrite (chunk_jobs_values frequency Hwf) in H. apply in_map_iff in H.
  destruct H as (k & <- & Hk). apply in_seq in Hk.
  destruct (range_step_count (List.length (values df))) as [_ Hlt].
  specialize (Hlt k ltac:(lia)).
  destruct (skipn (k * 200) (values df)) as [|c r] eqn:E; [|discriminate].
  apply (f_equal (@List.length _)) in E. rewrite length_skipn in E.
  cbn in E. lia.
Qed.

(** *** [_interpolate_one], column by column *)

Lemma fold_min_le (l : list Z) : forall a : Z, (fold_left Z.min l a <= a)%Z.
Proof.
  induction l as [|b l IH]; intros a; cbn [fold_left]; [lia|].
  specialize (IH (Z.min a b)). lia.
Qed.

Lemma fold_max_ge (l : list Z) : forall a : Z, (a <= fold_left Z.max l a)%Z.
Proof.
  induction l as [|b l IH]; intros a; cbn [fold_left]; [lia|].
  specialize (IH (Z.max a b)). lia.
Qed.

Lemma resample_index_nil (freq : Z) (idx : list datetime) :
  (0 < freq)%Z -> resample_index freq idx = [] -> idx = [].
Proof.
  intros Hf H. destruct idx as [|t idx]; [reflexivity|]. exfalso.
  unfold resample_index in H.
  pose proof (fold_min_le idx t) as Hmin.
  pose proof (fold_max_ge idx t) as Hmax.
  set (first := fold_left Z.min idx t) in *.
  set (lst := fold_left Z.max idx t) in *.
  set (origin := (first - first mod 86400)%Z) in *.
  apply map_eq_nil in H.
  assert (Hq : (0 <= (lst - (lst - origin) mod freq
                      - (first - (first - origin) mod freq)) / freq)%Z).
  { apply Z.div_pos; [|lia].
    pose proof (Z.div_mod (lst - origin) freq ltac:(lia)).
    pose proof (Z.div_mod (first - origin) freq ltac:(lia)).
    assert ((first - origin) / freq <= (lst - origin) / freq)%Z
      by (apply Z.div_le_mono; lia).
    nia. }
  destruct (Z.to_nat _) eqn:E in H; [lia | discriminate].
Qed.

Lemma interpolate_one_columnwise (df : frame) (L frequency : Z) :
  _interpolate_one df L frequency =
    if raises L (index df) (values df) then Raise ValueError
    else Ok (interpolated_array L frequency (index df) (values df)).
Proof.
  destruct df as [idx cols vals].
  unfold _interpolate_one, interpolate, empty, raises, interpolated_array,
    to_numpy, resample_asfreq, interpolate_column.
  cbn [index values columns].
  destruct (resample_index 60 idx) as [|m M] eqn:EM.
  - apply resample_index_nil in EM; [|lia]. subst idx.
    cbn [bind index values columns]. rewrite !length_map.
    unfold resample_index at 1 2. cbn [List.length seq map]. reflexivity.
  - destruct idx as [|t idx']; [discriminate|]. rewrite <- EM.
    destruct vals as [|c vals']; cbn [map].
    + cbn [bind index values columns map List.length].
      rewrite EM. cbn [bind index values columns map List.length].
      reflexivity.
    + rewrite EM. destruct (L <? 1)%Z; [reflexivity|].
      cbn [bind index values columns]. rewrite <- EM.
      apply f_equal. apply f_equal2.
      * rewrite ?length_map. cbn [List.length]. rewrite ?length_map.
        reflexivity.
      * apply map_ext. intros i.
        change (resample_column 60 (t :: idx') c
                :: map (resample_column 60 (t :: idx')) vals')
          with (map (resample_column 60 (t :: idx')) (c :: vals')).
        change (_interpolate_1d (Z.to_nat L) (resample_column 60 (t :: idx') c)
                :: map (_interpolate_1d (Z.to_nat L))
                     (map (resample_column 60 (t :: idx')) vals'))
          with (map (_interpolate_1d (Z.to_nat L))
                    (map (resample_column 60 (t :: idx')) (c :: vals'))).
        rewrite !map_map. reflexivity.
Qed.

(** *** Concatenation of the chunk arrays *)

Lemma np_concatenate_same_height (arrays : list ndarray) (n : nat) :
  arrays <> [] ->
  (forall b, In b arrays -> fst (shape b) = n) ->
  np_concatenate_axis1 arrays
  = Ok (mk_ndarray (n, list_sum (map (fun b => snd (shape b)) arrays))
          (map (fun i => List.concat (map (fun b => nth i (rows b) []) arrays))
               (seq 0 n))).
Proof.
  intros Hne Hn. destruct arrays as [|a r]; [contradiction|].
  unfold np_concatenate_axis1.
  rewrite (Hn a) by (left; reflexivity).
  assert (Hall : forallb (fun b => (fst (shape b) =? n)%nat) (a :: r) = true).
  { apply forallb_forall. intros b Hb. apply Nat.eqb_eq. apply Hn. exact Hb. }
  rewrite Hall. reflexivity.
Qed.

Lemma concatenate_chunks (L frequency : Z) (idx : list datetime)
    (chunks : list (list (list float))) :
  chunks <> [] ->
  np_concatenate_axis1 (map (interpolated_array L frequency idx) chunks)
  = Ok (interpolated_array L frequency idx (List.concat chunks)).
Proof.
  intros Hne.
  set (n := List.length (resample_index frequency (resample_index 60 idx))).
  rewrite (@np_concatenate_same_height _ n).
  - apply f_equal. unfold interpolated_array at 3. fold n.
    apply f_equal2.
    + f_equal. rewrite map_map. cbn [shape snd]. symmetry.
      apply length_concat.
    + apply map_ext_in. intros i Hi. apply in_seq in Hi.
      rewrite concat_map, map_map. f_equal. apply map_ext. intros vs.
      unfold interpolated_array. cbn [rows]. fold n.
      apply nth_map_seq. lia.
  - intros E. apply map_eq_nil in E. contradiction.
  - intros b Hb. apply in_map_iff in Hb. destruct Hb as (vs & <- & _).
    reflexivity.
Qed.

(** The chunked computation of lines 252-272 is one call of
    [_interpolate_one] on all the columns. *)
Lemma chunks_are_one_call (df : frame) (frequency cpu_pool : Z)
    (order : list nat) (L : Z) :
  well_formed df ->
  values df <> [] ->
  cpu_pool <> 0%Z ->
  Permutation order
    (seq 0 (List.length (range_step (List.length (columns df)) 200))) ->
  (interp_chunks <-
     Parallel (fun chunk => _interpolate_one chunk L frequency) cpu_pool order
       (chunk_jobs 200 df (resample_asfreq frequency df)) ;;
   np_concatenate_axis1 interp_chunks)
  = _interpolate_one df L frequency.
Proof.
  intros Hwf Hne Hcpu Hperm.
  set (jobs := chunk_jobs 200 df (resample_asfreq frequency df)).
  assert (Hlen : List.length jobs
                 = List.length (range_step (List.length (columns df)) 200))
    by (unfold jobs, chunk_jobs; apply length_map).
  rewrite <- Hlen in Hperm.
  assert (Hjobs : jobs <> []).
  { intros E. apply (f_equal (map values)) in E. unfold jobs in E.
    rewrite (chunk_jobs_values frequency Hwf) in E. cbn [map] in E.
    apply map_eq_nil in E.
    destruct (range_step_count (List.length (values df))) as [Hle _].
    destruct (values df) as [|c vs]; [contradiction|]. cbn [List.length] in *.
    destruct ((S (List.length vs) + 200 - 1) / 200)%nat; [lia | discriminate]. }
  assert (Hconcat : List.concat (map values jobs) = values df).
  { unfold jobs. rewrite (chunk_jobs_values frequency Hwf).
    apply concat_chunks. apply range_step_count. }
  rewrite (interpolate_one_columnwise df).
  destruct (raises L (index df) (values df)) eqn:Er.
  - rewrite (@Parallel_raise _ _ _ ValueError); auto.
    intros job Hjob. rewrite interpolate_one_columnwise.
    rewrite (@chunk_jobs_index df frequency job Hjob).
    pose proof (@chunk_jobs_nonempty df frequency job Hwf Hjob) as Hv.
    unfold raises in *. destruct (index df); [discriminate|].
    destruct (values job); [contradiction|].
    destruct (values df); [discriminate|]. rewrite Er. reflexivity.
  - rewrite (@Parallel_ok _ _ _
               (fun job => interpolated_array L frequency (index df) (values job)));
      auto.
    + cbn [bind].
      rewrite <- (map_map values (interpolated_array L frequency (index df))).
      rewrite concatenate_chunks, Hconcat; [reflexivity|].
      intros E. apply map_eq_nil in E. contradiction.
    + intros job Hjob. rewrite interpolate_one_columnwise.
      rewrite (@chunk_jobs_index df frequency job Hjob).
      pose proof (@chunk_jobs_nonempty df frequency job Hwf Hjob) as Hv.
      unfold raises in *. destruct (index df); [reflexivity|].
      destruct (values job); [contradiction|].
      destruct (values df); [contradiction|]. rewrite Er. reflexivity.
Qed.

Lemma chunked_as_unchunked (df : frame) (frequency_secs cpu_pool : Z)
    (order : list nat) (interpolation_limit : Z) :
  well_formed df ->
  values df <> [] ->
  cpu_pool <> 0%Z ->
  Permutation order
    (seq 0 (List.length (range_step (List.length (columns df)) 200))) ->
  interpolate_chunked df frequency_secs cpu_pool order interpolation_limit
  = interpolate_unchunked df frequency_secs interpolation_limit.
Proof.
  intros Hwf Hne Hcpu Hperm.
  unfold interpolate_chunked, interpolate_unchunked.
  destruct (frequency_of frequency_secs) as [frequency|e]; [|reflexivity].
  cbn [bind].
  pose proof (@chunks_are_one_call df frequency cpu_pool order
                interpolation_limit Hwf Hne Hcpu Hperm) as H.
  rewrite <- H.
  destruct (Parallel _ cpu_pool order _) as [chunks|e]; reflexivity.
Qed.

(** C9. For every well-formed table with at least one station, every
    worker-pool size and every order in which the workers complete the
    jobs, cutting the stations into consecutive chunks of 200 columns,
    interpolating each chunk on its own and concatenating the results in
    chunk order gives exactly the station-by-time table (or the error)
    that interpolating all the columns at once gives. *)
Theorem chunked_equals_unchunked (df : frame) (frequency_secs cpu_pool : Z)
    (order : list nat) (interpolation_limit : Z) :
  well_formed df ->
  values df <> [] ->
  cpu_pool <> 0%Z ->
  Permutation order
    (seq 0 (List.length (range_step (List.length (columns df)) 200))) ->
  interpolate_chunked df frequency_secs cpu_pool order interpolation_limit
  = interpolate_unchunked df frequency_secs interpolation_limit.
Proof. intros. apply chunked_as_unchunked; assumption. Qed.

Lemma chunked_equals_unchunked_witness :
  interpolate_chunked Examples.many_stations_frame 900 3 [2; 0; 1]%nat 59
  = interpolate_unchunked Examples.many_stations_frame 900 59.
Proof.
  apply (@chunked_equals_unchunked Examples.many_stations_frame 900 3
           [2; 0; 1]%nat 59).
  - split; [vm_compute; reflexivity|].
    apply Forall_forall. intros col Hin.
    unfold Examples.many_stations_frame in Hin. cbn [values] in Hin.
    apply in_map_iff in Hin. destruct Hin as (k & <- & _). reflexivity.
  - discriminate.
  - discriminate.
  - change (Permutation [2; 0; 1]%nat [0; 1; 2]%nat).
    apply (Permutation_cons_app [0; 1]%nat [] 2%nat). apply Permutation_refl.
Defined.

(** *** The time axis of the result *)

Lemma fold_min_progression (lo d : Z) (n : nat) :
  (0 <= d)%Z ->
  forall (s : nat) (a : Z),
    (a <= lo + d * Z.of_nat s)%Z ->
    fold_left Z.min (map (fun k => (lo + d * Z.of_nat k)%Z) (seq s n)) a = a.
Proof.
  intros Hd. induction n as [|n IH]; intros s a Ha; [reflexivity|].
  cbn [seq map fold_left]. rewrite Z.min_l by exact Ha.
  apply IH. nia.
Qed.

Lemma fold_max_progression (lo d : Z) (n : nat) :
  (0 <= d)%Z ->
  forall s : nat,
    fold_left Z.max (map (fun k => (lo + d * Z.of_nat k)%Z) (seq (S s) n))
              (lo + d * Z.of_nat s)%Z
    = (lo + d * Z.of_nat (s + n))%Z.
Proof.
  intros Hd. induction n as [|n IH]; intros s.
  - cbn [seq map fold_left]. rewrite Nat.add_0_r. reflexivity.
  - cbn [seq map fold_left]. rewrite Z.max_r by nia.
    rewrite IH. f_equal. f_equal. lia.
Qed.

(** Flooring to the minute first does not change the bin of a label. *)
Lemma floor_minute_then (a m : Z) :
  (0 < m)%Z ->
  ((a - a mod 60) - (a - a mod 60) mod (60 * m)
   = a - a mod (60 * m))%Z.
Proof.
  intros Hm.
  assert (E60 : (a - a mod 60 = 60 * (a / 60))%Z).
  { pose proof (Z.div_mod a 60 ltac:(lia)). lia. }
  assert (Hf : forall x, (x - x mod (60 * m) = 60 * m * (x / (60 * m)))%Z).
  { intros x. pose proof (Z.div_mod x (60 * m) ltac:(lia)). lia. }
  rewrite !Hf. f_equal. rewrite E60.
  rewrite Z.div_mul_cancel_l by lia.
  rewrite Z.div_div by lia. reflexivity.
Qed.

Lemma resample_index_minute (m : Z) (idx : list datetime) :
  (0 < m)%Z ->
  resample_index (60 * m) (resample_index 60 idx) = resample_index (60 * m) idx.
Proof.
  intros Hm. destruct idx as [|t idx]; [reflexivity|].
  unfold resample_index at 2.
  pose proof (fold_min_le idx t) as Hmin.
  pose proof (fold_max_ge idx t) as Hmax.
  set (mn := fold_left Z.min idx t) in *.
  set (mx := fold_left Z.max idx t) in *.
  set (o := (mn - mn mod 86400)%Z).
  set (lo := (mn - (mn - o) mod 60)%Z).
  set (hi := (mx - (mx - o) mod 60)%Z).
  assert (Ho : (o = 86400 * (mn / 86400))%Z).
  { unfold o. pose proof (Z.div_mod mn 86400 ltac:(lia)). lia. }
  pose proof (Z.mod_pos_bound mn 86400 ltac:(lia)) as Hmn.
  assert (Hlo : (lo = o + ((mn - o) - (mn - o) mod 60))%Z) by (unfold lo; lia).
  assert (Hhi : (hi = o + ((mx - o) - (mx - o) mod 60))%Z) by (unfold hi; lia).
  assert (Hlohi : (lo <= hi)%Z).
  { rewrite Hlo, Hhi.
    pose proof (Z.div_mod (mn - o) 60 ltac:(lia)).
    pose proof (Z.div_mod (mx - o) 60 ltac:(lia)).
    assert ((mn - o) / 60 <= (mx - o) / 60)%Z by (apply Z.div_le_mono; lia).
    lia. }
  assert (Hq : (0 <= (hi - lo) / 60)%Z) by (apply Z.div_pos; lia).
  assert (Hexact : (60 * ((hi - lo) / 60) = hi - lo)%Z).
  { assert (E : ((hi - lo) mod 60 = 0)%Z).
    { rewrite Hlo, Hhi.
      pose proof (Z.div_mod (mn - o) 60 ltac:(lia)).
      pose proof (Z.div_mod (mx - o) 60 ltac:(lia)).
      replace (o + (mx - o - (mx - o) mod 60)
               - (o + (mn - o - (mn - o) mod 60)))%Z
        with (((mx - o) / 60 - (mn - o) / 60) * 60)%Z by lia.
      apply Z.mod_mul. lia. }
    pose proof (Z.div_mod (hi - lo) 60 ltac:(lia)). lia. }
  replace (Z.to_nat ((hi - lo) / 60 + 1))
    with (S (Z.to_nat ((hi - lo) / 60))) by lia.
  cbn [seq map]. unfold resample_index.
  replace (lo + 60 * Z.of_nat 0)%Z with lo by lia.
  set (rest := map (fun k => (lo + 60 * Z.of_nat k)%Z)
                   (seq 1 (Z.to_nat ((hi - lo) / 60)))).
  assert (Emin : fold_left Z.min rest lo = lo).
  { unfold rest. apply fold_min_progression; lia. }
  assert (Emax : fold_left Z.max rest lo = hi).
  { unfold rest.
    pose proof (@fold_max_progression lo 60 (Z.to_nat ((hi - lo) / 60))
                  ltac:(lia) 0) as E.
    replace (lo + 60 * Z.of_nat 0)%Z with lo in E by lia.
    rewrite E, Nat.add_0_l, Z2Nat.id by lia. lia. }
  rewrite !Emin, !Emax.
  fold mn mx.
  assert (Hday : (lo - lo mod 86400 = o)%Z).
  { assert (Hb : (0 <= (mn - o) - (mn - o) mod 60 < 86400)%Z).
    { assert (Ea : (mn - o = mn mod 86400)%Z) by (unfold o; lia).
      pose proof (Z.mod_pos_bound (mn - o) 60 ltac:(lia)).
      pose proof (Z.mod_le (mn - o) 60 ltac:(lia) ltac:(lia)). lia. }
    set (b := (mn - o - (mn - o) mod 60)%Z) in *.
    assert (Hmod : (lo mod 86400 = b)%Z).
    { replace lo with (b + (mn / 86400) * 86400)%Z by lia.
      rewrite Z.mod_add by lia. apply Z.mod_small. exact Hb. }
    lia. }
  rewrite Hday. fold o.
  assert (Elo : (lo - (lo - o) mod (60 * m) = mn - (mn - o) mod (60 * m))%Z).
  { pose proof (@floor_minute_then (mn - o) m Hm).
    replace (lo - o)%Z with (mn - o - (mn - o) mod 60)%Z by lia. lia. }
  assert (Ehi : (hi - (hi - o) mod (60 * m) = mx - (mx - o) mod (60 * m))%Z).
  { pose proof (@floor_minute_then (mx - o) m Hm).
    replace (hi - o)%Z with (mx - o - (mx - o) mod 60)%Z by lia. lia. }
  rewrite Elo, Ehi. reflexivity.
Qed.

(** *** The table that the aligner returns *)

Lemma length_resample_column (freq : Z) (idx : list datetime)
    (col : list float) :
  List.length col = List.length idx ->
  List.length (resample_column freq idx col)
  = List.length (resample_index freq idx).
Proof.
  intros Hl. unfold resample_column.
  destruct (same_freq freq idx) eqn:E; [|apply length_reindex_column].
  unfold same_freq in E. apply andb_true_iff in E. destruct E as [_ E].
  apply Nat.eqb_eq in E. lia.
Qed.

Lemma length_interpolate_column (L frequency : Z) (idx : list datetime)
    (col : list float) :
  List.length col = List.length idx ->
  List.length (interpolate_column L frequency idx col)
  = List.length (resample_index frequency (resample_index 60 idx)).
Proof.
  intros Hl. unfold interpolate_column. apply length_resample_column.
  rewrite length_interpolate_1d. apply length_resample_column. exact Hl.
Qed.

(** With a limit of at least 1 and a frequency of at least a minute, all
    the columns at once give the table of the columns' pipelines, on the
    resampled time axis, with the stations of the input. *)
Lemma unchunked_returns (df : frame) (frequency_secs L : Z) :
  well_formed df ->
  (1 <= L)%Z ->
  (60 <= frequency_secs)%Z ->
  interpolate_unchunked df frequency_secs L
  = Ok (mk_table (columns df)
          (resample_index (60 * (frequency_secs / 60)) (index df))
          (map (interpolate_column L (60 * (frequency_secs / 60)) (index df))
               (values df))).
Proof.
  intros [Hc Hv] HL Hf. unfold interpolate_unchunked, frequency_of.
  rewrite Z.quot_div_nonneg by lia.
  assert (Hm : (1 <= frequency_secs / 60)%Z)
    by (apply Z.div_le_lower_bound; lia).
  destruct (Z.eqb_spec (frequency_secs / 60) 0) as [|_]; [lia|].
  destruct (Z.ltb_spec (frequency_secs / 60) 0) as [|_]; [lia|].
  cbn [bind]. set (f := (60 * (frequency_secs / 60))%Z).
  rewrite interpolate_one_columnwise.
  assert (Er : raises L (index df) (values df) = false).
  { unfold raises. destruct (index df); [reflexivity|].
    destruct (values df); [reflexivity|].
    destruct (Z.ltb_spec L 1); [lia | reflexivity]. }
  rewrite Er. cbn [bind]. unfold DataFrame, interpolated_array.
  cbn [shape rows fst snd]. unfold resample_asfreq at 1 2.
  cbn [index columns].
  unfold f at 1. rewrite resample_index_minute by lia. fold f.
  rewrite Hc, !Nat.eqb_refl. cbn [andb bind]. unfold transpose.
  cbn [index columns values]. f_equal. f_equal.
  set (n := List.length (resample_index f (index df))).
  assert (Hn : forall col, In col (values df) ->
             List.length (interpolate_column L f (index df) col) = n).
  { intros col Hin. rewrite length_interpolate_column.
    - unfold n, f. rewrite resample_index_minute by lia. reflexivity.
    - rewrite Forall_forall in Hv. apply Hv. exact Hin. }
  change (columns (resample_asfreq f df)) with (columns df). rewrite Hc.
  assert (En : List.length (resample_index f (resample_index 60 (index df)))
               = n).
  { unfold n, f. rewrite resample_index_minute by lia. reflexivity. }
  rewrite En.
  replace (map (interpolate_column L f (index df)) (values df))
    with (map (interpolate_column L f (index df))
              (map (fun j => nth j (values df) [])
                   (seq 0 (List.length (values df)))))
    by (rewrite map_nth_seq; reflexivity).
  rewrite (map_map (fun j => nth j (values df) [])).
  apply map_ext_in. intros j Hj. apply in_seq in Hj.
  rewrite map_map.
  rewrite <- (map_nth_seq (interpolate_column L f (index df)
                             (nth j (values df) [])) nan).
  rewrite Hn by (apply nth_In; lia).
  apply map_ext. intros i.
  rewrite (nth_indep _ nan
             (nth i (interpolate_column L f (index df) []) nan))
    by (rewrite length_map; lia).
  rewrite (map_nth (fun col => nth i (interpolate_column L f (index df) col) nan)).
  reflexivity.
Qed.

Lemma chunked_returns (df : frame) (frequency_secs cpu_pool : Z)
    (order : list nat) (L : Z) :
  well_formed df ->
  values df <> [] ->
  (1 <= L)%Z ->
  (60 <= frequency_secs)%Z ->
  cpu_pool <> 0%Z ->
  Permutation order
    (seq 0 (List.length (range_step (List.length (columns df)) 200))) ->
  interpolate_chunked df frequency_secs cpu_pool order L
  = Ok (mk_table (columns df)
          (resample_index (60 * (frequency_secs / 60)) (index df))
          (map (interpolate_column L (60 * (frequency_secs / 60)) (index df))
               (values df))).
Proof.
  intros Hwf Hne HL Hf Hcpu Hperm.
  rewrite (chunked_as_unchunked _ _ Hwf Hne Hcpu Hperm).
  apply unchunked_returns; assumption.
Qed.

(** The aligner returns, for a frame whose time labels are pairwise
    distinct (pandas refuses to reindex duplicate labels): the stations
    are those of the input, the time axis is the resampled range, and
    every station's series is its own column's pipeline, whatever the
    chunks and the workers. *)
Theorem aligner_returns (df : frame) (frequency_secs cpu_pool : Z)
    (order : list nat) (L : Z) :
  well_formed df ->
  NoDup (index df) ->
  values df <> [] ->
  (1 <= L)%Z ->
  (60 <= frequency_secs)%Z ->
  cpu_pool <> 0%Z ->
  Permutation order
    (seq 0 (List.length (range_step (List.length (columns df)) 200))) ->
  interpolate_chunked df frequency_secs cpu_pool order L
  = Ok (mk_table (columns df)
          (resample_index (60 * (frequency_secs / 60)) (index df))
          (map (interpolate_column L (60 * (frequency_secs / 60)) (index df))
               (values df))).
Proof. intros. apply chunked_returns; assumption. Qed.

Lemma aligner_returns_witness :
  exists tbl,
    interpolate_chunked Examples.many_stations_frame 900 3 [2; 0; 1]%nat 59
    = Ok tbl /\
    stations tbl = columns Examples.many_stations_frame.
Proof.
  eexists. split.
  - apply (@aligner_returns Examples.many_stations_frame 900 3
             [2; 0; 1]%nat 59).
    + split; [vm_compute; reflexivity|].
      apply Forall_forall. intros col Hin.
      unfold Examples.many_stations_frame in Hin. cbn [values] in Hin.
      apply in_map_iff in Hin. destruct Hin as (k & <- & _). reflexivity.
    + repeat constructor; cbn; intuition discriminate.
    + discriminate.
    + lia.
    + lia.
    + discriminate.
    + change (Permutation [2; 0; 1]%nat [0; 1; 2]%nat).
      apply (Permutation_cons_app [0; 1]%nat [] 2%nat). apply Permutation_refl.
  - reflexivity.
Defined.

(** *** A station that was never observed *)

Lemma resample_column_all_missing (freq : Z) (idx : list datetime)
    (col : list float) :
  Forall (fun v => is_nan v = true) col ->
  Forall (fun v => is_nan v = true) (resample_column freq idx col).
Proof.
  intros H. unfold resample_column.
  destruct (same_freq freq idx); [exact H|].
  unfold reindex_column. apply Forall_map, Forall_forall. intros t _.
  destruct (get_loc t idx) as [i|]; [|reflexivity].
  destruct (nth_in_or_default i col nan) as [Hin | ->]; [|reflexivity].
  rewrite Forall_forall in H. apply H. exact Hin.
Qed.

Lemma interpolate_column_all_missing (L frequency : Z) (idx : list datetime)
    (col : list float) :
  Forall (fun v => is_nan v = true) col ->
  Forall (fun v => is_nan v = true) (interpolate_column L frequency idx col).
Proof.
  intros H. unfold interpolate_column. apply resample_column_all_missing.
  rewrite interpolate_1d_all_missing;
    [apply resample_column_all_missing; exact H|].
  intros i Hi.
  pose proof (resample_column_all_missing 60 idx H) as H60.
  rewrite Forall_forall in H60. apply H60. apply nth_In. exact Hi.
Qed.

(** A station whose readings are all missing stays all missing: the
    aligner returns (the time labels are pairwise distinct), and
    propagates the missingness. *)
Theorem unobserved_station_stays_missing (df : frame)
    (frequency_secs cpu_pool : Z) (order : list nat) (L : Z) (j : nat)
    (col : list float) :
  well_formed df ->
  NoDup (index df) ->
  (1 <= L)%Z ->
  (60 <= frequency_secs)%Z ->
  cpu_pool <> 0%Z ->
  Permutation order
    (seq 0 (List.length (range_step (List.length (columns df)) 200))) ->
  nth_error (values df) j = Some col ->
  Forall (fun v => is_nan v = true) col ->
  exists tbl y,
    interpolate_chunked df frequency_secs cpu_pool order L = Ok tbl /\
    nth_error (series tbl) j = Some y /\
    Forall (fun v => is_nan v = true) y.
Proof.
  intros Hwf _ HL Hf Hcpu Hperm Hj Hcol.
  assert (Hne : values df <> []) by (intros E; rewrite E in Hj; destruct j; discriminate).
  rewrite (chunked_returns Hwf Hne HL Hf Hcpu Hperm).
  eexists. eexists. split; [reflexivity|]. cbn [series]. split.
  - rewrite nth_error_map, Hj. reflexivity.
  - apply interpolate_column_all_missing. exact Hcol.
Qed.

Lemma unobserved_station_stays_missing_witness :
  exists tbl,
    interpolate_chunked
      (mk_frame [Examples.t0; Examples.t0 + 900]%Z
         ["01010000"; "01010500"]%string [[10; 12]; [nan; nan]]%float)
      900 1 [0%nat] 59
    = Ok tbl /\
    nth_error (series tbl) 1 = Some [nan; nan]%float.
Proof.
  destruct (@unobserved_station_stays_missing
              (mk_frame [Examples.t0; Examples.t0 + 900]%Z
                 ["01010000"; "01010500"]%string [[10; 12]; [nan; nan]]%float)
              900 1 [0%nat] 59 1 [nan; nan]%float)
    as (tbl & y & H1 & _ & _).
  - split; [reflexivity | repeat constructor].
  - repeat constructor; cbn; intuition discriminate.
  - lia.
  - lia.
  - discriminate.
  - apply Permutation_refl.
  - reflexivity.
  - repeat constructor.
  - exists tbl. split; [exact H1|].
    vm_compute in H1. injection H1 as <-. reflexivity.
Defined.

End ChunkFacts.

(** ** Forecast Selector *)

Module SelectorFacts.
Import Datetime Selector ChunkFacts.

(** *** Group keys and maxima *)

Lemma insert_sorted_perm (k : string) (l : list string) :
  Permutation (k :: l) (insert_sorted k l).
Proof.
  induction l as [|k' l IH]; [apply Permutation_refl|].
  cbn [insert_sorted]. destruct (String.leb k k'); [apply Permutation_refl|].
  apply (perm_trans (perm_swap k' k l)). apply perm_skip. exact IH.
Qed.

Lemma sort_keys_perm (l : list string) : Permutation l (sort_keys l).
Proof.
  induction l as [|k l IH]; [apply Permutation_refl|].
  cbn [sort_keys fold_right]. fold (sort_keys l).
  apply (perm_trans (perm_skip k IH)). apply insert_sorted_perm.
Qed.







(** *** The frame of file names *)

Lemma list_max_five (rows : list (list string)) :
  Forall (fun r => List.length r = 5%nat) rows ->
  rows = [] \/ list_max (map (@List.length string) rows) = 5%nat.
Proof.
  induction 1 as [|r rows Hr _ IH]; [left; reflexivity|]. right.
  cbn [map list_max fold_right]. fold (list_max (map (@List.length string) rows)).
  rewrite Hr. destruct IH as [-> | ->]; reflexivity.
Qed.

Lemma names_frame_five (files : list string) :
  Forall five_parts files ->
  names_frame (map name_parts files) = Ok (map row_of_file files).
Proof.
  intros H. unfold names_frame.
  destruct (@list_max_five (map name_parts files)) as [E|E].
  - apply Forall_map. exact H.
  - rewrite E. apply map_eq_nil in E. subst. reflexivity.
  - rewrite E. clear E. destruct files as [|f files]; [reflexivity|].
    cbn [map Nat.eqb]. unfold row_of_file. rewrite map_map. reflexivity.
Qed.

Lemma row_fields (f : string) :
  five_parts f ->
  Datetime (row_of_file f) = Some (name_datetime f) /\
  ID (row_of_file f) = Some (name_id f).
Proof.
  intros H. unfold row_of_file, row_of_parts, name_datetime, name_id.
  cbn [Datetime ID]. unfold five_parts in H.
  split; apply nth_error_nth'; lia.
Qed.

Lemma isin_retained (dates : list string) (f : string) :
  five_parts f -> isin dates (row_of_file f) = retained dates f.
Proof.
  intros H. unfold isin, retained.
  destruct (row_fields H) as [-> _]. reflexivity.
Qed.

Lemma filter_rows (dates : list string) (files : list string) :
  Forall five_parts files ->
  filter (isin dates) (map row_of_file files)
  = map row_of_file (filter (retained dates) files).
Proof.
  induction 1 as [|f files Hf _ IH]; [reflexivity|].
  cbn [map filter]. rewrite (isin_retained dates Hf), IH.
  destruct (retained dates f); reflexivity.
Qed.

Lemma retained_parses (dates : list string) (f : string) :
  Forall (fun s => exists d, strptime_YmdH s = Ok d) dates ->
  retained dates f = true ->
  strptime_YmdH (name_datetime f) = Ok (parsed (name_datetime f)).
Proof.
  intros Hd Hr. unfold retained in Hr. apply existsb_exists in Hr.
  destruct Hr as (s & Hs & E). apply String.eqb_eq in E. subst s.
  rewrite Forall_forall in Hd. destruct (Hd _ Hs) as (d & Hp).
  unfold parsed. rewrite Hp. reflexivity.
Qed.

(** With well-formed names and candidate dates, lines 298-304 return the
    groups of the retained files. *)
Lemma most_recent_runs (files dates : list string) :
  Forall five_parts files ->
  Forall (fun s => exists d, strptime_YmdH s = Ok d) dates ->
  most_recent files dates
  = Ok (groupby_max
          (map (fun f => (Some (name_id f), parsed (name_datetime f)))
               (filter (retained dates) files))).
Proof.
  intros Hf Hd. unfold most_recent.
  rewrite (names_frame_five Hf). cbn [bind]. rewrite (filter_rows dates Hf).
  rewrite (mapM_ok _
             (fun r => (ID r, match Datetime r with
                              | Some s => parsed s
                              | None => 0%Z
                              end))).
  - cbn [bind]. rewrite map_map. f_equal. f_equal. apply map_ext_in.
    intros f Hin. apply filter_In in Hin. destruct Hin as [Hin _].
    rewrite Forall_forall in Hf.
    destruct (row_fields (Hf f Hin)) as [-> ->]. reflexivity.
  - intros r Hr. apply in_map_iff in Hr. destruct Hr as (f & <- & Hin).
    apply filter_In in Hin. destruct Hin as [Hin Hret].
    rewrite Forall_forall in Hf.
    destruct (row_fields (Hf f Hin)) as [-> ->].
    rewrite (retained_parses f Hd Hret). reflexivity.
Qed.



(** Without a retained file, line 305 raises. *)
Lemma select_files_nothing_retained (files dates : list string) :
  Forall five_parts files ->
  Forall (fun s => exists d, strptime_YmdH s = Ok d) dates ->
  (forall f, In f files -> retained dates f = false) ->
  select_files files dates = Raise AttributeError.
Proof.
  intros Hf Hd Hnone. unfold select_files, retained_rows.
  rewrite (names_frame_five Hf). cbn [bind]. rewrite (filter_rows dates Hf).
  rewrite (most_recent_runs Hf Hd).
  replace (filter (retained dates) files) with (@nil string);
    [reflexivity|].
  symmetry. induction files as [|f files IH]; [reflexivity|].
  cbn [filter]. rewrite (Hnone f) by (left; reflexivity).
  apply IH.
  - inversion Hf; assumption.
  - intros g Hg. apply Hnone. right. exact Hg.
Qed.



(** The same listing, evaluated: station ABC gets its file of 02:00 (the
    file of 03:00 is outside the candidate set), station AAA its only
    file. *)
Example select_files_example :
  select_files
    ["/d/2024-01-01_00.60min.ABC.RFCTimeSeries.ncdf";
     "/d/2024-01-01_02.60min.ABC.RFCTimeSeries.ncdf";
     "/d/2024-01-01_03.60min.ABC.RFCTimeSeries.ncdf";
     "/d/2024-01-01_01.60min.AAA.RFCTimeSeries.ncdf"]%string
    ["2024-01-01_00"; "2024-01-01_01"; "2024-01-01_02"]%string
  = Ok [("AAA", "2024-01-01_01"); ("ABC", "2024-01-01_02")]%string.
Proof. vm_compute. reflexivity. Qed.

(** *** The names that are opened *)












(** The same listing, evaluated: station ABC is selected from its
    30-minute file of 02:00, and the name opened is a 60-minute [.ncdf]
    name that the listing does not hold. *)
Example opened_name_example :
  file_list
    ["/d/2024-01-01_00.60min.ABC.RFCTimeSeries.ncdf";
     "/d/2024-01-01_02.30min.ABC.RFCTimeSeries.nc"]%string
    ["2024-01-01_00"; "2024-01-01_01"; "2024-01-01_02"]%string
  = Ok ["2024-01-01_02.60min.ABC.RFCTimeSeries.ncdf"%string].
Proof. vm_compute. reflexivity. Qed.

End SelectorFacts.

(** ** Last-Observation Extractor *)

Module LastObsFacts.
Import Datetime LastObs ChunkFacts.

(** *** Indexing *)


Lemma getitem_last_arange (n : nat) :
  (1 <= n)%nat ->
  getitem (map Z.of_nat (seq 0 n)) (-1) = Ok (Z.of_nat n - 1)%Z.
Proof.
  intros Hn. unfold getitem. rewrite length_map, length_seq.
  cbn [Z.ltb Z.compare].
  destruct (Z.ltb_spec (-1 + Z.of_nat n) 0) as [Hneg|_]; [lia|].
  replace (Z.to_nat (-1 + Z.of_nat n)) with (n - 1)%nat by lia.
  rewrite nth_error_map.
  rewrite (nth_error_nth' (seq 0 n) O) by (rewrite length_seq; lia).
  rewrite seq_nth by lia. cbn [option_map]. f_equal. lia.
Qed.




(** *** The last valid index *)




(** *** The index array *)


(** [None] alone, the object array, cannot be cast. *)
Lemma index_array_all_none (results : list (option nat)) (v : Z) :
  results <> [] ->
  Forall (fun o => o = None) results ->
  astype_int (nan_to_num (to_numpy results) v) = Raise TypeError.
Proof.
  intros Hne Hall. unfold to_numpy.
  destruct results as [|r results]; [contradiction|].
  inversion Hall as [|? ? Hr Hrest]; subst.
  assert (Hnone : forallb (fun o : option nat => negb (is_some o))
                    (None :: results) = true).
  { apply forallb_forall. intros o Ho. rewrite Forall_forall in Hall.
    rewrite (Hall o Ho). reflexivity. }
  cbn [forallb is_some andb]. cbn [forallb is_some negb andb] in Hnone.
  rewrite Hnone. reflexivity.
Qed.

(** *** The frame of rows *)



(** *** The extraction *)


(** When no gage of the file has an observation, the index array is an
    object array of [None], and [astype(int)] raises. *)
Lemma all_gages_missing_raises (ds : dataset) (dn : float) (shift : Z)
    (ref : datetime) :
  strptime_YmdHMS (modelTimeAtOutput ds) = Ok ref ->
  (1 <= timeInd ds)%nat ->
  discharge ds <> [] ->
  Forall (fun col => last_valid_index (map (replace dn) col) = None)
         (discharge ds) ->
  _read_lastobs_file ds dn shift = Raise TypeError.
Proof.
  intros Href Hn Hne Hall. unfold _read_lastobs_file.
  rewrite Href. cbn [bind].
  rewrite (@getitem_last_arange (timeInd ds) Hn). cbn [bind].
  rewrite index_array_all_none; [reflexivity | |].
  - intros E. apply map_eq_nil in E. apply map_eq_nil in E. contradiction.
  - rewrite map_map. apply Forall_map. exact Hall.
Qed.

(** C7: the failing input.  A file whose only gage was never observed:
    the extractor raises [TypeError] instead of emitting the record of
    the final index. *)
Theorem never_observed_raises :
  read_lastobs_file Examples.never_observed = Raise TypeError.
Proof. vm_compute. reflexivity. Qed.






(** The same file, evaluated: the first gage was never observed and gets
    the final index (00:30, 1800 s before the reference time, missing
    discharge); the second was last observed at 00:15. *)
Example read_lastobs_example :
  read_lastobs_file Examples.one_observed
  = Ok [mk_lastobs_row "01010000" (Some (-1800)%Z) nan;
        mk_lastobs_row "01010500" (Some (-2700)%Z) 4.25%float].
Proof. vm_compute. reflexivity. Qed.

End LastObsFacts.

(** ** Text: prefixes, order and sorting *)

Module OrderFacts.
Import Selector.

Lemma prefix_same_length (a : string) :
  forall b s : string,
    String.prefix a s = true -> String.prefix b s = true ->
    String.length a = String.length b -> a = b.
Proof.
  induction a as [|c a IH]; intros [|c' b] [|x s]; cbn [String.prefix String.length];
    try discriminate; try reflexivity.
  destruct (ascii_dec c x) as [->|]; [|discriminate].
  destruct (ascii_dec c' x) as [->|]; [|discriminate].
  intros H1 H2 Hl. f_equal. apply (IH b s); [assumption | assumption | lia].
Qed.

Lemma ascii_lt_trans (a b c : ascii) :
  Ascii.compare a b = Lt -> Ascii.compare b c = Lt -> Ascii.compare a c = Lt.
Proof.
  unfold Ascii.compare. rewrite !N.compare_lt_iff. apply N.lt_trans.
Qed.

Lemma compare_lt_trans (a : string) :
  forall b c : string,
    String.compare a b = Lt -> String.compare b c = Lt ->
    String.compare a c = Lt.
Proof.
  induction a as [|x a IH]; intros [|y b] [|z c]; cbn [String.compare];
    try discriminate; try reflexivity.
  destruct (Ascii.compare x y) eqn:Exy; try discriminate.
  - apply Ascii.compare_eq_iff in Exy. subst y.
    destruct (Ascii.compare x z); try discriminate; [apply IH | reflexivity].
  - intros _. destruct (Ascii.compare y z) eqn:Eyz; try discriminate.
    + apply Ascii.compare_eq_iff in Eyz. subst z. rewrite Exy. reflexivity.
    + rewrite (ascii_lt_trans _ _ _ Exy Eyz). reflexivity.
Qed.

Lemma leb_lt (a b : string) :
  String.leb a b = true -> a <> b -> String.compare a b = Lt.
Proof.
  unfold String.leb. destruct (String.compare a b) eqn:E; try discriminate.
  - intros _ H. apply String.compare_eq_iff in E. contradiction.
  - reflexivity.
Qed.

Lemma compare_refl (a : string) : String.compare a a = Eq.
Proof.
  induction a as [|x a IH]; [reflexivity|].
  cbn [String.compare]. unfold Ascii.compare. rewrite N.compare_refl. exact IH.
Qed.

Lemma lt_neq (a b : string) : String.compare a b = Lt -> a <> b.
Proof. intros H ->. rewrite compare_refl in H. discriminate. Qed.

Lemma leb_trans (a b c : string) :
  String.leb a b = true -> String.leb b c = true -> String.leb a c = true.
Proof.
  intros H1 H2.
  destruct (string_dec a b) as [->|Hab]; [exact H2|].
  destruct (string_dec b c) as [->|Hbc]; [exact H1|].
  pose proof (compare_lt_trans _ _ _ (leb_lt H1 Hab) (leb_lt H2 Hbc)) as H.
  unfold String.leb. rewrite H. reflexivity.
Qed.

Lemma insert_sorted_In (k x : string) (l : list string) :
  In x (insert_sorted k l) <-> x = k \/ In x l.
Proof.
  induction l as [|a l IH]; cbn [insert_sorted].
  - cbn. intuition congruence.
  - destruct (String.leb k a); cbn [In]; [intuition congruence|].
    rewrite IH. intuition congruence.
Qed.

Lemma insert_sorted_sorted (k : string) (l : list string) :
  StronglySorted (fun a b => String.leb a b = true) l ->
  StronglySorted (fun a b => String.leb a b = true) (insert_sorted k l).
Proof.
  induction 1 as [|a l Hs IH Ha]; cbn [insert_sorted].
  - constructor; constructor.
  - destruct (String.leb k a) eqn:E.
    + constructor; [constructor; assumption|].
      constructor; [exact E|].
      rewrite Forall_forall in *. intros x Hx.
      apply (leb_trans _ _ _ E). apply Ha. exact Hx.
    + constructor; [exact IH|].
      rewrite Forall_forall in *. intros x Hx.
      apply insert_sorted_In in Hx. destruct Hx as [->|Hx]; [|apply Ha; exact Hx].
      destruct (String.leb_total a k) as [H|H]; [exact H | congruence].
Qed.

Lemma sort_keys_sorted (l : list string) :
  StronglySorted (fun a b => String.leb a b = true) (sort_keys l).
Proof.
  induction l as [|a l IH]; [constructor|].
  cbn [sort_keys fold_right]. apply insert_sorted_sorted. exact IH.
Qed.

Lemma sorted_nodup_strict (l : list string) :
  StronglySorted (fun a b => String.leb a b = true) l ->
  NoDup l ->
  StronglySorted (fun a b => String.compare a b = Lt) l.
Proof.
  induction 1 as [|a l Hs IH Ha]; intros Hnd; [constructor|].
  inversion Hnd as [|? ? Hnotin Hnd']; subst.
  constructor; [apply IH; exact Hnd'|].
  rewrite Forall_forall in *. intros x Hx.
  apply leb_lt; [apply Ha; exact Hx|]. intros ->. contradiction.
Qed.

End OrderFacts.

(** ** Text: splitting *)

Module SplitFacts.
Import Datetime Selector.






End SplitFacts.

(** ** Observation Loader *)

Module LoaderFacts.
Import Datetime WindowPlanner Pandas QC Selector Aligner Loader.
Import OrderFacts.

Lemma In_level (l : list string) (s : string) : In s (level l) <-> In s l.
Proof.
  unfold level. rewrite <- (nodup_In string_dec l s). split; intros H.
  - apply (Permutation_in _ (Permutation_sym (SelectorFacts.sort_keys_perm _))). exact H.
  - apply (Permutation_in _ (SelectorFacts.sort_keys_perm _)). exact H.
Qed.

Lemma level_sorted (l : list string) :
  StronglySorted (fun a b => String.compare a b = Lt) (level l).
Proof.
  unfold level. apply sorted_nodup_strict; [apply sort_keys_sorted|].
  apply (Permutation_NoDup (SelectorFacts.sort_keys_perm _)).
  apply NoDup_nodup.
Qed.

(** *** The files that are read *)

Lemma glob_head (dir : directory) (d : string) (f : string * observation_df)
    (fs : directory) :
  glob dir d = f :: fs -> In f dir /\ String.prefix d (fst f) = true.
Proof.
  intros E. assert (H : In f (glob dir d)) by (rewrite E; left; reflexivity).
  unfold glob in H. apply filter_In in H. exact H.
Qed.

Lemma glob_nil (dir : directory) (d : string) :
  (forall f, In f dir -> String.prefix d (fst f) = false) -> glob dir d = [].
Proof.
  intros H. unfold glob. induction dir as [|f dir IH]; [reflexivity|].
  cbn [filter]. rewrite (H f) by (left; reflexivity).
  apply IH. intros g Hg. apply H. right. exact Hg.
Qed.

Lemma opened_spec (dir : directory) (dates : list string)
    (f : string * observation_df) :
  In f (opened dir dates) ->
  In f dir /\ exists d, In d dates /\ String.prefix d (fst f) = true.
Proof.
  induction dates as [|d dates IH]; cbn [opened]; [contradiction|].
  destruct (glob dir d) as [|g gs] eqn:E.
  - intros H. destruct (IH H) as (H1 & d' & H2 & H3).
    split; [exact H1|]. exists d'. split; [right; exact H2 | exact H3].
  - destruct (glob_head _ _ E) as [Hg1 Hg2]. intros [<-|H].
    + split; [exact Hg1|]. exists d. split; [left; reflexivity | exact Hg2].
    + destruct (IH H) as (H1 & d' & H2 & H3).
      split; [exact H1|]. exists d'. split; [right; exact H2 | exact H3].
Qed.

Lemma read_files_opened (dir : directory) (dates : list string) :
  forall acc : option observation_df,
    read_files dir dates acc
    = match opened dir dates with
      | [] => acc
      | fs => Some (match acc with
                    | None => List.concat (map snd fs)
                    | Some df => df ++ List.concat (map snd fs)
                    end)
      end.
Proof.
  induction dates as [|d dates IH]; intros acc; cbn [read_files opened];
    [reflexivity|].
  destruct (glob dir d) as [|g gs]; [apply IH|].
  rewrite IH. cbn [map List.concat].
  destruct (opened dir dates) as [|h hs].
  - cbn [map List.concat]. rewrite app_nil_r. reflexivity.
  - destruct acc as [df|]; [rewrite <- app_assoc|]; reflexivity.
Qed.

Lemma opened_once (dir : directory) (dates : list string) (n : nat) :
  NoDup dates ->
  Forall (fun d => String.length d = n) dates ->
  NoDup (map fst (opened dir dates)).
Proof.
  induction dates as [|d dates IH]; intros Hnd Hlen; [constructor|].
  inversion Hnd as [|? ? Hnotin Hnd']; subst.
  inversion Hlen as [|? ? Hd Hlen']; subst.
  cbn [opened]. destruct (glob dir d) as [|g gs] eqn:E; [apply IH; assumption|].
  cbn [map]. constructor; [|apply IH; assumption].
  intros Hin. apply in_map_iff in Hin. destruct Hin as (f & Ef & Hf).
  destruct (opened_spec _ _ _ Hf) as (_ & d' & Hd' & Hp').
  destruct (glob_head _ _ E) as [_ Hp].
  rewrite Ef in Hp'.
  assert (d = d').
  { apply (prefix_same_length _ _ _ Hp Hp').
    rewrite Forall_forall in Hlen'. rewrite (Hlen' d' Hd'). reflexivity. }
  subst d'. contradiction.
Qed.

Section PlannerDates.
Local Open Scope Z_scope.

Lemma In_grid (delta : timedelta) (first stop t : datetime) :
  0 < delta -> In t (grid delta first stop) -> first <= t <= stop.
Proof.
  intros Hd H. unfold grid, grid_count in H. apply in_map_iff in H.
  destruct H as (k & <- & Hk). apply in_seq in Hk.
  destruct (Z.leb_spec first stop) as [Hle|]; [|cbn in Hk; lia].
  assert (Hq : 0 <= (stop - first) / delta) by (apply Z.div_pos; lia).
  assert (Hk' : Z.of_nat k <= (stop - first) / delta) by lia.
  pose proof (Z.mul_div_le (stop - first) delta Hd). nia.
Qed.

Lemma NoDup_grid (delta : timedelta) (first stop : datetime) :
  0 < delta -> NoDup (grid delta first stop).
Proof.
  intros Hd. unfold grid. apply NoDup_map_NoDup_ForallPairs; [|apply seq_NoDup].
  intros a b _ _ H. nia.
Qed.

Lemma strftime_YmdHMS_length (t : datetime) :
  String.length (strftime_YmdHMS t) = 19%nat.
Proof. reflexivity. Qed.

Lemma strftime_YmdHMS_inj (t1 t2 : datetime) :
  0 <= t1 < 3652059 * 86400 -> 0 <= t2 < 3652059 * 86400 ->
  strftime_YmdHMS t1 = strftime_YmdHMS t2 -> t1 = t2.
Proof.
  intros H1 H2 E.
  pose proof (DatetimeFacts.parse_format_YmdHMS H1) as P1.
  pose proof (DatetimeFacts.parse_format_YmdHMS H2) as P2.
  rewrite E in P1. congruence.
Qed.

Lemma timeslice_dates_grid (fuel : nat) (start lookback dt nts : Z)
    (dates : list string) :
  timeslice_dates fuel start lookback dt nts = Some dates ->
  dates = map strftime_YmdHMS
            (grid (minutes 15) (start - hours lookback)
                  (start + seconds (dt * nts))).
Proof.
  intros H. unfold timeslice_dates in H.
  apply (@WindowPlannerFacts.while_dates_result _ strftime_YmdHMS (minutes 15)
           ltac:(unfold minutes; lia)) in H.
  exact H.
Qed.

Lemma timeslice_dates_distinct (fuel : nat) (start lookback dt nts : Z)
    (dates : list string) :
  timeslice_dates fuel start lookback dt nts = Some dates ->
  mk_datetime 1000 1 1 0 0 0 <= start - hours lookback ->
  start + seconds (dt * nts) <= datetime_max ->
  NoDup dates /\ Forall (fun d => String.length d = 19%nat) dates.
Proof.
  intros H Hlo Hhi. rewrite (timeslice_dates_grid _ _ _ _ _ H).
  assert (Hd : 0 < minutes 15) by (unfold minutes; lia).
  assert (Hr : forall t, In t (grid (minutes 15) (start - hours lookback)
                                 (start + seconds (dt * nts))) ->
               0 <= t < 3652059 * 86400).
  { intros t Ht. apply (In_grid _ _ _ Hd) in Ht.
    apply DatetimeFacts.four_digit_years. lia. }
  split.
  - apply NoDup_map_NoDup_ForallPairs; [|apply (NoDup_grid _ _ Hd)].
    intros x y Hx Hy. apply strftime_YmdHMS_inj; auto.
  - apply Forall_forall. intros d Hin. apply in_map_iff in Hin.
    destruct Hin as (t & <- & _). reflexivity.
Qed.

End PlannerDates.

Lemma find_key (df : observation_df) (r : obs_row) :
  duplicate_keys df = false ->
  In r df ->
  find (fun r' => String.eqb (stationId r') (stationId r)
                  && String.eqb (time r') (time r)) df = Some r.
Proof.
  induction df as [|a df IH]; intros Hd Hin; [contradiction|].
  cbn [duplicate_keys] in Hd. apply orb_false_iff in Hd. destruct Hd as [Ha Hd].
  cbn [find]. destruct Hin as [->|Hin].
  - rewrite !String.eqb_refl. reflexivity.
  - destruct (String.eqb (stationId a) (stationId r)
              && String.eqb (time a) (time r)) eqn:E; [|apply IH; assumption].
    exfalso. assert (H : existsb (same_key a) df = true).
    { apply existsb_exists. exists r. split; [exact Hin | exact E]. }
    congruence.
Qed.

Lemma cell_reading (df : observation_df) (r : obs_row) :
  duplicate_keys df = false -> In r df ->
  cell df (stationId r) (time r) = discharge r.
Proof. intros Hd Hin. unfold cell. rewrite (@find_key df r Hd Hin). reflexivity. Qed.

Lemma cell_missing (df : observation_df) (s t : string) :
  (forall r, In r df -> ~ (stationId r = s /\ time r = t)) ->
  cell df s t = nan.
Proof.
  intros H. unfold cell.
  destruct (find _ df) as [r|] eqn:E; [|reflexivity].
  apply find_some in E. destruct E as [Hin E].
  apply andb_true_iff in E. destruct E as [E1 E2].
  apply String.eqb_eq in E1, E2. exfalso. apply (H r Hin). split; assumption.
Qed.

Lemma nth_table (A B C : Type) (f : A -> B -> C) (rows : list A)
    (cols : list B) (i j : nat) (a : A) (b : B) (d : C) :
  nth_error rows i = Some a -> nth_error cols j = Some b ->
  nth j (nth i (map (fun x => map (f x) cols) rows) []) d = f a b.
Proof.
  intros Hi Hj.
  assert (E : nth_error (map (fun x => map (f x) cols) rows) i
              = Some (map (f a) cols)).
  { rewrite nth_error_map, Hi. reflexivity. }
  rewrite (nth_error_nth _ _ _ E).
  apply nth_error_nth. rewrite nth_error_map, Hj. reflexivity.
Qed.

Lemma opened_nil (dir : directory) (dates : list string) :
  (forall d f, In d dates -> In f dir -> String.prefix d (fst f) = false) ->
  opened dir dates = [].
Proof.
  intros H. induction dates as [|d dates IH]; [reflexivity|].
  cbn [opened]. rewrite glob_nil.
  - apply IH. intros d' f Hd Hf. apply H; [right; exact Hd | exact Hf].
  - intros f Hf. apply H; [left; reflexivity | exact Hf].
Qed.

(** When no entry of the directory begins with one of the dates (and so
    when the directory is empty or there is no date), line 229 reads the
    column [stationId] of a frame without columns: [KeyError]. *)
Theorem no_timeslice_file_found (dir : directory) (dates : list string)
    (qc_threshold : float) (frequency_secs cpu_pool : Z) (order : list nat)
    (interpolation_limit : Z) :
  (forall d f, In d dates -> In f dir -> String.prefix d (fst f) = false) ->
  _read_timeslice_files dir dates qc_threshold frequency_secs cpu_pool order
    interpolation_limit
  = Raise KeyError.
Proof.
  intros H. unfold _read_timeslice_files.
  rewrite read_files_opened, (opened_nil _ _ H). reflexivity.
Qed.

Lemma no_timeslice_file_found_witness :
  _read_timeslice_files Examples.timeslice_dir ["2024-01-02_00:00:00"%string]
    0.5 900 1 [0%nat] 59
  = Raise KeyError.
Proof.
  apply no_timeslice_file_found.
  intros d f [<-|[]] Hf.
  repeat (destruct Hf as [<-|Hf]; [reflexivity|]). destruct Hf.
Defined.

(** The dates of the timeslice window loop (in four-digit years), used
    as the prefixes of line 224, never make the loop open a file twice:
    the names of the files opened are pairwise distinct, every one is an
    entry of the directory that begins with one of the dates, and the
    frame read is the concatenation of their rows. *)
Theorem timeslice_files_opened_once (fuel : nat) (start lookback dt nts : Z)
    (dates : list string) (dir : directory) :
  timeslice_dates fuel start lookback dt nts = Some dates ->
  (mk_datetime 1000 1 1 0 0 0 <= start - hours lookback)%Z ->
  (start + seconds (dt * nts) <= datetime_max)%Z ->
  NoDup (map fst (opened dir dates)) /\
  (forall f, In f (opened dir dates) ->
     In f dir /\ exists d, In d dates /\ String.prefix d (fst f) = true) /\
  read_files dir dates None
  = match opened dir dates with
    | [] => None
    | fs => Some (List.concat (map snd fs))
    end.
Proof.
  intros H Hlo Hhi.
  destruct (timeslice_dates_distinct _ _ _ _ _ H Hlo Hhi) as [Hnd Hlen].
  split; [apply (opened_once _ Hnd Hlen)|].
  split; [intros f Hf; apply opened_spec; exact Hf|].
  apply read_files_opened.
Qed.

Lemma timeslice_files_opened_once_witness :
  NoDup (map fst (opened Examples.timeslice_dir Examples.timeslice_window)).
Proof.
  destruct (@timeslice_files_opened_once 10 Examples.t0 0 300 9
              Examples.timeslice_window Examples.timeslice_dir)
    as [H _]; [reflexivity | | | exact H]; vm_compute; discriminate.
Defined.

(** The pivot of line 239, for a frame with a row and without two rows
    of the same station and time: the stations and the times are the
    labels, each once and in increasing order; every reading is found
    at its station and time, and a cell without a reading is NaN. *)
Theorem unstack_lookup (df : observation_df) :
  df <> [] ->
  duplicate_keys df = false ->
  exists p : pivot,
    unstack df = Ok p /\
    StronglySorted (fun a b => String.compare a b = Lt) (pivot_index p) /\
    StronglySorted (fun a b => String.compare a b = Lt) (pivot_columns p) /\
    (forall s, In s (pivot_index p) <-> exists r, In r df /\ stationId r = s) /\
    (forall t, In t (pivot_columns p) <-> exists r, In r df /\ time r = t) /\
    (forall r, In r df ->
       exists i j,
         nth_error (pivot_index p) i = Some (stationId r) /\
         nth_error (pivot_columns p) j = Some (time r) /\
         nth j (nth i (pivot_values p) []) nan = discharge r) /\
    (forall i j s t,
       nth_error (pivot_index p) i = Some s ->
       nth_error (pivot_columns p) j = Some t ->
       (forall r, In r df -> ~ (stationId r = s /\ time r = t)) ->
       nth j (nth i (pivot_values p) []) nan = nan).
Proof.
  intros Hne Hd. unfold unstack. destruct df as [|r0 df0] eqn:Edf; [contradiction|].
  rewrite <- Edf in *. clear Edf r0 df0 Hne. rewrite Hd.
  eexists. split; [reflexivity|]. cbn [pivot_index pivot_columns pivot_values].
  split; [apply level_sorted|]. split; [apply level_sorted|].
  split; [intros s; rewrite In_level, in_map_iff; split;
          intros (r & H1 & H2); exists r; auto|].
  split; [intros s; rewrite In_level, in_map_iff; split;
          intros (r & H1 & H2); exists r; auto|].
  split.
  - intros r Hr.
    assert (Hs : In (stationId r) (level (map stationId df)))
      by (apply In_level, in_map; exact Hr).
    assert (Ht : In (time r) (level (map time df)))
      by (apply In_level, in_map; exact Hr).
    apply In_nth_error in Hs, Ht. destruct Hs as [i Hi]. destruct Ht as [j Hj].
    exists i, j. split; [exact Hi|]. split; [exact Hj|].
    transitivity (cell df (stationId r) (time r));
      [exact (nth_table (cell df) _ _ _ _ nan Hi Hj)|].
    apply cell_reading; assumption.
  - intros i j s t Hi Hj Hnone.
    transitivity (cell df s t);
      [exact (nth_table (cell df) _ _ _ _ nan Hi Hj)|].
    apply cell_missing. exact Hnone.
Qed.

Lemma unstack_lookup_witness :
  exists p : pivot,
    unstack (strip_stations Examples.timeslice_rows) = Ok p /\
    pivot_index p = ["01010000"; "01010500"]%string.
Proof.
  destruct (@unstack_lookup (strip_stations Examples.timeslice_rows))
    as (p & E & _); [discriminate | reflexivity |].
  exists p. split; [exact E|].
  vm_compute in E. injection E as <-. reflexivity.
Defined.









End LoaderFacts.

(** ** Resampling *)

Module ResampleFacts.
Import Datetime Pandas Aligner.
Local Open Scope Z_scope.

(** *** Positions of labels *)



Lemma get_loc_NoDup (l : list datetime) :
  NoDup l -> forall k t, nth_error l k = Some t -> get_loc t l = Some k.
Proof.
  induction 1 as [|a l Hnotin Hnd IH]; intros k t Hk; [destruct k; discriminate|].
  cbn [get_loc]. destruct k as [|k]; cbn [nth_error] in Hk.
  - injection Hk as ->. rewrite Z.eqb_refl. reflexivity.
  - destruct (Z.eqb_spec t a) as [->|Hne].
    + exfalso. apply Hnotin. apply (nth_error_In _ _ Hk).
    + rewrite (IH k t Hk). reflexivity.
Qed.

Lemma nth_reindex_column (new_index idx : list datetime) (col : list float)
    (k : nat) (t : datetime) :
  nth_error new_index k = Some t ->
  nth k (reindex_column new_index idx col) nan
  = match get_loc t idx with
    | Some i => nth i col nan
    | None => nan
    end.
Proof.
  intros Hk. unfold reindex_column. apply nth_error_nth.
  rewrite nth_error_map, Hk. reflexivity.
Qed.

(** Reindexing a frame on its own labels changes nothing. *)
Lemma reindex_column_self (idx : list datetime) (col : list float) :
  NoDup idx -> List.length col = List.length idx ->
  reindex_column idx idx col = col.
Proof.
  intros Hnd Hl. apply (nth_ext _ _ nan nan).
  - unfold reindex_column. rewrite length_map. lia.
  - intros k Hk. unfold reindex_column in Hk. rewrite length_map in Hk.
    destruct (nth_error idx k) as [t|] eqn:E;
      [|apply nth_error_None in E; lia].
    rewrite (@nth_reindex_column idx idx col k t E), (@get_loc_NoDup idx Hnd k t E).
    reflexivity.
Qed.


Lemma floor_multiple (a f : Z) : 0 < f -> a - a mod f = f * (a / f).
Proof. intros Hf. pose proof (Z.div_mod a f ltac:(lia)). lia. Qed.

Lemma floor_le (a f : Z) : 0 < f -> a - a mod f <= a < a - a mod f + f.
Proof. intros Hf. pose proof (Z.mod_pos_bound a f Hf). lia. Qed.

Lemma floor_mono (a b f : Z) : 0 < f -> a <= b -> a - a mod f <= b - b mod f.
Proof.
  intros Hf Hab. rewrite !floor_multiple by exact Hf.
  pose proof (Z.div_le_mono a b f Hf Hab). nia.
Qed.

(** Flooring to a finer bin first does not change the coarser bin. *)
Lemma floor_then (a f m : Z) :
  0 < f -> 0 < m ->
  (a - a mod f) - (a - a mod f) mod (f * m) = a - a mod (f * m).
Proof.
  intros Hf Hm. rewrite (floor_multiple a Hf).
  rewrite !floor_multiple by nia.
  rewrite Z.div_mul_cancel_l by lia.
  rewrite Z.div_div by lia. reflexivity.
Qed.


Lemma min_le_max (l : list Z) (t : Z) :
  fold_left Z.min l t <= fold_left Z.max l t.
Proof.
  pose proof (ChunkFacts.fold_min_le l t).
  pose proof (ChunkFacts.fold_max_ge l t). lia.
Qed.

(** The labels of [resample]: the multiples of the frequency, counted
    from the start of the first day, between the bin of the least label
    and the bin of the greatest. *)
Lemma In_resample_index (f : Z) (t : datetime) (idx : list datetime)
    (x : datetime) :
  0 < f ->
  let mn := fold_left Z.min idx t in
  let mx := fold_left Z.max idx t in
  let o := mn - mn mod 86400 in
  In x (resample_index f (t :: idx)) <->
  mn - (mn - o) mod f <= x <= mx - (mx - o) mod f /\ (x - o) mod f = 0.
Proof.
  intros Hf mn mx o. unfold resample_index. fold mn mx. fold o.
  set (lo := mn - (mn - o) mod f). set (hi := mx - (mx - o) mod f).
  assert (Hmm : mn <= mx) by apply min_le_max.
  assert (Elo : lo - o = f * ((mn - o) / f)).
  { unfold lo. pose proof (floor_multiple (mn - o) Hf). lia. }
  assert (Ehi : hi - o = f * ((mx - o) / f)).
  { unfold hi. pose proof (floor_multiple (mx - o) Hf). lia. }
  assert (Hq : (mn - o) / f <= (mx - o) / f) by (apply Z.div_le_mono; lia).
  assert (Ediff : hi - lo = f * ((mx - o) / f - (mn - o) / f)) by lia.
  assert (Ecount : (hi - lo) / f = (mx - o) / f - (mn - o) / f).
  { rewrite Ediff, Z.mul_comm, Z.div_mul by lia. reflexivity. }
  rewrite Ecount. rewrite in_map_iff. split.
  - intros (k & <- & Hk). apply in_seq in Hk. split; [nia|].
    replace (lo + f * Z.of_nat k - o) with (((mn - o) / f + Z.of_nat k) * f) by lia.
    apply Z.mod_mul. lia.
  - intros [[H1 H2] H3].
    apply Z.mod_divide in H3; [|lia]. destruct H3 as [q Eq].
    exists (Z.to_nat (q - (mn - o) / f)).
    assert (Hq1 : (mn - o) / f <= q) by nia.
    assert (Hq2 : q <= (mx - o) / f) by nia.
    split; [rewrite Z2Nat.id by lia; lia|].
    apply in_seq. lia.
Qed.

Lemma NoDup_resample_index (f : Z) (idx : list datetime) :
  0 < f -> NoDup (resample_index f idx).
Proof.
  intros Hf. destruct idx as [|t idx]; [constructor|].
  unfold resample_index. apply NoDup_map_NoDup_ForallPairs; [|apply seq_NoDup].
  intros a b _ _ H. nia.
Qed.

Lemma resample_index_nil_iff (f : Z) (idx : list datetime) :
  0 < f -> resample_index f idx = [] <-> idx = [].
Proof.
  intros Hf. split; [|intros ->; reflexivity].
  destruct idx as [|t idx]; [reflexivity|]. intros E. exfalso.
  assert (H : In (fold_left Z.min idx t
                  - (fold_left Z.min idx t
                     - (fold_left Z.min idx t - fold_left Z.min idx t mod 86400))
                    mod f)
                 (resample_index f (t :: idx))).
  { apply In_resample_index; [exact Hf|]. cbv zeta.
    set (mn := fold_left Z.min idx t). set (mx := fold_left Z.max idx t).
    set (o := mn - mn mod 86400).
    assert (Hmm : mn <= mx) by apply min_le_max.
    pose proof (@floor_mono (mn - o) (mx - o) f Hf ltac:(lia)).
    split; [lia|].
    pose proof (floor_multiple (mn - o) Hf) as E1.
    replace (mn - (mn - o) mod f - o) with ((mn - o) / f * f) by lia.
    apply Z.mod_mul. lia. }
  rewrite E in H. contradiction.
Qed.

(** Resampling the labels of a resampling at a multiple of its
    frequency gives the labels of resampling at the multiple at once. *)
Lemma resample_index_coarser (f m : Z) (idx : list datetime) :
  0 < f -> 0 < m ->
  resample_index (f * m) (resample_index f idx) = resample_index (f * m) idx.
Proof.
  intros Hf Hm. destruct idx as [|t idx]; [reflexivity|].
  unfold resample_index at 2.
  pose proof (min_le_max idx t) as Hmm.
  set (mn := fold_left Z.min idx t) in *.
  set (mx := fold_left Z.max idx t) in *.
  set (o := mn - mn mod 86400).
  set (lo := mn - (mn - o) mod f).
  set (hi := mx - (mx - o) mod f).
  assert (Ho : o = 86400 * (mn / 86400)).
  { unfold o. apply floor_multiple. lia. }
  pose proof (Z.mod_pos_bound mn 86400 ltac:(lia)) as Hmn.
  assert (Elo : lo - o = f * ((mn - o) / f)).
  { unfold lo. pose proof (floor_multiple (mn - o) Hf). lia. }
  assert (Ehi : hi - o = f * ((mx - o) / f)).
  { unfold hi. pose proof (floor_multiple (mx - o) Hf). lia. }
  assert (Hq : (mn - o) / f <= (mx - o) / f) by (apply Z.div_le_mono; lia).
  assert (Ecount : (hi - lo) / f = (mx - o) / f - (mn - o) / f).
  { replace (hi - lo) with (((mx - o) / f - (mn - o) / f) * f) by lia.
    apply Z.div_mul. lia. }
  assert (Hexact : f * ((hi - lo) / f) = hi - lo) by (rewrite Ecount; lia).
  assert (Hc : 0 <= (hi - lo) / f) by lia.
  replace (Z.to_nat ((hi - lo) / f + 1))
    with (S (Z.to_nat ((hi - lo) / f))) by lia.
  cbn [seq map]. unfold resample_index.
  replace (lo + f * Z.of_nat 0) with lo by lia.
  set (rest := map (fun k => lo + f * Z.of_nat k)
                   (seq 1 (Z.to_nat ((hi - lo) / f)))).
  assert (Emin : fold_left Z.min rest lo = lo).
  { unfold rest. apply ChunkFacts.fold_min_progression; lia. }
  assert (Emax : fold_left Z.max rest lo = hi).
  { unfold rest.
    pose proof (@ChunkFacts.fold_max_progression lo f
                  (Z.to_nat ((hi - lo) / f)) ltac:(lia) 0%nat) as E.
    replace (lo + f * Z.of_nat 0) with lo in E by lia.
    rewrite E, Nat.add_0_l, Z2Nat.id by lia. lia. }
  rewrite !Emin, !Emax.
  assert (Hday : lo - lo mod 86400 = o).
  { assert (Hb : 0 <= lo - o < 86400).
    { assert (Ea : mn - o = mn mod 86400) by (unfold o; lia).
      pose proof (floor_le (mn - o) Hf).
      pose proof (Z.mod_le (mn - o) f ltac:(lia) Hf). unfold lo. lia. }
    assert (Hmod : lo mod 86400 = lo - o).
    { replace lo with ((lo - o) + (mn / 86400) * 86400) at 1 by lia.
      rewrite Z.mod_add by lia. apply Z.mod_small. exact Hb. }
    lia. }
  rewrite Hday.
  assert (Elo' : lo - (lo - o) mod (f * m) = mn - (mn - o) mod (f * m)).
  { pose proof (@floor_then (mn - o) f m Hf Hm).
    replace (lo - o) with (mn - o - (mn - o) mod f) by (unfold lo; lia). lia. }
  assert (Ehi' : hi - (hi - o) mod (f * m) = mx - (mx - o) mod (f * m)).
  { pose proof (@floor_then (mx - o) f m Hf Hm).
    replace (hi - o) with (mx - o - (mx - o) mod f) by (unfold hi; lia). lia. }
  rewrite Elo', Ehi'. reflexivity.
Qed.

Lemma resample_index_idem (f : Z) (idx : list datetime) :
  0 < f -> resample_index f (resample_index f idx) = resample_index f idx.
Proof.
  intros Hf. pose proof (@resample_index_coarser f 1 idx Hf ltac:(lia)) as H.
  rewrite Z.mul_1_r in H. exact H.
Qed.

(** The spacing of the labels of a resampling. *)
Lemma evenly_spaced_resample_index (c f : Z) (idx : list datetime) :
  0 < f ->
  (2 <= List.length (resample_index f idx))%nat ->
  evenly_spaced c (resample_index f idx) = true -> c = f.
Proof.
  intros Hf Hlen H. destruct idx as [|t idx]; [cbn in Hlen; lia|].
  unfold resample_index in *.
  destruct (Z.to_nat _) as [|[|n]]; cbn [seq map List.length] in Hlen; try lia.
  cbn [seq map evenly_spaced] in H. apply andb_true_iff in H.
  destruct H as [H _]. apply Z.eqb_eq in H. lia.
Qed.

(** On the labels of a resampling, [asfreq] is a reindexing, whether or
    not the frame is copied. *)
Lemma resample_column_reindex (c f : Z) (idx : list datetime)
    (col : list float) :
  0 < f -> 0 < c ->
  List.length col = List.length (resample_index f idx) ->
  resample_column c (resample_index f idx) col
  = reindex_column (resample_index c (resample_index f idx))
      (resample_index f idx) col.
Proof.
  intros Hf Hc Hl. unfold resample_column.
  destruct (same_freq c (resample_index f idx)) eqn:E; [|reflexivity].
  unfold same_freq, has_freq in E. apply andb_true_iff in E.
  destruct E as [E _]. apply andb_true_iff in E. destruct E as [E1 E2].
  apply Nat.leb_le in E1.
  assert (c = f)
    by (apply (@evenly_spaced_resample_index c f idx Hf); [lia | exact E2]).
  subst c. rewrite (@resample_index_idem f idx Hf).
  symmetry. apply reindex_column_self; [apply NoDup_resample_index; exact Hf|].
  exact Hl.
Qed.

Lemma length_minute_series (L : Z) (idx : list datetime) (col : list float) :
  List.length col = List.length idx ->
  List.length (_interpolate_1d (Z.to_nat L) (resample_column 60 idx col))
  = List.length (resample_index 60 idx).
Proof.
  intros Hl. rewrite InterpFacts.length_interpolate_1d.
  apply ChunkFacts.length_resample_column. exact Hl.
Qed.

(** A station's series is its interpolated minute series, read at the
    labels of the output. *)
Lemma interpolate_column_reindex (L a : Z) (idx : list datetime)
    (col : list float) :
  0 < a ->
  List.length col = List.length idx ->
  interpolate_column L (60 * a) idx col
  = reindex_column (resample_index (60 * a) idx) (resample_index 60 idx)
      (_interpolate_1d (Z.to_nat L) (resample_column 60 idx col)).
Proof.
  intros Ha Hl. unfold interpolate_column.
  rewrite resample_column_reindex;
    [|lia | lia | apply length_minute_series; exact Hl].
  rewrite (@resample_index_coarser 60 a idx ltac:(lia) Ha). reflexivity.
Qed.


Lemma evenly_spaced_progression (f : Z) (idx : list datetime) :
  forall a : datetime,
    evenly_spaced f (a :: idx) = true ->
    a :: idx = map (fun k => a + f * Z.of_nat k) (seq 0 (S (List.length idx))).
Proof.
  induction idx as [|b idx IH]; intros a H.
  - cbn. f_equal. lia.
  - cbn [evenly_spaced] in H. apply andb_true_iff in H. destruct H as [H1 H2].
    apply Z.eqb_eq in H1. cbn [List.length].
    change (seq 0 (S (S (List.length idx))))
      with (0%nat :: seq 1 (S (List.length idx))).
    cbn [map]. f_equal; [lia|].
    rewrite <- seq_shift, map_map. etransitivity; [apply (IH b H2)|].
    apply map_ext. intros k. lia.
Qed.


Lemma fold_min_lower (l : list Z) :
  forall a x : Z, x = a \/ In x l -> fold_left Z.min l a <= x.
Proof.
  induction l as [|b l IH]; intros a x H; cbn [fold_left].
  - destruct H as [->|[]]. lia.
  - destruct H as [->|[->|H]].
    + pose proof (ChunkFacts.fold_min_le l (Z.min a b)). lia.
    + pose proof (ChunkFacts.fold_min_le l (Z.min a x)). lia.
    + apply IH. right. exact H.
Qed.

Lemma fold_max_upper' (l : list Z) :
  forall a x : Z, x = a \/ In x l -> x <= fold_left Z.max l a.
Proof.
  induction l as [|b l IH]; intros a x H; cbn [fold_left].
  - destruct H as [->|[]]. lia.
  - destruct H as [->|[->|H]].
    + pose proof (ChunkFacts.fold_max_ge l (Z.max a b)). lia.
    + pose proof (ChunkFacts.fold_max_ge l (Z.max a x)). lia.
    + apply IH. right. exact H.
Qed.

(** The labels of a resampling at whole minutes are whole minutes. *)
Lemma label_whole_minute (a : Z) (idx : list datetime) (t : datetime) :
  0 < a -> In t (resample_index (60 * a) idx) -> t mod 60 = 0.
Proof.
  intros Ha H. destruct idx as [|t0 idx]; [contradiction|].
  apply In_resample_index in H; [|lia]. cbv zeta in H. destruct H as [_ H].
  set (mn := fold_left Z.min idx t0) in *.
  apply Z.mod_divide in H; [|lia]. destruct H as [q Eq].
  pose proof (floor_multiple mn (f := 86400) ltac:(lia)) as Eo.
  replace t with ((q * a + 1440 * (mn / 86400)) * 60) by lia.
  apply Z.mod_mul. lia.
Qed.

(** A label of the index at a whole minute is a label of the minute
    resampling. *)
Lemma In_minute_labels (idx : list datetime) (t : datetime) :
  In t idx -> t mod 60 = 0 -> In t (resample_index 60 idx).
Proof.
  intros Hin Hmod. destruct idx as [|t0 idx]; [contradiction|].
  apply In_resample_index; [lia|]. cbv zeta.
  assert (Hl : fold_left Z.min idx t0 <= t).
  { apply fold_min_lower. destruct Hin as [->|H]; [left; reflexivity | right; exact H]. }
  assert (Hu : t <= fold_left Z.max idx t0).
  { apply fold_max_upper'. destruct Hin as [->|H]; [left; reflexivity | right; exact H]. }
  set (mn := fold_left Z.min idx t0) in *.
  set (mx := fold_left Z.max idx t0) in *.
  set (o := mn - mn mod 86400).
  pose proof (floor_multiple mn (f := 86400) ltac:(lia)) as Eo. fold o in Eo.
  apply Z.mod_divide in Hmod; [|lia]. destruct Hmod as [q Eq].
  assert (Emod : (t - o) mod 60 = 0).
  { replace (t - o) with ((q - 1440 * (mn / 86400)) * 60) by lia.
    apply Z.mod_mul. lia. }
  split; [|exact Emod].
  pose proof (floor_le (mn - o) (f := 60) ltac:(lia)).
  pose proof (@floor_mono (t - o) (mx - o) 60 ltac:(lia) ltac:(lia)).
  lia.
Qed.

(** An index at the minute frequency with a label at a whole minute is
    its own minute resampling. *)
Lemma same_freq_minute_self (idx : list datetime) (t : datetime) :
  same_freq 60 idx = true -> In t idx -> t mod 60 = 0 ->
  resample_index 60 idx = idx.
Proof.
  intros Hs Hin Hmod. unfold same_freq, has_freq in Hs.
  apply andb_true_iff in Hs. destruct Hs as [Hs _].
  apply andb_true_iff in Hs. destruct Hs as [_ Hs].
  destruct idx as [|a idx]; [contradiction|].
  pose proof (evenly_spaced_progression _ _ _ Hs) as E.
  set (n := List.length idx) in *.
  assert (Erest : idx = map (fun k => a + 60 * Z.of_nat k) (seq 1 n)).
  { cbn [seq map] in E. injection E as _ E. exact E. }
  assert (Ha : a mod 60 = 0).
  { rewrite E in Hin. apply in_map_iff in Hin. destruct Hin as (k & <- & _).
    replace (a + 60 * Z.of_nat k) with (a + Z.of_nat k * 60) in Hmod by lia.
    rewrite Z.mod_add in Hmod by lia. exact Hmod. }
  unfold resample_index.
  assert (Emin : fold_left Z.min idx a = a).
  { rewrite Erest. apply ChunkFacts.fold_min_progression; lia. }
  assert (Emax : fold_left Z.max idx a = a + 60 * Z.of_nat n).
  { rewrite Erest.
    pose proof (@ChunkFacts.fold_max_progression a 60 n ltac:(lia) 0%nat) as H.
    replace (a + 60 * Z.of_nat 0) with a in H by lia.
    rewrite H. f_equal. }
  rewrite Emin, Emax.
  set (o := a - a mod 86400).
  pose proof (floor_multiple a (f := 86400) ltac:(lia)) as Eo. fold o in Eo.
  apply Z.mod_divide in Ha; [|lia]. destruct Ha as [q Eq].
  assert (E1 : (a - o) mod 60 = 0).
  { replace (a - o) with ((q - 1440 * (a / 86400)) * 60) by lia.
    apply Z.mod_mul. lia. }
  assert (E2 : (a + 60 * Z.of_nat n - o) mod 60 = 0).
  { replace (a + 60 * Z.of_nat n - o)
      with ((q - 1440 * (a / 86400) + Z.of_nat n) * 60) by lia.
    apply Z.mod_mul. lia. }
  rewrite E1, E2, !Z.sub_0_r.
  replace (a + 60 * Z.of_nat n - a) with (Z.of_nat n * 60) by lia.
  rewrite Z.div_mul by lia.
  replace (Z.to_nat (Z.of_nat n + 1)) with (S n) by lia.
  symmetry. exact E.
Qed.

(** The minute resampling keeps a reading taken at a whole minute. *)
Lemma resample_column_minute_label (idx : list datetime) (col : list float)
    (i k : nat) (t : datetime) :
  NoDup idx ->
  nth_error idx i = Some t ->
  nth_error (resample_index 60 idx) k = Some t ->
  nth k (resample_column 60 idx col) nan = nth i col nan.
Proof.
  intros Hnd Hi Hk. unfold resample_column.
  destruct (same_freq 60 idx) eqn:E.
  - assert (Hmod : t mod 60 = 0).
    { apply (@label_whole_minute 1 idx t ltac:(lia)).
      apply (nth_error_In _ _ Hk). }
    rewrite (@same_freq_minute_self idx t E (nth_error_In _ _ Hi) Hmod) in Hk.
    assert (k = i).
    { apply (proj1 (NoDup_nth_error idx) Hnd).
      - apply nth_error_Some. rewrite Hk. discriminate.
      - congruence. }
    subst k. reflexivity.
  - rewrite (@nth_reindex_column (resample_index 60 idx) idx col k t Hk).
    rewrite (@get_loc_NoDup idx Hnd i t Hi). reflexivity.
Qed.

(** A valid reading whose time is a label of the output is the value
    of the station's series at that label. *)
Lemma interpolate_column_keeps (L a : Z) (idx : list datetime)
    (col : list float) (i k : nat) (t : datetime) :
  0 < a ->
  NoDup idx ->
  List.length col = List.length idx ->
  nth_error idx i = Some t ->
  is_nan (nth i col nan) = false ->
  nth_error (resample_index (60 * a) idx) k = Some t ->
  nth k (interpolate_column L (60 * a) idx col) nan = nth i col nan.
Proof.
  intros Ha Hnd Hl Hi Hv Hk.
  rewrite (@interpolate_column_reindex L a idx col Ha Hl).
  rewrite (@nth_reindex_column _ (resample_index 60 idx) _ k t Hk).
  assert (Hmod : t mod 60 = 0).
  { apply (@label_whole_minute a idx t Ha). apply (nth_error_In _ _ Hk). }
  pose proof (@In_minute_labels idx t (nth_error_In _ _ Hi) Hmod) as H60.
  apply In_nth_error in H60. destruct H60 as [k' Hk'].
  assert (Hnd60 : NoDup (resample_index 60 idx))
    by (apply NoDup_resample_index; lia).
  rewrite (@get_loc_NoDup _ Hnd60 k' t Hk').
  pose proof (@resample_column_minute_label idx col i k' t Hnd Hi Hk') as E.
  rewrite InterpFacts.interpolate_1d_keeps_observed.
  - exact E.
  - rewrite ChunkFacts.length_resample_column by exact Hl.
    apply nth_error_Some. rewrite Hk'. discriminate.
  - rewrite E. exact Hv.
Qed.

(** A label of the index on the grid of a frequency that divides the
    day is a label of the resampling. *)
Lemma In_grid_labels (f : Z) (idx : list datetime) (t : datetime) :
  0 < f -> 86400 mod f = 0 ->
  In t idx -> t mod f = 0 -> In t (resample_index f idx).
Proof.
  intros Hf Hday Hin Hmod. destruct idx as [|t0 idx]; [contradiction|].
  apply In_resample_index; [exact Hf|]. cbv zeta.
  assert (Hl : fold_left Z.min idx t0 <= t).
  { apply fold_min_lower. destruct Hin as [->|H]; [left; reflexivity | right; exact H]. }
  assert (Hu : t <= fold_left Z.max idx t0).
  { apply fold_max_upper'. destruct Hin as [->|H]; [left; reflexivity | right; exact H]. }
  set (mn := fold_left Z.min idx t0) in *.
  set (mx := fold_left Z.max idx t0) in *.
  set (o := mn - mn mod 86400).
  pose proof (floor_multiple mn (f := 86400) ltac:(lia)) as Eo. fold o in Eo.
  apply Z.mod_divide in Hmod; [|lia]. destruct Hmod as [q Eq].
  apply Z.mod_divide in Hday; [|lia]. destruct Hday as [p Ep].
  assert (Emod : (t - o) mod f = 0).
  { set (d := mn / 86400) in *.
    assert (Eo' : o = p * d * f) by (rewrite Eo, Ep; ring).
    replace (t - o) with ((q - p * d) * f) by (rewrite Eo', Eq; ring).
    apply Z.mod_mul. lia. }
  split; [|exact Emod].
  pose proof (floor_le (mn - o) Hf).
  pose proof (@floor_mono (t - o) (mx - o) f Hf ltac:(lia)).
  lia.
Qed.

(** The Temporal Aligner keeps the readings: a valid reading whose time
    is on the grid of the output frequency (a divisor of the day) is,
    unchanged, the value of its station at that time in the table
    returned. *)
Theorem reading_kept (df : frame) (frequency_secs cpu_pool : Z)
    (order : list nat) (L : Z) (i j : nat) (t : datetime)
    (col : list float) :
  well_formed df ->
  NoDup (index df) ->
  1 <= L ->
  60 <= frequency_secs ->
  cpu_pool <> 0 ->
  Permutation order
    (seq 0 (List.length (range_step (List.length (columns df)) 200))) ->
  nth_error (index df) i = Some t ->
  nth_error (values df) j = Some col ->
  is_nan (nth i col nan) = false ->
  86400 mod (60 * (frequency_secs / 60)) = 0 ->
  t mod (60 * (frequency_secs / 60)) = 0 ->
  exists (tbl : table) (y : list float) (k : nat),
    interpolate_chunked df frequency_secs cpu_pool order L = Ok tbl /\
    nth_error (times tbl) k = Some t /\
    nth_error (series tbl) j = Some y /\
    nth k y nan = nth i col nan.
Proof.
  intros Hwf Hnd HL Hf Hcpu Hperm Hi Hj Hv Hday Hmod.
  assert (Hne : values df <> [])
    by (intros E; rewrite E in Hj; destruct j; discriminate).
  rewrite (ChunkFacts.chunked_returns Hwf Hne HL Hf Hcpu Hperm).
  set (a := frequency_secs / 60) in *.
  assert (Ha : 0 < a) by (apply Z.div_str_pos; lia).
  pose proof (@In_grid_labels (60 * a) (index df) t ltac:(lia) Hday
                (nth_error_In _ _ Hi) Hmod) as Hin.
  apply In_nth_error in Hin. destruct Hin as [k Hk].
  eexists. exists (interpolate_column L (60 * a) (index df) col), k.
  split; [reflexivity|]. cbn [times series].
  split; [exact Hk|]. split; [rewrite nth_error_map, Hj; reflexivity|].
  apply (@interpolate_column_keeps L a (index df) col i k t); try assumption.
  destruct Hwf as [_ Hwf]. rewrite Forall_forall in Hwf. apply Hwf.
  apply (nth_error_In _ _ Hj).
Qed.

Lemma reading_kept_witness :
  exists (tbl : table) (y : list float) (k : nat),
    interpolate_chunked
      (mk_frame [Examples.t0; Examples.t0 + 900]
         ["01010000"; "01010500"]%string [[10; 12]; [nan; 3]]%float)
      900 1 [0%nat] 59
    = Ok tbl /\
    nth_error (times tbl) k = Some (Examples.t0 + 900) /\
    nth_error (series tbl) 1 = Some y /\
    nth k y nan = 3%float.
Proof.
  apply (@reading_kept
           (mk_frame [Examples.t0; Examples.t0 + 900]
              ["01010000"; "01010500"]%string [[10; 12]; [nan; 3]]%float)
           900 1 [0%nat] 59 1 1 (Examples.t0 + 900) [nan; 3]%float).
  - split; [reflexivity | repeat constructor].
  - repeat constructor; cbn; intuition discriminate.
  - lia.
  - lia.
  - discriminate.
  - vm_compute. apply Permutation_refl.
  - reflexivity.
  - reflexivity.
  - reflexivity.
  - reflexivity.
  - reflexivity.
Defined.

End ResampleFacts.

(** ** The observations of [__init__] *)

Module ModelFacts.
Import Datetime Pandas QC Selector Aligner Loader Model.
Import LoaderFacts ResampleFacts.
Local Open Scope Z_scope.



End ModelFacts.

(** ** Forecast files *)

Module ForecastFacts.
Import Datetime WindowPlanner Selector Forecasts.
Import SplitFacts LoaderFacts.
Local Open Scope Z_scope.











End ForecastFacts.

(** ** The calendar *)

Module CalendarFacts.
Import Datetime.
Import DatetimeFacts.
Local Open Scope Z_scope.

Ltac months :=
  cbv [nth Z.to_nat Pos.to_nat Pos.iter_op Nat.add _DAYS_IN_MONTH
           _DAYS_BEFORE_MONTH Z.eqb Pos.eqb Z.ltb Z.compare Pos.compare
           Pos.compare_cont andb] in *.

Lemma div_pred (k y : Z) :
  0 < k -> y / k - (y - 1) / k = if y mod k =? 0 then 1 else 0.
Proof.
  intros Hk.
  pose proof (Z.div_mod y k ltac:(lia)) as E.
  pose proof (Z.mod_pos_bound y k Hk) as B.
  destruct (Z.eqb_spec (y mod k) 0) as [E0|E0].
  - assert ((y - 1) / k = y / k - 1); [|lia].
    symmetry. apply (Z.div_unique _ _ _ (k - 1)); lia.
  - assert ((y - 1) / k = y / k); [|lia].
    symmetry. apply (Z.div_unique _ _ _ (y mod k - 1)); lia.
Qed.

Lemma days_before_year_succ (y : Z) :
  _days_before_year (y + 1)
  = _days_before_year y + 365 + (if _is_leap y then 1 else 0).
Proof.
  unfold _days_before_year, _is_leap. cbv zeta.
  replace (y + 1 - 1) with y by lia.
  pose proof (@div_pred 4 y ltac:(lia)) as H4.
  pose proof (@div_pred 100 y ltac:(lia)) as H100.
  pose proof (@div_pred 400 y ltac:(lia)) as H400.
  assert (D100 : y mod 100 = 0 -> y mod 4 = 0).
  { intros E. apply Z.mod_divide in E; [|lia]. destruct E as [q ->].
    replace (q * 100) with (q * 25 * 4) by lia. apply Z.mod_mul. lia. }
  assert (D400 : y mod 400 = 0 -> y mod 100 = 0).
  { intros E. apply Z.mod_divide in E; [|lia]. destruct E as [q ->].
    replace (q * 400) with (q * 4 * 100) by lia. apply Z.mod_mul. lia. }
  destruct (Z.eqb_spec (y mod 4) 0), (Z.eqb_spec (y mod 100) 0),
    (Z.eqb_spec (y mod 400) 0); cbn [andb orb negb]; cbv beta iota in *; lia.
Qed.

Lemma days_before_year_mono (n : nat) (y : Z) :
  _days_before_year y + 365 * Z.of_nat n <= _days_before_year (y + Z.of_nat n).
Proof.
  induction n as [|n IH];
    [replace (y + Z.of_nat 0) with y by lia; lia|].
  replace (y + Z.of_nat (S n)) with (y + Z.of_nat n + 1) by lia.
  rewrite days_before_year_succ. destruct (_is_leap (y + Z.of_nat n)); lia.
Qed.

Lemma days_before_year_le (y y' : Z) :
  y <= y' -> _days_before_year y <= _days_before_year y'.
Proof.
  intros H. pose proof (days_before_year_mono (Z.to_nat (y' - y)) y) as M.
  rewrite Z2Nat.id in M by lia. replace (y + (y' - y)) with y' in M by lia. lia.
Qed.

(** The days of a year before a valid date, and with it. *)
Lemma day_of_year_bounds (y m d : Z) :
  1 <= m <= 12 -> 1 <= d <= _days_in_month y m ->
  1 <= _days_before_month y m + d <= 365 + (if _is_leap y then 1 else 0).
Proof.
  intros Hm Hd. unfold _days_in_month, _days_before_month in *.
  assert (Hc : m = 1 \/ m = 2 \/ m = 3 \/ m = 4 \/ m = 5 \/ m = 6 \/ m = 7
               \/ m = 8 \/ m = 9 \/ m = 10 \/ m = 11 \/ m = 12) by lia.
  destruct (_is_leap y);
    repeat (destruct Hc as [-> | Hc]; [months; lia|]); subst m; months; lia.
Qed.

Lemma ymd2ord_year (y m d y' m' d' : Z) :
  1 <= m <= 12 -> 1 <= d <= _days_in_month y m ->
  1 <= m' <= 12 -> 1 <= d' <= _days_in_month y' m' ->
  _ymd2ord y m d = _ymd2ord y' m' d' -> y = y'.
Proof.
  intros Hm Hd Hm' Hd' E. unfold _ymd2ord in E.
  pose proof (@day_of_year_bounds y m d Hm Hd) as B.
  pose proof (@day_of_year_bounds y' m' d' Hm' Hd') as B'.
  destruct (Z.lt_trichotomy y y') as [H|[H|H]]; [|exact H|].
  - exfalso. pose proof (@days_before_year_le (y + 1) y' ltac:(lia)).
    rewrite days_before_year_succ in *. lia.
  - exfalso. pose proof (@days_before_year_le (y' + 1) y ltac:(lia)).
    rewrite days_before_year_succ in *. lia.
Qed.

Lemma ymd2ord_month (y m d m' d' : Z) :
  1 <= m <= 12 -> 1 <= d <= _days_in_month y m ->
  1 <= m' <= 12 -> 1 <= d' <= _days_in_month y m' ->
  _days_before_month y m + d = _days_before_month y m' + d' ->
  m = m' /\ d = d'.
Proof.
  intros Hm Hd Hm' Hd' E. unfold _days_in_month, _days_before_month in *.
  assert (Hc : m = 1 \/ m = 2 \/ m = 3 \/ m = 4 \/ m = 5 \/ m = 6 \/ m = 7
               \/ m = 8 \/ m = 9 \/ m = 10 \/ m = 11 \/ m = 12) by lia.
  assert (Hc' : m' = 1 \/ m' = 2 \/ m' = 3 \/ m' = 4 \/ m' = 5 \/ m' = 6
                \/ m' = 7 \/ m' = 8 \/ m' = 9 \/ m' = 10 \/ m' = 11
                \/ m' = 12) by lia.
  destruct (_is_leap y);
    repeat (destruct Hc as [-> | Hc]);
    repeat (destruct Hc' as [-> | Hc']); subst; months; lia.
Qed.

(** The ordinal of a valid date gives the date back. *)
Lemma ord2ymd_ymd2ord (y m d : Z) :
  1 <= y -> 1 <= m <= 12 -> 1 <= d <= _days_in_month y m ->
  _ord2ymd (_ymd2ord y m d) = (y, m, d).
Proof.
  intros Hy Hm Hd.
  assert (Hn : 1 <= _ymd2ord y m d).
  { unfold _ymd2ord. pose proof (@day_of_year_bounds y m d Hm Hd).
    pose proof (@days_before_year_le 1 y Hy).
    change (_days_before_year 1) with 0 in *. lia. }
  pose proof (@ord2ymd_spec (_ymd2ord y m d) Hn) as S. cbv zeta in S.
  destruct (_ord2ymd (_ymd2ord y m d)) as [[y' m'] d'] eqn:E.
  cbn [fst snd] in S. destruct S as (Hy' & _ & Hm' & Hd' & Eo).
  assert (y' = y) by (apply (@ymd2ord_year y' m' d' y m d Hm' Hd' Hm Hd Eo)).
  subst y'.
  unfold _ymd2ord in Eo.
  destruct (@ymd2ord_month y m' d' m d Hm' Hd' Hm Hd ltac:(lia)) as [-> ->].
  reflexivity.
Qed.

End CalendarFacts.

(** ** Parsed fields *)

Module FieldFacts.
Import Datetime.
Import DatetimeFacts CalendarFacts.
Local Open Scope Z_scope.

(** The fields of [datetime(year, month, day, hour, minute, second)]. *)
Lemma fields_of_mk_datetime (y m d h mi s : Z) :
  1 <= y -> 1 <= m <= 12 -> 1 <= d <= _days_in_month y m ->
  0 <= h <= 23 -> 0 <= mi <= 59 -> 0 <= s <= 59 ->
  let t := mk_datetime y m d h mi s in
  year_of t = y /\ month_of t = m /\ day_of t = d /\
  hour_of t = h /\ minute_of t = mi /\ second_of t = s.
Proof.
  intros Hy Hm Hd Hh Hmi Hs t.
  set (o := _ymd2ord y m d).
  assert (Et : t = (o - 1) * 86400 + (h * 3600 + mi * 60 + s))
    by (unfold t, mk_datetime, o, datetime; ring).
  assert (Hr : 0 <= h * 3600 + mi * 60 + s < 86400) by lia.
  assert (Ediv : t / 86400 = o - 1).
  { rewrite Et. symmetry.
    apply (Z.div_unique _ _ _ (h * 3600 + mi * 60 + s)); lia. }
  assert (Emod : t mod 86400 = h * 3600 + mi * 60 + s).
  { rewrite Et. symmetry.
    apply (Z.mod_unique _ _ (o - 1)); lia. }
  assert (Emod2 : t mod 3600 = mi * 60 + s).
  { rewrite Et. symmetry. apply (Z.mod_unique _ _ ((o - 1) * 24 + h)); lia. }
  assert (Emod3 : t mod 60 = s).
  { rewrite Et. symmetry.
    apply (Z.mod_unique _ _ ((o - 1) * 1440 + h * 60 + mi)); lia. }
  unfold year_of, month_of, day_of, hour_of, minute_of, second_of, toordinal.
  rewrite Ediv, Emod, Emod2, Emod3.
  replace (o - 1 + 1) with o by lia. unfold o.
  rewrite (ord2ymd_ymd2ord Hy Hm Hd). cbn [fst snd].
  repeat split.
  - symmetry. apply (Z.div_unique _ _ _ (mi * 60 + s)); lia.
  - symmetry. apply (Z.div_unique _ _ _ s); lia.
Qed.

Lemma digit_val_inv (c : ascii) (d : Z) :
  digit_val c = Some d -> c = digit d /\ 0 <= d <= 9.
Proof.
  unfold digit_val. cbv zeta.
  destruct ((48 <=? Z.of_nat (nat_of_ascii c))
            && (Z.of_nat (nat_of_ascii c) <=? 57)) eqn:E; [|discriminate].
  intros H. injection H as <-.
  apply andb_true_iff in E. destruct E as [E1 E2].
  apply Z.leb_le in E1, E2. split; [|lia].
  unfold digit. rewrite Z.mod_small by lia.
  replace (48 + Z.to_nat (Z.of_nat (nat_of_ascii c) - 48))%nat
    with (nat_of_ascii c) by lia.
  symmetry. apply ascii_nat_embedding.
Qed.

Lemma digit_mod (n : Z) : digit (n mod 10) = digit n.
Proof. unfold digit. rewrite Z.mod_mod by lia. reflexivity. Qed.

Lemma number_two (c1 c2 : ascii) (n : Z) :
  number [c1; c2] 0 = Some n ->
  c1 = digit (n / 10) /\ c2 = digit n /\ 0 <= n < 100.
Proof.
  cbn [number].
  destruct (digit_val c1) as [d1|] eqn:E1; [|discriminate].
  destruct (digit_val c2) as [d2|] eqn:E2; [|discriminate].
  intros H.
  assert (H' : 10 * (10 * 0 + d1) + d2 = n) by congruence. clear H.
  apply digit_val_inv in E1, E2. destruct E1 as [-> B1]. destruct E2 as [-> B2].
  assert (En : n = 10 * d1 + d2) by lia. clear H'. subst n.
  assert (Q : (10 * d1 + d2) / 10 = d1)
    by (symmetry; apply (Z.div_unique _ _ _ d2); lia).
  assert (R : (10 * d1 + d2) mod 10 = d2)
    by (symmetry; apply (Z.mod_unique _ _ d1); lia).
  rewrite Q. split; [reflexivity|]. split; [|lia].
  rewrite <- (digit_mod (10 * d1 + d2)), R. reflexivity.
Qed.

Lemma number_four (c1 c2 c3 c4 : ascii) (n : Z) :
  number [c1; c2; c3; c4] 0 = Some n ->
  c1 = digit (n / 1000) /\ c2 = digit (n / 100) /\ c3 = digit (n / 10) /\
  c4 = digit n /\ 0 <= n < 10000.
Proof.
  cbn [number].
  destruct (digit_val c1) as [d1|] eqn:E1; [|discriminate].
  destruct (digit_val c2) as [d2|] eqn:E2; [|discriminate].
  destruct (digit_val c3) as [d3|] eqn:E3; [|discriminate].
  destruct (digit_val c4) as [d4|] eqn:E4; [|discriminate].
  intros H.
  assert (H' : 10 * (10 * (10 * (10 * 0 + d1) + d2) + d3) + d4 = n)
    by congruence.
  clear H. apply digit_val_inv in E1, E2, E3, E4.
  destruct E1 as [-> B1]. destruct E2 as [-> B2].
  destruct E3 as [-> B3]. destruct E4 as [-> B4].
  assert (En : n = 1000 * d1 + 100 * d2 + 10 * d3 + d4) by lia.
  clear H'.
  assert (Q1 : n / 1000 = d1)
    by (symmetry; apply (Z.div_unique _ _ _ (100 * d2 + 10 * d3 + d4)); lia).
  assert (Q2 : n / 100 = 10 * d1 + d2)
    by (symmetry; apply (Z.div_unique _ _ _ (10 * d3 + d4)); lia).
  assert (Q3 : n / 10 = 100 * d1 + 10 * d2 + d3)
    by (symmetry; apply (Z.div_unique _ _ _ d4); lia).
  assert (R2 : (10 * d1 + d2) mod 10 = d2)
    by (symmetry; apply (Z.mod_unique _ _ d1); lia).
  assert (R3 : (100 * d1 + 10 * d2 + d3) mod 10 = d3)
    by (symmetry; apply (Z.mod_unique _ _ (10 * d1 + d2)); lia).
  assert (R4 : n mod 10 = d4)
    by (symmetry; apply (Z.mod_unique _ _ (100 * d1 + 10 * d2 + d3)); lia).
  rewrite Q1, Q2, Q3. split; [reflexivity|].
  split; [rewrite <- (digit_mod (10 * d1 + d2)), R2; reflexivity|].
  split; [rewrite <- (digit_mod (100 * d1 + 10 * d2 + d3)), R3; reflexivity|].
  split; [rewrite <- (digit_mod n), R4; reflexivity | lia].
Qed.

Lemma in_range_inv (lo x hi : Z) : in_range lo x hi = true -> lo <= x <= hi.
Proof.
  unfold in_range. intros H. apply andb_true_iff in H.
  destruct H as [H1 H2]. apply Z.leb_le in H1, H2. lia.
Qed.

Lemma checked_datetime_inv (y m d h mi s : Z) (t : datetime) :
  checked_datetime y m d h mi s = Ok t ->
  t = mk_datetime y m d h mi s /\
  1 <= y <= 9999 /\ 1 <= m <= 12 /\ 1 <= d <= _days_in_month y m /\
  0 <= h <= 23 /\ 0 <= mi <= 59 /\ 0 <= s <= 59.
Proof.
  unfold checked_datetime.
  destruct (in_range 1 y 9999 && in_range 1 m 12
            && in_range 1 d (_days_in_month y m) && in_range 0 h 23
            && in_range 0 mi 59 && in_range 0 s 59) eqn:E; [|discriminate].
  intros H. injection H as <-.
  repeat (apply andb_true_iff in E; destruct E as [E ?]).
  repeat match goal with
         | H : in_range _ _ _ = true |- _ => apply in_range_inv in H
         end.
  repeat split; lia.
Qed.

End FieldFacts.

(** ** Parsed texts *)

Module CanonicalFacts.
Import Datetime.
Import DatetimeFacts CalendarFacts FieldFacts.
Local Open Scope Z_scope.

Lemma sep_inv (l : list ascii) (k : nat) (c : ascii) :
  sep l k c = true -> nth_error l k = Some c.
Proof.
  unfold sep. destruct (nth_error l k) as [c'|]; [|discriminate].
  intros H. apply Ascii.eqb_eq in H. congruence.
Qed.


Lemma length_13 (A : Type) (l : list A) :
  List.length l = 13%nat ->
  exists c0 c1 c2 c3 c4 c5 c6 c7 c8 c9 c10 c11 c12,
    l = [c0; c1; c2; c3; c4; c5; c6; c7; c8; c9; c10; c11; c12].
Proof.
  intros H.
  do 13 (destruct l as [|? l]; [discriminate|]).
  destruct l; [|discriminate].
  repeat eexists.
Qed.


Lemma format_parse_YmdH (s : string) (t : datetime) :
  strptime_YmdH s = Ok t -> strftime_YmdH t = s.
Proof.
  unfold strptime_YmdH. cbv zeta. intros H.
  rewrite <- (string_of_list_ascii_of_string s). revert H.
  generalize (list_ascii_of_string s). intros l.
  destruct ((List.length l =? 13)%nat && sep l 4 "-" && sep l 7 "-"
            && sep l 10 "_") eqn:C;
    [|discriminate].
  repeat (apply andb_true_iff in C; destruct C as [C ?]).
  apply Nat.eqb_eq in C.
  destruct (@length_13 _ l C)
    as (c0 & c1 & c2 & c3 & c4 & c5 & c6 & c7 & c8 & c9 & c10 & c11 & c12
        & ->).
  repeat match goal with
         | H : sep _ _ _ = true |- _ =>
             apply sep_inv in H; cbn [nth_error] in H; injection H as ->
         end.
  unfold field. cbn [firstn skipn].
  destruct (number [c0; c1; c2; c3] 0) as [y|] eqn:Fy; [|discriminate].
  destruct (number [c5; c6] 0) as [m|] eqn:Fm; [|discriminate].
  destruct (number [c8; c9] 0) as [d|] eqn:Fd; [|discriminate].
  destruct (number [c11; c12] 0) as [h|] eqn:Fh; [|discriminate].
  intros H. apply checked_datetime_inv in H.
  destruct H as (-> & Hy & Hm & Hd & Hh & Hmi & Hs).
  destruct (@fields_of_mk_datetime y m d h 0 0 ltac:(lia) Hm Hd Hh Hmi Hs)
    as (E1 & E2 & E3 & E4 & _ & _).
  unfold strftime_YmdH. rewrite E1, E2, E3, E4.
  apply number_four in Fy. destruct Fy as (-> & -> & -> & -> & _).
  apply number_two in Fm. destruct Fm as (-> & -> & _).
  apply number_two in Fd. destruct Fd as (-> & -> & _).
  apply number_two in Fh. destruct Fh as (-> & -> & _).
  reflexivity.
Qed.


End CanonicalFacts.

(** ** Observation Loader: a reading from the file to the table *)

Module SurviveFacts.
Import Datetime WindowPlanner Pandas QC Selector Aligner Loader.
Import OrderFacts LoaderFacts ResampleFacts CanonicalFacts.






End SurviveFacts.

(** ** Forecast frames *)

Module TimeseriesFacts.
Import Datetime Selector Forecasts Timeseries.
Local Open Scope Z_scope.











Section Validation.
Variable validate :
  string -> list float -> list float -> string -> string -> Z -> bool -> bool.







Lemma mapM_inv (A B : Type) (h : A -> result B) (l : list A) :
  forall ys : list B,
    mapM h l = Ok ys -> Forall2 (fun a y => h a = Ok y) l ys.
Proof.
  induction l as [|a l IH]; intros ys H.
  - cbn [mapM] in H. injection H as <-. constructor.
  - cbn [mapM] in H. destruct (h a) as [b|e] eqn:Ea; [|discriminate].
    cbn [bind] in H. destruct (mapM h l) as [bs|e] eqn:El; [|discriminate].
    cbn [bind] in H. injection H as <-. constructor; [exact Ea|].
    apply IH. reflexivity.
Qed.

Lemma In_concat_Forall2 (A B : Type) (R : A -> list B -> Prop)
    (l : list A) (ys : list (list B)) (y : B) :
  Forall2 R l ys -> In y (List.concat ys) ->
  exists a fr, In a l /\ R a fr /\ In y fr /\ incl fr (List.concat ys).
Proof.
  induction 1 as [|a fr l ys Ha H IH]; intros Hin; [contradiction|].
  cbn [List.concat] in *. apply in_app_or in Hin. destruct Hin as [Hin|Hin].
  - exists a, fr. split; [left; reflexivity|]. split; [exact Ha|].
    split; [exact Hin|]. intros z Hz. apply in_or_app. left. exact Hz.
  - destruct (IH Hin) as (a' & fr' & Ha' & HR & Hy & Hincl).
    exists a', fr'. split; [right; exact Ha'|]. split; [exact HR|].
    split; [exact Hy|]. intros z Hz. apply in_or_app. right.
    apply Hincl. exact Hz.
Qed.

(** The rows of the frame of one file. *)
Lemma forecast_frame_rows (filepath f : string) (ds : forecast_dataset)
    (t0 final : datetime) (fr : list (nat * rfc_row)) :
  forecast_frame validate filepath f ds t0 final = Ok fr ->
  forall r, In r fr ->
    Datetime (snd r) < final /\ file (snd r) = f /\
    exists r', In r' fr /\ Datetime (snd r') = t0 /\
               fst r' = timeseries_idx (snd r).
Proof.
  unfold forecast_frame.
  destruct (sliceStartTimeUTC ds) as [s|]; [|discriminate].
  destruct (strptime_YmdHMS s) as [start|e]; [|discriminate].
  cbn [bind]. cbv zeta.
  destruct (sliceTimeResolutionMinutes ds) as [m|]; [|discriminate].
  cbn [bind].
  match goal with
  | |- context [filter (fun r => snd r <? final) ?l] =>
      set (df := filter (fun r => snd r <? final) l)
  end.
  match goal with
  | |- context [filter ?p df] =>
      destruct (filter p df) as [|r1 rest] eqn:E1; [cbn [bind]; discriminate|]
  end.
  cbn [bind].
  match goal with
  | |- context [find ?p df] =>
      destruct (find p df) as [r2|]; [|cbn [bind]; discriminate]
  end.
  cbn [bind]. intros H. injection H as <-. intros r Hr.
  apply in_map_iff in Hr. destruct Hr as (x & <- & Hx). cbn [snd fst].
  cbn [Datetime file timeseries_idx].
  split.
  - unfold df in Hx. apply filter_In in Hx. apply Z.ltb_lt. apply Hx.
  - split; [reflexivity|].
    assert (H1 : In r1 (r1 :: rest)) by (left; reflexivity).
    rewrite <- E1 in H1.
    apply filter_In in H1. destruct H1 as [H1 Heq].
    eexists. split; [apply in_map; exact H1|]. cbn [snd fst Datetime].
    split; [apply Z.eqb_eq; exact Heq | reflexivity].
Qed.

Lemma strip_station_keeps (r : nat * rfc_row) :
  fst (strip_station r) = fst r /\
  Datetime (snd (strip_station r)) = Datetime (snd r) /\
  timeseries_idx (snd (strip_station r)) = timeseries_idx (snd r) /\
  file (snd (strip_station r)) = file (snd r).
Proof. repeat split. Qed.

(** What [_read_timeseries_files] returns: every row is dated before
    [final_persist_datetime], comes from a file of the list of line 308,
    and its [timeseries_idx] is the label of a row of the same file that
    is dated [t0]. *)
Theorem timeseries_rows (open_dataset : string -> forecast_dataset)
    (filepath : string) (entries timeseries_dates : list string)
    (t0 final : datetime) (rfc_df : list (nat * rfc_row)) :
  _read_timeseries_files validate open_dataset filepath entries
    timeseries_dates t0 final = Ok rfc_df ->
  forall r, In r rfc_df ->
    Datetime (snd r) < final /\
    (exists l, file_list (glob_all filepath entries) timeseries_dates = Ok l
               /\ In (file (snd r)) l) /\
    exists r', In r' rfc_df /\ file (snd r') = file (snd r) /\
               Datetime (snd r') = t0 /\
               fst r' = timeseries_idx (snd r).
Proof.
  unfold _read_timeseries_files.
  destruct (file_list (glob_all filepath entries) timeseries_dates)
    as [l|e] eqn:El; [|discriminate].
  cbn [bind].
  destruct (mapM _ l) as [frames|e] eqn:Em; [|discriminate].
  cbn [bind]. apply mapM_inv in Em.
  destruct frames as [|fr0 frames0] eqn:Ef; [discriminate|].
  rewrite <- Ef in *. intros H. injection H as <-. intros r Hr.
  apply in_map_iff in Hr. destruct Hr as (x & <- & Hx).
  destruct (@In_concat_Forall2 _ _ _ _ _ x Em Hx) as (f & fr & Hf & Hfr & Hxfr & Hincl).
  destruct (forecast_frame_rows _ _ _ _ _ Hfr x Hxfr)
    as (Hlt & Hfile & r' & Hr' & Ht0 & Hidx).
  destruct (strip_station_keeps x) as (_ & Ed & Ei & Efile).
  rewrite Ed, Ei, Efile. split; [exact Hlt|].
  split; [exists l; split; [reflexivity | rewrite Hfile; exact Hf]|].
  exists (strip_station r'). split; [apply in_map, Hincl, Hr'|].
  destruct (strip_station_keeps r') as (E0 & Ed' & _ & Ef').
  rewrite E0, Ed', Ef'. split; [|split; [exact Ht0 | exact Hidx]].
  destruct (forecast_frame_rows _ _ _ _ _ Hfr r' Hr') as (_ & -> & _).
  symmetry. exact Hfile.
Qed.


End Validation.


Lemma timeseries_rows_witness :
  Forall (fun r => Datetime (snd r) < Examples.t0 + 14400)
    (match _read_timeseries_files Examples.accept_all
             (fun _ => Examples.forecast_file) "/rfc"
             Examples.forecast_entries Examples.forecast_window
             (Examples.t0 + 7200) (Examples.t0 + 14400)
     with Ok l => l | Raise _ => [] end).
Proof.
  apply Forall_forall. intros r Hr.
  destruct (@timeseries_rows Examples.accept_all
              (fun _ => Examples.forecast_file) "/rfc"
              Examples.forecast_entries Examples.forecast_window
              (Examples.t0 + 7200) (Examples.t0 + 14400) _
              ltac:(vm_compute; reflexivity) r Hr) as [H _].
  exact H.
Defined.


(** A retained entry without a station: the grouping leaves its row
    out, no file is opened, and line 337 finds no column [stationId]. *)
Example timeseries_entry_without_station :
  _read_timeseries_files Examples.accept_all
    (fun _ => Examples.forecast_file) "/rfc"
    ["2024-01-01_02"; "2023-12-31_23.60min.ABC.RFCTimeSeries.ncdf"]%string
    Examples.forecast_window (Examples.t0 + 7200) (Examples.t0 + 14400)
  = Raise KeyError.
Proof. vm_compute. reflexivity. Qed.

End TimeseriesFacts.

(** ** Lite restart files *)

Module RestartFacts.
Import Datetime Restart.

Lemma concat_rows_of (k n : nat) :
  forall a : list float,
    List.length a = (k * n)%nat -> List.concat (rows_of k a n) = a.
Proof.
  induction n as [|n IH]; intros a H.
  - rewrite Nat.mul_0_r in H. destruct a; [reflexivity | discriminate].
  - cbn [rows_of List.concat]. rewrite IH.
    + apply firstn_skipn.
    + rewrite length_skipn. lia.
Qed.

Lemma length_rows_of (k n : nat) :
  forall a : list float, List.length (rows_of k a n) = n.
Proof.
  induction n as [|n IH]; intros a; [reflexivity|].
  cbn [rows_of List.length]. rewrite IH. reflexivity.
Qed.

Lemma rows_of_width (k n : nat) :
  forall a : list float,
    List.length a = (k * n)%nat ->
    forallb (fun r => (List.length r =? k)%nat) (rows_of k a n) = true.
Proof.
  induction n as [|n IH]; intros a H; [reflexivity|].
  cbn [rows_of forallb]. rewrite IH by (rewrite length_skipn; lia).
  rewrite length_firstn. rewrite andb_true_r. apply Nat.eqb_eq. lia.
Qed.

Lemma reshape_rows (k n : nat) (a : list float) :
  n <> O -> List.length a = (k * n)%nat ->
  reshape a n = Ok (rows_of k a n).
Proof.
  intros Hn H. unfold reshape. destruct n as [|n']; [contradiction|].
  rewrite H. rewrite Nat.Div0.mod_mul. cbn [Nat.eqb].
  rewrite Nat.div_mul by discriminate. reflexivity.
Qed.

Lemma reshape_no_row (a : list float) : reshape a 0 = Raise ValueError.
Proof. reflexivity. Qed.

Lemma new_DataFrame_rows (k : nat) (a : list float) (ids : list Z)
    (names : list string) :
  List.length names = k ->
  List.length a = (k * List.length ids)%nat ->
  new_DataFrame (rows_of k a (List.length ids)) ids names
  = Ok (mk_DataFrame ids names (rows_of k a (List.length ids)) None).
Proof.
  intros Hk H. unfold new_DataFrame. rewrite length_rows_of, Nat.eqb_refl.
  rewrite Hk, (@rows_of_width _ _ _ H). reflexivity.
Qed.

(** The channel states of a well-shaped array. *)
Lemma channel_frame (a : list float) (ids : list Z) :
  ids <> [] -> List.length a = (3 * List.length ids)%nat ->
  (a' <- reshape a (List.length ids) ;;
   new_DataFrame a' ids ["qu0"; "qd0"; "h0"]%string)
  = Ok (mk_DataFrame ids ["qu0"; "qd0"; "h0"]%string
          (rows_of 3 a (List.length ids)) None).
Proof.
  intros Hne H.
  assert (Hn : List.length ids <> O)
    by (destruct ids; [contradiction | discriminate]).
  rewrite (@reshape_rows 3 _ _ Hn H).
  cbn [bind]. apply new_DataFrame_rows; [reflexivity | exact H].
Qed.

Lemma waterbody_frame (a : list float) (ids : list Z) :
  ids <> [] -> List.length a = (12 * List.length ids)%nat ->
  (a' <- reshape a (List.length ids) ;;
   new_DataFrame a' ids waterbody_names)
  = Ok (mk_DataFrame ids waterbody_names
          (rows_of 12 a (List.length ids)) None).
Proof.
  intros Hne H.
  assert (Hn : List.length ids <> O)
    by (destruct ids; [contradiction | discriminate]).
  rewrite (@reshape_rows 12 _ _ Hn H).
  cbn [bind]. apply new_DataFrame_rows; [reflexivity | exact H].
Qed.

(** The files of a call with well-shaped arrays and a directory. *)
Lemma written (v : values) (t0 : datetime) (output_directory : directory)
    (a : list float) (ids : list Z) (w : list float) (wids : list Z)
    (model_time : Z) :
  truthy output_directory = true ->
  q0 v = Some a -> q0_ids v = Some ids ->
  ids <> [] -> List.length a = (3 * List.length ids)%nat ->
  waterbody_df v = Some w -> waterbody_df_ids v = Some wids ->
  wids <> [] -> List.length w = (12 * List.length wids)%nat ->
  t_route_model_time v = Some model_time ->
  let timestamp := (t0 + model_time)%Z in
  _write_lite_restart v t0 (Some output_directory)
  = (channel <- joinpath output_directory
                  ("channel_restart_" ++ strftime_YmdHM timestamp) ;;
     waterbody <- joinpath output_directory
                    ("waterbody_restart_" ++ strftime_YmdHM timestamp) ;;
     Ok [mk_pickle channel
           (mk_DataFrame ids ["qu0"; "qd0"; "h0"]%string
              (rows_of 3 a (List.length ids))
              (Some (map (fun _ => timestamp) ids)));
         mk_pickle waterbody
           (mk_DataFrame wids ["qd0"; "h0"]%string
              (map (fun r => [nth 9 r nan; nth 10 r nan])
                 (rows_of 12 w (List.length wids)))
              (Some (map (fun _ => timestamp) wids)))]).
Proof.
  intros Ht Ha Hids Hne Hlen Hw Hwids Hwne Hwlen Hs timestamp.
  unfold _write_lite_restart. rewrite Ht, Ha, Hids. cbn [item bind].
  pose proof (@channel_frame a ids Hne Hlen) as Ec.
  destruct (reshape a (List.length ids)) as [a'|e]; [|discriminate].
  cbn [bind] in Ec |- *. rewrite Ec. cbn [bind].
  rewrite Hw, Hwids. cbn [item bind].
  pose proof (@waterbody_frame w wids Hwne Hwlen) as Ew.
  destruct (reshape w (List.length wids)) as [w'|e]; [|discriminate].
  cbn [bind] in Ew |- *. fold waterbody_names. rewrite Ew. cbn [bind].
  rewrite Hs. cbn [item bind]. unfold seconds. fold timestamp.
  destruct (joinpath output_directory _) as [channel|e]; [|reflexivity].
  cbn [bind].
  assert (Hempty : empty (mk_DataFrame wids waterbody_names
                            (rows_of 12 w (List.length wids)) None)
                   = false).
  { unfold empty. cbn [index columns time].
    destruct wids; [contradiction | reflexivity]. }
  rewrite Hempty. cbn [negb]. reflexivity.
Qed.

Lemma nth_rows_of (k n : nat) :
  forall (a : list float) (i j : nat),
    (i < n)%nat -> (j < k)%nat ->
    nth j (nth i (rows_of k a n) []) nan = nth (k * i + j) a nan.
Proof.
  induction n as [|n IH]; intros a i j Hi Hj; [lia|].
  cbn [rows_of]. destruct i as [|i].
  - cbn [nth]. rewrite nth_firstn.
    destruct (Nat.ltb_spec j k); [|lia]. f_equal. lia.
  - cbn [nth]. rewrite IH by lia. rewrite nth_skipn. f_equal. lia.
Qed.

Lemma nth_map_rows (A B : Type) (g : A -> B) (l : list A) (i : nat)
    (d : A) (e : B) :
  (i < List.length l)%nat -> nth i (map g l) e = g (nth i l d).
Proof.
  intros H. rewrite (nth_indep _ e (g d)) by (rewrite length_map; exact H).
  apply map_nth.
Qed.

(** With a directory and no waterbody id, the reshaping of line 450
    raises [ValueError]: no restart file is written, the one of the
    channels neither. *)
Theorem restart_without_waterbodies (v : values) (t0 : datetime)
    (output_directory : directory) (a : list float) (ids : list Z)
    (w : list float) :
  truthy output_directory = true ->
  q0 v = Some a -> q0_ids v = Some ids ->
  ids <> [] -> List.length a = (3 * List.length ids)%nat ->
  waterbody_df v = Some w -> waterbody_df_ids v = Some [] ->
  _write_lite_restart v t0 (Some output_directory) = Raise ValueError.
Proof.
  intros Ht Ha Hids Hne Hlen Hw Hwids.
  unfold _write_lite_restart. rewrite Ht, Ha, Hids. cbn [item bind].
  pose proof (@channel_frame a ids Hne Hlen) as Ec.
  destruct (reshape a (List.length ids)) as [a'|e]; [|discriminate].
  cbn [bind] in Ec |- *. rewrite Ec. cbn [bind].
  rewrite Hw, Hwids. reflexivity.
Qed.

(** With the directory given as a non-empty [str], no restart file is
    written: [pathlib.Path.joinpath] raises [AttributeError] at line
    465. *)
Theorem restart_directory_str (v : values) (t0 : datetime) (s : string)
    (a : list float) (ids : list Z) (w : list float) (wids : list Z)
    (model_time : Z) :
  s <> EmptyString ->
  q0 v = Some a -> q0_ids v = Some ids ->
  ids <> [] -> List.length a = (3 * List.length ids)%nat ->
  waterbody_df v = Some w -> waterbody_df_ids v = Some wids ->
  wids <> [] -> List.length w = (12 * List.length wids)%nat ->
  t_route_model_time v = Some model_time ->
  (datetime_min <= t0 + model_time <= datetime_max)%Z ->
  _write_lite_restart v t0 (Some (Str s)) = Raise AttributeError.
Proof.
  intros Hs Ha Hids Hne Hlen Hw Hwids Hwne Hwlen Hm _.
  rewrite (@written v t0 (Str s) a ids w wids model_time);
    try assumption; [reflexivity|].
  cbn [truthy]. destruct (String.eqb_spec s ""); [contradiction|reflexivity].
Qed.

(** A run that writes the restart files, then a model that starts from
    them.  With a directory given as a path and well-shaped arrays, two
    files are written, named after the minute of [t0] plus the model
    time; the model that reads them starts at that instant, with the
    channel states in the order of the array, and with the columns
    [qd0] and [h0] of the waterbodies. *)
Theorem restart_chain (v : values) (t0 : datetime) (p : string)
    (a : list float) (ids : list Z) (w : list float) (wids : list Z)
    (model_time : Z) :
  q0 v = Some a -> q0_ids v = Some ids ->
  ids <> [] -> List.length a = (3 * List.length ids)%nat ->
  waterbody_df v = Some w -> waterbody_df_ids v = Some wids ->
  wids <> [] -> List.length w = (12 * List.length wids)%nat ->
  t_route_model_time v = Some model_time ->
  (mk_datetime 1678 1 1 0 0 0 <= t0 + model_time
   <= mk_datetime 2261 12 31 23 59 59)%Z ->
  exists (channel waterbody : pickle) (_q0 _waterbody_df : DataFrame),
    _write_lite_restart v t0 (Some (Path p)) = Ok [channel; waterbody] /\
    path channel
    = (p, ("channel_restart_" ++ strftime_YmdHM (t0 + model_time)%Z)%string)
    /\
    path waterbody
    = (p, ("waterbody_restart_" ++ strftime_YmdHM (t0 + model_time)%Z)%string)
    /\
    (forall _t0,
        read_restart _t0 (Some (content channel)) (Some (content waterbody))
        = Ok (Some _q0, (t0 + model_time)%Z, Some _waterbody_df)) /\
    index _q0 = ids /\
    columns _q0 = ["qu0"; "qd0"; "h0"]%string /\
    time _q0 = None /\
    List.concat (data _q0) = a /\
    index _waterbody_df = wids /\
    columns _waterbody_df = ["qd0"; "h0"]%string /\
    time _waterbody_df = None /\
    List.length (data _waterbody_df) = List.length wids /\
    forall i, (i < List.length wids)%nat ->
      nth i (data _waterbody_df) []
      = [nth (12 * i + 9) w nan; nth (12 * i + 10) w nan].
Proof.
  intros Ha Hids Hne Hlen Hw Hwids Hwne Hwlen Hm _.
  rewrite (@written v t0 (Path p) a ids w wids model_time);
    try assumption; [|reflexivity].
  cbn [joinpath bind].
  eexists. eexists. eexists. eexists.
  split; [reflexivity|]. cbn [path content].
  split; [reflexivity|]. split; [reflexivity|].
  split.
  { intros _t0. unfold read_restart, _read_lite_restart. cbn [time].
    destruct ids as [|id ids']; [contradiction|].
    destruct wids as [|wid wids']; [contradiction|].
    cbn [map bind fst snd index columns data]. reflexivity. }
  cbn [index columns data time].
  split; [reflexivity|]. split; [reflexivity|]. split; [reflexivity|].
  split; [apply concat_rows_of; exact Hlen|].
  split; [reflexivity|]. split; [reflexivity|]. split; [reflexivity|].
  split; [rewrite length_map; apply length_rows_of|].
  intros i Hi.
  rewrite (@nth_map_rows _ _ (fun r => [nth 9 r nan; nth 10 r nan]) _ i [])
    by (rewrite length_rows_of; exact Hi).
  rewrite !nth_rows_of by lia. reflexivity.
Qed.

Section Witnesses.
Local Open Scope Z_scope.

Lemma restart_without_waterbodies_witness :
  _write_lite_restart Examples.values_without_waterbodies Examples.t0
    (Some (Path "/restart"))
  = Raise ValueError.
Proof.
  apply (@restart_without_waterbodies Examples.values_without_waterbodies
           Examples.t0 (Path "/restart") [1; 2; 3; 4; 5; 6]%float [101; 102]
           []).
  - reflexivity.
  - reflexivity.
  - reflexivity.
  - discriminate.
  - reflexivity.
  - reflexivity.
  - reflexivity.
Defined.

Lemma restart_directory_str_witness :
  _write_lite_restart Examples.restart_values Examples.t0
    (Some (Str "/restart"))
  = Raise AttributeError.
Proof.
  apply (@restart_directory_str Examples.restart_values Examples.t0
           "/restart" [1; 2; 3; 4; 5; 6]%float [101; 102]
           [0; 1; 2; 3; 4; 5; 6; 7; 8; 9; 10; 11]%float [7] 3600).
  - discriminate.
  - reflexivity.
  - reflexivity.
  - discriminate.
  - reflexivity.
  - reflexivity.
  - reflexivity.
  - discriminate.
  - reflexivity.
  - reflexivity.
  - vm_compute. split; discriminate.
Defined.

Lemma restart_chain_witness :
  exists (channel waterbody : pickle) (_q0 _waterbody_df : DataFrame),
    _write_lite_restart Examples.restart_values Examples.t0
      (Some (Path "/restart"))
    = Ok [channel; waterbody] /\
    path channel = ("/restart", "channel_restart_202401010100")%string /\
    read_restart 0 (Some (content channel)) (Some (content waterbody))
    = Ok (Some _q0, Examples.t0 + 3600, Some _waterbody_df) /\
    data _q0 = [[1; 2; 3]; [4; 5; 6]]%float /\
    data _waterbody_df = [[9; 10]]%float.
Proof.
  destruct (@restart_chain Examples.restart_values Examples.t0 "/restart"
              [1; 2; 3; 4; 5; 6]%float [101; 102]
              [0; 1; 2; 3; 4; 5; 6; 7; 8; 9; 10; 11]%float [7] 3600)
    as (channel & waterbody & _q0 & _waterbody_df & Ew & Ec & _ & Er & _).
  - reflexivity.
  - reflexivity.
  - discriminate.
  - reflexivity.
  - reflexivity.
  - reflexivity.
  - discriminate.
  - reflexivity.
  - reflexivity.
  - vm_compute. split; discriminate.
  - exists channel, waterbody, _q0, _waterbody_df.
    split; [exact Ew|]. split; [exact Ec|]. split; [apply Er|].
    specialize (Er 0). vm_compute in Ew. injection Ew as <- <-.
    vm_compute in Er. injection Er as <- <-. split; reflexivity.
Defined.

End Witnesses.

End RestartFacts.

(** ** The names of the restart files *)

Module StampFacts.
Import Datetime Restart RestartFacts.
Local Open Scope Z_scope.

Lemma fields_by_minute (t : datetime) :
  toordinal t = t / 60 / 1440 + 1 /\
  hour_of t = (t / 60) mod 1440 / 60 /\
  minute_of t = (t / 60) mod 60.
Proof.
  unfold toordinal, hour_of, minute_of.
  pose proof (Z.div_mod t 60 ltac:(lia)) as Et.
  pose proof (Z.mod_pos_bound t 60 ltac:(lia)) as Bt.
  set (q := t / 60) in *. set (r := t mod 60) in *.
  pose proof (Z.div_mod q 1440 ltac:(lia)) as Eq.
  pose proof (Z.mod_pos_bound q 1440 ltac:(lia)) as Bq.
  set (D := q / 1440) in *. set (R := q mod 1440) in *.
  pose proof (Z.div_mod R 60 ltac:(lia)) as ER.
  pose proof (Z.mod_pos_bound R 60 ltac:(lia)) as BR.
  set (h := R / 60) in *. set (mi := R mod 60) in *.
  assert (E1 : t / 86400 = D)
    by (symmetry; apply (Z.div_unique t 86400 D (60 * R + r)); lia).
  assert (E2 : t mod 86400 = 60 * R + r)
    by (symmetry; apply (Z.mod_unique t 86400 D (60 * R + r)); lia).
  assert (E3 : t mod 3600 = 60 * mi + r)
    by (symmetry; apply (Z.mod_unique t 3600 (24 * D + h) (60 * mi + r));
        lia).
  assert (E4 : Z.modulo q 60 = mi)
    by (symmetry; apply (Z.mod_unique q 60 (24 * D + h) mi); lia).
  rewrite E1, E2, E3, E4. repeat split.
  - symmetry. apply (Z.div_unique (60 * R + r) 3600 h (60 * mi + r)); lia.
  - symmetry. apply (Z.div_unique (60 * mi + r) 60 mi r); lia.
Qed.

Lemma same_minute_fields (t1 t2 : datetime) :
  t1 / 60 = t2 / 60 ->
  toordinal t1 = toordinal t2 /\ hour_of t1 = hour_of t2 /\
  minute_of t1 = minute_of t2.
Proof.
  intros H.
  destruct (fields_by_minute t1) as (-> & -> & ->).
  destruct (fields_by_minute t2) as (-> & -> & ->).
  rewrite H. repeat split.
Qed.

Lemma stamp_of_minute (t : datetime) :
  strftime_YmdHMS (60 * (t / 60)) = with_separators (strftime_YmdHM t).
Proof.
  assert (E : (60 * (t / 60)) / 60 = t / 60)
    by (rewrite Z.mul_comm; apply Z.div_mul; lia).
  destruct (same_minute_fields _ _ E) as (Eo & Eh & Em).
  assert (Es : second_of (60 * (t / 60)) = 0)
    by (unfold second_of; rewrite Z.mul_comm; apply Z.mod_mul; lia).
  unfold strftime_YmdHMS, strftime_YmdHM, year_of, month_of, day_of.
  rewrite Eo, Eh, Em, Es. unfold pad4, pad2. reflexivity.
Qed.

(** The stamp of a restart file names the minute. *)
Lemma stamp_minute (t1 t2 : datetime) :
  0 <= t1 < 3652059 * 86400 -> 0 <= t2 < 3652059 * 86400 ->
  (strftime_YmdHM t1 = strftime_YmdHM t2 <-> t1 / 60 = t2 / 60).
Proof.
  intros H1 H2. split.
  - intros E.
    assert (E' : strftime_YmdHMS (60 * (t1 / 60))
                 = strftime_YmdHMS (60 * (t2 / 60)))
      by (rewrite !stamp_of_minute, E; reflexivity).
    apply LoaderFacts.strftime_YmdHMS_inj in E';
      Z.div_mod_to_equations; lia.
  - intros E. destruct (same_minute_fields _ _ E) as (Eo & Eh & Em).
    unfold strftime_YmdHM, year_of, month_of, day_of.
    rewrite Eo, Eh, Em. reflexivity.
Qed.

Lemma datetime_range (t : datetime) :
  mk_datetime 1000 1 1 0 0 0 <= t <= datetime_max ->
  0 <= t < 3652059 * 86400.
Proof.
  intros [Hlo Hhi].
  assert (H0 : 0 <= mk_datetime 1000 1 1 0 0 0) by (vm_compute; discriminate).
  assert (H1 : datetime_max < 3652059 * 86400) by reflexivity.
  lia.
Qed.

Lemma names_of_written (v : values) (t0 : datetime) (p : string)
    (model_time : Z) :
  well_shaped v model_time ->
  exists l,
    _write_lite_restart v t0 (Some (Path p)) = Ok l /\
    map path l
    = [(p, ("channel_restart_" ++ strftime_YmdHM (t0 + model_time))%string);
       (p, ("waterbody_restart_" ++ strftime_YmdHM (t0 + model_time))%string)].
Proof.
  intros (a & ids & w & wids & Ha & Hids & Hne & Hlen & Hw & Hwids & Hwne
          & Hwlen & Hm).
  rewrite (@written v t0 (Path p) a ids w wids model_time);
    try assumption; [|reflexivity].
  cbn [joinpath bind]. eexists. split; reflexivity.
Qed.

(** Two runs that write into the same directory: when they end in the
    same minute their restart files have the same names, the second run
    replaces the files of the first; otherwise no file of the one has
    the name of a file of the other. *)
Theorem restart_files_by_minute (v1 v2 : values) (t1 t2 : datetime)
    (p : string) (s1 s2 : Z) :
  well_shaped v1 s1 -> well_shaped v2 s2 ->
  mk_datetime 1000 1 1 0 0 0 <= t1 + s1 <= datetime_max ->
  mk_datetime 1000 1 1 0 0 0 <= t2 + s2 <= datetime_max ->
  exists l1 l2,
    _write_lite_restart v1 t1 (Some (Path p)) = Ok l1 /\
    _write_lite_restart v2 t2 (Some (Path p)) = Ok l2 /\
    ((t1 + s1) / 60 = (t2 + s2) / 60 -> map path l1 = map path l2) /\
    ((t1 + s1) / 60 <> (t2 + s2) / 60 ->
     forall x y, In x l1 -> In y l2 -> path x <> path y).
Proof.
  intros W1 W2 R1 R2. apply datetime_range in R1, R2.
  destruct (names_of_written t1 p W1) as (l1 & E1 & N1).
  destruct (names_of_written t2 p W2) as (l2 & E2 & N2).
  exists l1, l2. split; [exact E1|]. split; [exact E2|].
  pose proof (stamp_minute R1 R2) as Hs. split.
  - intros E. rewrite N1, N2. apply Hs in E. rewrite E. reflexivity.
  - intros Hne x y Hx Hy.
    apply (in_map path) in Hx, Hy. rewrite N1 in Hx. rewrite N2 in Hy.
    assert (Hd : strftime_YmdHM (t1 + s1) <> strftime_YmdHM (t2 + s2))
      by (intros E; apply Hne, Hs, E).
    cbn [In] in Hx, Hy.
    destruct Hx as [<-|[<-|[]]]; destruct Hy as [<-|[<-|[]]];
      intros E; cbn [String.append] in E; try discriminate E;
      apply Hd; injection E; intros;
      unfold strftime_YmdHM, pad4, pad2; cbn [String.append]; congruence.
Qed.

Lemma restart_files_by_minute_witness :
  exists l1 l2,
    _write_lite_restart Examples.restart_values Examples.t0
      (Some (Path "/restart")) = Ok l1 /\
    _write_lite_restart Examples.later_values Examples.t0
      (Some (Path "/restart")) = Ok l2 /\
    forall x y, In x l1 -> In y l2 -> path x <> path y.
Proof.
  destruct (@restart_files_by_minute Examples.restart_values
              Examples.later_values Examples.t0 Examples.t0 "/restart"
              3600 3690)
    as (l1 & l2 & E1 & E2 & _ & H).
  - exists [1; 2; 3; 4; 5; 6]%float, [101; 102],
      [0; 1; 2; 3; 4; 5; 6; 7; 8; 9; 10; 11]%float, [7].
    repeat split; try reflexivity; discriminate.
  - exists [1; 2; 3; 4; 5; 6]%float, [101; 102],
      [0; 1; 2; 3; 4; 5; 6; 7; 8; 9; 10; 11]%float, [7].
    repeat split; try reflexivity; discriminate.
  - vm_compute. split; discriminate.
  - vm_compute. split; discriminate.
  - exists l1, l2. split; [exact E1|]. split; [exact E2|].
    apply H. vm_compute. discriminate.
Defined.

End StampFacts.
